(** * Payroll export: hour classification and pay calculation

    A shallow embedding of [Payrollv2.py] (the payroll export generator
    with on-call support) and the properties of its period calculator,
    hour classifier, on-call reconciler, fixed-hours proration and pay
    calculator.

    Numbers.  Python [int]s are [Z].  Python [float]s are modelled as exact
    rationals [Q] compared with [==]; [round(x, 2)] is rounding to the
    nearest hundredth, ties to even.  The on-call reconciler, whose total
    depends on the rounding of each float operation, is also given in IEEE
    754 binary64, with the operations of [SpecFloat].  Dictionaries are
    stdpp [gmap]s. *)

From Stdlib Require Import ZArith QArith Qround Qminmax Qabs Lia Lqa Bool.
From Stdlib Require Import SpecFloat.
From Stdlib.Strings Require Byte.
From stdpp Require Import gmap strings list fin_maps sorting.

Local Open Scope Z_scope.

(** ** Numeric helpers *)

(** Python's [a < b] on floats, as a boolean. *)
Definition Qltb (a b : Q) : bool := negb (Qle_bool b a).

(** Nearest integer, ties to even. *)
Definition round_half_even (x : Q) : Z :=
  let f := Qfloor x in
  match (x - inject_Z f ?= 1 # 2)%Q with
  | Lt => f
  | Gt => f + 1
  | Eq => if Z.even f then f else f + 1
  end.

(** Python's [round(x, 2)]. *)
Definition round2 (x : Q) : Q := round_half_even (x * 100) # 100.

(** ** Constants (Payrollv2.py, lines 20-22) *)

Definition UK_MINIMUM_WAGE : Q := 1221 # 100.
Definition ON_CALL_ROLE_NAME : string := "On-Call".
Definition ON_CALL_FLAT_RATE : Q := 15.

(** ** Calendar dates: the part of [datetime.date] the program uses *)

Record date := mkDate { year : Z; month : Z; day : Z }.

Definition MINYEAR : Z := 1.
Definition MAXYEAR : Z := 9999.

Definition is_leap (y : Z) : bool :=
  (y mod 4 =? 0) && (negb (y mod 100 =? 0) || (y mod 400 =? 0)).

Definition days_in_month (y m : Z) : Z :=
  if m =? 2 then (if is_leap y then 29 else 28)
  else if (m =? 4) || (m =? 6) || (m =? 9) || (m =? 11) then 30
  else 31.

(** [datetime.date(y, m, d)]: [None] stands for the [ValueError] raised on
    a year, month or day out of range. *)
Definition datetime_date (y m d : Z) : option date :=
  if (MINYEAR <=? y) && (y <=? MAXYEAR) && (1 <=? m) && (m <=? 12)
     && (1 <=? d) && (d <=? days_in_month y m)
  then Some (mkDate y m d) else None.

Definition days_before_year (y : Z) : Z :=
  let p := y - 1 in p * 365 + p / 4 - p / 100 + p / 400.

Fixpoint days_before_month_from (y : Z) (n : nat) (m : Z) : Z :=
  match n with
  | O => 0
  | S k => days_before_month_from y k (m - 1) + days_in_month y (m - 1)
  end.

Definition days_before_month (y m : Z) : Z :=
  days_before_month_from y (Z.to_nat (m - 1)) m.

Definition toordinal (d : date) : Z :=
  days_before_year (year d) + days_before_month (year d) (month d) + day d.

(** Python compares dates as (year, month, day) triples. *)
Definition date_leb (a b : date) : bool :=
  (year a <? year b)
  || ((year a =? year b)
      && ((month a <? month b)
          || ((month a =? month b) && (day a <=? day b)))).

(** ** Period calculator (lines 26-87) *)

(** [get_monthly_payroll_period]; [None] is the [(None, None)] the source
    returns after reporting an invalid start or end date. *)
Definition get_monthly_payroll_period (y m : Z) : option (date * date) :=
  match datetime_date y m 11 with
  | None => None
  | Some start_date =>
      let '(next_month, next_year) :=
        if m =? 12 then (1, y + 1) else (m + 1, y) in
      match datetime_date next_year next_month 10 with
      | None => None
      | Some end_date => Some (start_date, end_date)
      end
  end.

(** The target (month, year) chosen by the branch [today.day <= 10]. *)
Definition target_on_or_before_10th (today : date) : Z * Z :=
  if month today =? 1 then (12, year today - 1)
  else (month today - 1, year today).

(** The target (month, year) chosen by the branch [today.day > 10]. *)
Definition target_after_10th (today : date) : Z * Z :=
  if month today =? 1 then (12, year today - 1)
  else (month today - 1, year today).

Definition get_default_payroll_period (today : date) : option (date * date) :=
  let '(target_month, target_year) :=
    if day today <=? 10 then target_on_or_before_10th today
    else target_after_10th today in
  get_monthly_payroll_period target_year target_month.

(** What the specification says the default period is: from the 11th of the
    month before [today]'s (December of the previous year in January) to
    the 10th of [today]'s month. *)
Definition spec_default_period (today : date) : date * date :=
  (if month today =? 1 then mkDate (year today - 1) 12 11
   else mkDate (year today) (month today - 1) 11,
   mkDate (year today) (month today) 10).

Definition calculate_period_days (start_date end_date : date) : Z :=
  (toordinal end_date - toordinal start_date) + 1.

(** ** Fixed-hours proration (lines 564-583) *)

Definition calculate_fixed_hours (weekly_hours : Q) (period_days : Z) : Q :=
  if Qle_bool weekly_hours 0 || (period_days <=? 0) then 0%Q
  else
    let full_weeks := period_days / 7 in
    let remainder_days := period_days mod 7 in
    let full_weeks_total := (inject_Z full_weeks * weekly_hours)%Q in
    let proportional_remainder :=
      ((inject_Z remainder_days / 7) * weekly_hours)%Q in
    let fixed_hours := (full_weeks_total + proportional_remainder)%Q in
    round2 fixed_hours.

(** ** Records exchanged with the scheduling API *)

(** A shift as returned by [GET shifts]; a [None] field is a missing or
    null JSON field. *)
Record Shift := mkShift {
  shift_id : option Z;
  start_time : option Z;
  end_time : option Z;
  minutes_break : option Z;
  role : option Z
}.

(** The dictionary appended to [on_call_shifts] (lines 372-377). *)
Record OnCallShift := mkOnCallShift {
  oc_shift_id : option Z;
  oc_start_time : Z;
  oc_end_time : Z;
  oc_minutes_break : Z
}.

(** An attendance record as returned by [GET attendance]. *)
Record Attendance := mkAttendance {
  att_shift : option Z;
  in_time : option Z;
  out_time : option Z;
  deleted : bool
}.

(** One entry of the [dates] list of a leave record; [le_date] is the
    result of [date_str_to_date] on its [date] field. *)
Record LeaveDate := mkLeaveDate {
  le_date : option date;
  le_days : option Q;
  le_hours : option Q
}.

Record LeaveRecord := mkLeaveRecord {
  lr_status : option string;
  lr_type : option Z;
  lr_dates : list LeaveDate
}.

(** A user as returned by [GET users]; [u_role_rates] holds the parsed
    [per_hour] overrides by integer role id. *)
Record User := mkUser {
  u_id : Z;
  u_name : string;
  u_salary_type : option string;
  u_salary : option Q;
  u_weekly_hours : option Q;
  u_role_rates : gmap Z Q
}.

(** The dictionary built by [get_user_pay_details] (lines 311-331). *)
Record PayDetails := mkPayDetails {
  pd_pay_type : option string;
  pd_hourly_rate : Q;
  pd_annual_salary : Q;
  pd_role_rates : gmap Z Q;
  pd_standard_weekly_hours : Q
}.

(** Python truthiness of an optional integer: [None] and [0] are falsy. *)
Definition truthy (o : option Z) : bool :=
  match o with
  | Some z => negb (z =? 0)
  | None => false
  end.

(** [x.get(k, 0) or 0]. *)
Definition or0 (o : option Z) : Z := default 0 o.
Definition or0Q (o : option Q) : Q := default 0%Q o.

Definition is_str (o : option string) (s : string) : bool :=
  match o with
  | Some t => String.eqb t s
  | None => false
  end.

Definition get_user_pay_details (user_data : User) : PayDetails :=
  {| pd_pay_type := u_salary_type user_data;
     pd_hourly_rate :=
       if is_str (u_salary_type user_data) "hourly"
       then default 0%Q (u_salary user_data) else 0%Q;
     pd_annual_salary :=
       if is_str (u_salary_type user_data) "annual"
       then default 0%Q (u_salary user_data) else 0%Q;
     pd_role_rates := u_role_rates user_data;
     pd_standard_weekly_hours := default 0%Q (u_weekly_hours user_data) |}.

(** ** Hour classifier (lines 333-410) *)

(** An entry of the working dictionary [role_hours]. *)
Record RoleAcc := mkRoleAcc {
  ra_seconds : Z;
  ra_rate : Q;
  ra_name : string
}.

(** An entry of [role_hours_converted]. *)
Record RoleHours := mkRoleHours {
  rh_hours : Q;
  rh_rate : Q;
  rh_name : string
}.

(** The local variables of the loop together with the two dictionaries it
    mutates for its caller. *)
Record ClassifyState := mkClassifyState {
  total_seconds : Z;
  base_rate_seconds : Z;
  role_hours : gmap Z RoleAcc;
  on_call_shifts : list OnCallShift;
  all_custom_roles : gmap Z string;
  role_id_to_name : gmap (option Z) string
}.

(** What [calculate_shift_hours_by_role] returns, with the final contents
    of the two dictionaries it was passed. *)
Record ClassifiedHours := mkClassifiedHours {
  ch_total_hours : Q;
  ch_base_rate_hours : Q;
  ch_custom_role_hours : gmap Z RoleHours;
  ch_on_call_shifts : list OnCallShift;
  ch_all_custom_roles : gmap Z string;
  ch_role_id_to_name : gmap (option Z) string
}.

Definition seconds_to_hours (s : Z) : Q := round2 (inject_Z s / 3600).

Definition convert_role (data : RoleAcc) : RoleHours :=
  {| rh_hours := seconds_to_hours (ra_seconds data);
     rh_rate := ra_rate data;
     rh_name := ra_name data |}.

(** Warnings shown with [st.warning] by the on-call reconciler. *)
Inductive Warning :=
  | CouldNotConvert (shift : option Z)
  | InvalidOnCallHours (shift : option Z) (hours : Q)
  | SuspiciouslyLong (shift : option Z) (hours : Q).

(** One entry of [payroll_data] (lines 1075-1092). *)
Record PayrollRecord := mkPayrollRecord {
  employee_name : string;
  pay_type : option string;
  annual_salary : Q;
  hourly_rate : Q;
  weekly_hours : Q;
  total_hours : Q;
  total_hours_display : Q;
  fixed_hours : Q;
  rate_1 : Q;
  base_rate_hours : Q;
  custom_role_hours : gmap Z RoleHours;
  on_call_hours : Q;
  on_call_shift_count : Z;
  holiday_days : Q;
  holiday_hours : Q;
  sickness_days : Q
}.

(** What the API returns for one user during a run: the user record and
    the results of the shift, attendance and leave requests ([None] when a
    request fails). *)
Record UserData := mkUserData {
  ud_user : User;
  ud_shifts : option (list Shift);
  ud_attendance : option (list Attendance);
  ud_leave : option (list LeaveRecord)
}.

(** The variables of the main loop that outlive one iteration. *)
Record RunState := mkRunState {
  payroll_data : list PayrollRecord;
  rs_all_custom_roles : gmap Z string;
  rs_role_id_to_name : gmap (option Z) string
}.

(** The order in which role columns are laid out: by role name. *)
Definition name_le (a b : Z * string) : Prop := String.leb a.2 b.2 = true.

#[global] Instance name_le_dec a b : Decision (name_le a b).
Proof. unfold name_le. apply _. Defined.

Section Engine.

(** The name [get_role_name] obtains for a role id from the roles endpoint,
    including its fall-back on a failed request. *)
Variable fetch_role_name : Z -> string.

(** Whether [datetime.fromtimestamp] followed by [astimezone] succeeds on a
    timestamp. *)
Variable timestamp_converts : Z -> bool.

Definition get_role_name (role_id : option Z) : string :=
  match role_id with
  | None => "Unknown Role"
  | Some r => fetch_role_name r
  end.

(** [role_id and role_id in role_rates], with the rate found. *)
Definition custom_rate_of (role_rates : gmap Z Q) (role_id : option Z)
  : option (Z * Q) :=
  match role_id with
  | Some r => if negb (r =? 0) then pair r <$> role_rates !! r else None
  | None => None
  end.

(** One iteration of the loop over [shifts_json]. *)
Definition classify_step (role_rates : gmap Z Q)
    (st : ClassifyState) (shift : Shift) : ClassifyState :=
  let mb := or0 (minutes_break shift) in
  let role_id := role shift in
  let names :=
    match role_id_to_name st !! role_id with
    | None => <[role_id := get_role_name role_id]> (role_id_to_name st)
    | Some _ => role_id_to_name st
    end in
  let role_name := default "Unknown"%string (names !! role_id) in
  match start_time shift, end_time shift with
  | Some st_unix, Some en_unix =>
      if String.eqb role_name ON_CALL_ROLE_NAME then
        mkClassifyState (total_seconds st) (base_rate_seconds st)
          (role_hours st)
          (on_call_shifts st
             ++ [mkOnCallShift (shift_id shift) st_unix en_unix mb])
          (all_custom_roles st) names
      else
        let duration := en_unix - st_unix in
        let net_seconds := duration - mb * 60 in
        let total := total_seconds st + net_seconds in
        match custom_rate_of role_rates role_id with
        | Some (r, custom_rate) =>
            let '(hours, roles) :=
              match role_hours st !! r with
              | None =>
                  let role_name := get_role_name role_id in
                  (<[r := mkRoleAcc 0 custom_rate role_name]> (role_hours st),
                   <[r := role_name]> (all_custom_roles st))
              | Some _ => (role_hours st, all_custom_roles st)
              end in
            mkClassifyState total (base_rate_seconds st)
              (alter (fun d => mkRoleAcc (ra_seconds d + net_seconds)
                                 (ra_rate d) (ra_name d)) r hours)
              (on_call_shifts st) roles names
        | None =>
            mkClassifyState total (base_rate_seconds st + net_seconds)
              (role_hours st) (on_call_shifts st) (all_custom_roles st) names
        end
  | _, _ =>
      mkClassifyState (total_seconds st) (base_rate_seconds st)
        (role_hours st) (on_call_shifts st) (all_custom_roles st) names
  end.

(** [calculate_shift_hours_by_role]; the unused [default_hourly_rate]
    argument is left out. *)
Definition calculate_shift_hours_by_role (shifts_json : option (list Shift))
    (user_pay_details : PayDetails) (roles : gmap Z string)
    (names : gmap (option Z) string) : ClassifiedHours :=
  match shifts_json with
  | None | Some [] => mkClassifiedHours 0 0 ∅ [] roles names
  | Some shifts =>
      let st :=
        fold_left (classify_step (pd_role_rates user_pay_details)) shifts
          (mkClassifyState 0 0 ∅ [] roles names) in
      mkClassifiedHours
        (seconds_to_hours (total_seconds st))
        (seconds_to_hours (base_rate_seconds st))
        (convert_role <$> role_hours st)
        (on_call_shifts st) (all_custom_roles st) (role_id_to_name st)
  end.

(** ** On-call reconciler (lines 412-530) *)

Definition unix_to_datetime (unix_ts : Z) : option Z :=
  if unix_ts =? 0 then None
  else if timestamp_converts unix_ts then Some unix_ts else None.

(** The dictionary [shift_lookup]: stubs without a truthy id are left out. *)
Definition build_shift_lookup (stubs : list OnCallShift)
  : gmap (option Z) (Z * Z * Z) :=
  fold_left
    (fun lookup shift =>
       if negb (truthy (oc_shift_id shift)) then lookup
       else <[oc_shift_id shift :=
                (oc_start_time shift, oc_end_time shift,
                 oc_minutes_break shift)]> lookup)
    stubs ∅.

(** One iteration of the loop over [attendance_data]; the state is the
    running total and the warnings shown so far.  The hours are exact
    rationals here; [on_call_step_binary64] below has the floats of the
    source. *)
Definition on_call_step (shift_lookup : gmap (option Z) (Z * Z * Z))
    (acc : Q * list Warning) (attendance : Attendance) : Q * list Warning :=
  if deleted attendance then acc
  else
    let sid := att_shift attendance in
    match shift_lookup !! sid with
    | None => acc
    | Some _ =>
        if negb (truthy (in_time attendance))
           || negb (truthy (out_time attendance)) then acc
        else
          let i := or0 (in_time attendance) in
          let o := or0 (out_time attendance) in
          match unix_to_datetime i, unix_to_datetime o with
          | Some _, Some _ =>
              let hours_worked := (inject_Z (o - i) / 3600)%Q in
              if Qle_bool hours_worked 0 then
                (fst acc, snd acc ++ [InvalidOnCallHours sid hours_worked])
              else
                ((fst acc + hours_worked)%Q,
                 snd acc ++ (if Qltb 12 hours_worked
                             then [SuspiciouslyLong sid hours_worked]
                             else []))
          | _, _ => (fst acc, snd acc ++ [CouldNotConvert sid])
          end
    end.

(** [calculate_on_call_hours]: the pair it returns and the warnings shown. *)
Definition calculate_on_call_hours (stubs : list OnCallShift)
    (attendance_data : option (list Attendance)) : Q * Z * list Warning :=
  match stubs with
  | [] => (0%Q, 0, [])
  | _ =>
      let total_on_call_shifts := Z.of_nat (length stubs) in
      match attendance_data with
      | None | Some [] => (0%Q, total_on_call_shifts, [])
      | Some records =>
          let shift_lookup := build_shift_lookup stubs in
          let acc := fold_left (on_call_step shift_lookup) records (0%Q, []) in
          (round2 (fst acc), total_on_call_shifts, snd acc)
      end
  end.

(** ** Leave aggregator (lines 532-562) *)

Definition leave_date_step (leave_type : option Z) (start_date end_date : date)
    (acc : Q * Q * Q) (date_entry : LeaveDate) : Q * Q * Q :=
  let '(hd, hh, sd) := acc in
  match le_date date_entry with
  | None => acc
  | Some ddate =>
      if date_leb start_date ddate && date_leb ddate end_date then
        let days_val := or0Q (le_days date_entry) in
        let hours_val := or0Q (le_hours date_entry) in
        match leave_type with
        | Some 1 => ((hd + days_val)%Q, (hh + hours_val)%Q, sd)
        | Some 3 => (hd, hh, (sd + days_val)%Q)
        | _ => acc
        end
      else acc
  end.

Definition leave_record_step (start_date end_date : date)
    (acc : Q * Q * Q) (record : LeaveRecord) : Q * Q * Q :=
  if negb (is_str (lr_status record) "approved") then acc
  else fold_left (leave_date_step (lr_type record) start_date end_date)
         (lr_dates record) acc.

Definition calculate_leave_hours (leave_json : option (list LeaveRecord))
    (start_date end_date : date) : Q * Q * Q :=
  match leave_json with
  | None | Some [] => (0%Q, 0%Q, 0%Q)
  | Some records =>
      let '(hd, hh, sd) :=
        fold_left (leave_record_step start_date end_date) records
          (0%Q, 0%Q, 0%Q) in
      (round2 hd, round2 hh, round2 sd)
  end.

(** ** Main loop: one payroll record per user (lines 998-1092) *)

(** [rate_1] as computed at lines 1011-1016. *)
Definition rate_1_of (pay_details : PayDetails) : Q :=
  if is_str (pd_pay_type pay_details) "hourly" then pd_hourly_rate pay_details
  else if is_str (pd_pay_type pay_details) "annual"
          && Qltb 0 (pd_standard_weekly_hours pay_details)
  then ((pd_annual_salary pay_details / 52)
        / pd_standard_weekly_hours pay_details)%Q
  else 0%Q.

(** The on-call hours and shift count of lines 1046-1058. *)
Definition on_call_of (stubs : list OnCallShift)
    (attendance_data : option (list Attendance)) : Q * Z :=
  match stubs with
  | [] => (0%Q, 0)
  | _ => fst (calculate_on_call_hours stubs attendance_data)
  end.

(** The test guarding [payroll_data.append] (line 1074). *)
Definition included (total_hours holiday_hours holiday_days sickness_days
                     on_call_hours : Q) : bool :=
  Qltb 0 total_hours || Qltb 0 holiday_hours || Qltb 0 holiday_days
  || Qltb 0 sickness_days || Qltb 0 on_call_hours.

(** The body of the loop for one user: the record appended to
    [payroll_data], if any, and the two shared dictionaries afterwards. *)
Definition process_user (period_days : Z) (start_date end_date : date)
    (roles : gmap Z string) (names : gmap (option Z) string) (ud : UserData)
  : option PayrollRecord * gmap Z string * gmap (option Z) string :=
  let user := ud_user ud in
  let pay_details := get_user_pay_details user in
  let rate_1 := rate_1_of pay_details in
  let weekly_hours := pd_standard_weekly_hours pay_details in
  let fixed_hours := calculate_fixed_hours weekly_hours period_days in
  let ch := calculate_shift_hours_by_role (ud_shifts ud) pay_details
              roles names in
  let roles' := ch_all_custom_roles ch ∪ (rh_name <$> ch_custom_role_hours ch) in
  let '(on_call_hours, on_call_shift_count) :=
    on_call_of (ch_on_call_shifts ch) (ud_attendance ud) in
  let '(holiday_days, holiday_hours, sickness_days) :=
    calculate_leave_hours (ud_leave ud) start_date end_date in
  let total_hours := ch_total_hours ch in
  (if included total_hours holiday_hours holiday_days sickness_days
        on_call_hours
   then Some {|
     employee_name := u_name user;
     pay_type := pd_pay_type pay_details;
     annual_salary := pd_annual_salary pay_details;
     hourly_rate := pd_hourly_rate pay_details;
     weekly_hours := pd_standard_weekly_hours pay_details;
     total_hours := total_hours;
     total_hours_display := (total_hours + on_call_hours)%Q;
     fixed_hours := fixed_hours;
     rate_1 := round2 rate_1;
     base_rate_hours := ch_base_rate_hours ch;
     custom_role_hours := ch_custom_role_hours ch;
     on_call_hours := on_call_hours;
     on_call_shift_count := on_call_shift_count;
     holiday_days := holiday_days;
     holiday_hours := holiday_hours;
     sickness_days := sickness_days |}
   else None,
   roles', ch_role_id_to_name ch).

Definition run_step (period_days : Z) (start_date end_date : date)
    (rs : RunState) (ud : UserData) : RunState :=
  let '(rec, roles, names) :=
    process_user period_days start_date end_date
      (rs_all_custom_roles rs) (rs_role_id_to_name rs) ud in
  mkRunState
    (match rec with
     | Some r => payroll_data rs ++ [r]
     | None => payroll_data rs
     end)
    roles names.

(** The loop over [users_to_process], from empty dictionaries. *)
Definition build_payroll_data (period_days : Z) (start_date end_date : date)
    (users : list UserData) : RunState :=
  fold_left (run_step period_days start_date end_date) users
    (mkRunState [] ∅ ∅).

(** ** Pay calculator: the preview (lines 1118-1141) *)

Definition hours_worked (data : PayrollRecord) : Q :=
  Qmin (total_hours data) (fixed_hours data - on_call_hours data).

Definition overtime_hrs (data : PayrollRecord) : Q :=
  Qmax 0 (total_hours_display data - fixed_hours data).

(** [sum(rd['hours'] * rd['rate'] for rd in ....values())]. *)
Definition custom_role_pay (data : PayrollRecord) : Q :=
  fold_left (fun acc rd => (acc + rh_hours rd.2 * rh_rate rd.2)%Q)
    (map_to_list (custom_role_hours data)) 0%Q.

Definition total_pay (overtime_rate : Q) (data : PayrollRecord) : Q :=
  if is_str (pay_type data) "annual" then (annual_salary data / 12)%Q
  else
    let base_pay := (hours_worked data * rate_1 data)%Q in
    let on_call_hours_pay := (on_call_hours data * rate_1 data)%Q in
    let on_call_shifts_pay :=
      (inject_Z (on_call_shift_count data) * ON_CALL_FLAT_RATE)%Q in
    let overtime_pay := (overtime_hrs data * overtime_rate)%Q in
    let holiday_pay := (holiday_hours data * rate_1 data)%Q in
    (base_pay + custom_role_pay data + on_call_hours_pay + on_call_shifts_pay
     + overtime_pay + holiday_pay)%Q.

(** ** Pay calculator: the values of the spreadsheet formulas
    ([create_payroll_excel], lines 703-917) *)

(** [sorted(all_custom_roles.items(), key=lambda x: x[1])]. *)
Definition sorted_roles (roles : gmap Z string) : list (Z * string) :=
  merge_sort name_le (map_to_list roles).

(** The two cells written for a role: hours and rate, zero when the
    employee has no hours in that role. *)
Definition role_cells (data : PayrollRecord) (role_id : Z) : Q * Q :=
  match custom_role_hours data !! role_id with
  | Some rd => (rh_hours rd, rh_rate rd)
  | None => (0%Q, 0%Q)
  end.

(** [=MIN(D-L, E-L)]. *)
Definition excel_hours (data : PayrollRecord) : Q :=
  Qmin (total_hours_display data - on_call_hours data)
       (fixed_hours data - on_call_hours data).

(** [=MAX(0, D-E)]. *)
Definition excel_overtime (data : PayrollRecord) : Q :=
  Qmax 0 (total_hours_display data - fixed_hours data).

(** The total-pay cell: a literal for salaried staff, the value of the
    formula for everyone else. *)
Definition excel_total_pay (overtime_rate : Q) (roles : gmap Z string)
    (data : PayrollRecord) : Q :=
  if is_str (pay_type data) "annual" then (annual_salary data / 12)%Q
  else
    (fold_left
       (fun acc r => acc + (role_cells data r.1).1 * (role_cells data r.1).2)
       (sorted_roles roles) (excel_hours data * rate_1 data)
     + on_call_hours data * rate_1 data
     + inject_Z (on_call_shift_count data) * ON_CALL_FLAT_RATE
     + excel_overtime data * overtime_rate
     + holiday_hours data * rate_1 data)%Q.

(** ** The routing and acceptance rules the properties are stated with *)

(** Where the classifier sends a shift. *)
Inductive Route :=
  | Dropped
  | ToOnCall
  | ToCustom (role_id : Z)
  | ToBase.

#[global] Instance Route_eq_dec : EqDecision Route.
Proof. solve_decision. Defined.

(** The role name a shift resolves to when the loop starts with the cache
    [names]: the cached name if there is one, the fetched name otherwise. *)
Definition resolve (names : gmap (option Z) string) (role_id : option Z)
  : string :=
  match names !! role_id with
  | Some n => n
  | None => get_role_name role_id
  end.

Definition net_seconds (shift : Shift) : Z :=
  (or0 (end_time shift) - or0 (start_time shift))
  - or0 (minutes_break shift) * 60.

(** The bucket of a shift: none when a timestamp is missing, the on-call
    stubs when its role resolves to "On-Call", the bucket of its role when
    the employee has a rate override for it, the base bucket otherwise. *)
Definition route (names : gmap (option Z) string) (role_rates : gmap Z Q)
    (shift : Shift) : Route :=
  match start_time shift, end_time shift with
  | Some _, Some _ =>
      if String.eqb (resolve names (role shift)) ON_CALL_ROLE_NAME
      then ToOnCall
      else match custom_rate_of role_rates (role shift) with
           | Some (r, _) => ToCustom r
           | None => ToBase
           end
  | _, _ => Dropped
  end.

(** Net seconds of the shifts of a list that satisfy [keep]. *)
Definition seconds_where (keep : Shift -> bool) (shifts : list Shift) : Z :=
  foldr (fun shift acc => (if keep shift then net_seconds shift else 0) + acc)
    0 shifts.

(** Net seconds of the shifts of a list that go to a given bucket. *)
Definition seconds_routed (rt : Shift -> Route) (target : Route)
    (shifts : list Shift) : Z :=
  seconds_where (fun shift => bool_decide (rt shift = target)) shifts.

(** A shift that counts towards the total of worked hours: it goes to the
    base bucket or to a custom-role bucket. *)
Definition is_worked (rt : Shift -> Route) (shift : Shift) : bool :=
  match rt shift with
  | ToBase | ToCustom _ => true
  | Dropped | ToOnCall => false
  end.

(** The stub kept for a shift that goes to the on-call stubs. *)
Definition on_call_stub (rt : Shift -> Route) (shift : Shift)
  : option OnCallShift :=
  if bool_decide (rt shift = ToOnCall)
  then Some (mkOnCallShift (shift_id shift) (or0 (start_time shift))
               (or0 (end_time shift)) (or0 (minutes_break shift)))
  else None.

(** Hours between clock-in and clock-out of an attendance record. *)
Definition attendance_hours (a : Attendance) : Q :=
  (inject_Z (or0 (out_time a) - or0 (in_time a)) / 3600)%Q.

(** An attendance record's shift id is the id of one of the stubs. *)
Definition matches_stub (stubs : list OnCallShift) (a : Attendance) : bool :=
  existsb (fun s => bool_decide (oc_shift_id s = att_shift a)) stubs.

Definition present (o : option Z) : bool :=
  match o with
  | Some _ => true
  | None => false
  end.

(** The records the specification counts: not deleted, shift id matching a
    stub, both times present, strictly positive duration. *)
Definition counted_by_spec (stubs : list OnCallShift) (a : Attendance)
  : bool :=
  negb (deleted a) && matches_stub stubs a
  && present (in_time a) && present (out_time a)
  && Qltb 0 (attendance_hours a).

(** The records the reconciler counts: as above, and moreover the shift id
    and both times are truthy (neither null nor zero) and both times
    convert to a datetime. *)
Definition counted (stubs : list OnCallShift) (a : Attendance) : bool :=
  negb (deleted a) && truthy (att_shift a) && matches_stub stubs a
  && truthy (in_time a) && truthy (out_time a)
  && timestamp_converts (or0 (in_time a))
  && timestamp_converts (or0 (out_time a))
  && Qltb 0 (attendance_hours a).

Definition sum_hours (keep : Attendance -> bool) (records : list Attendance)
  : Q :=
  foldr (fun a acc => ((if keep a then attendance_hours a else 0) + acc)%Q)
    0%Q records.

(** The worked hours the specification describes. *)
Definition spec_worked_hours (stubs : list OnCallShift)
    (records : list Attendance) : Q :=
  round2 (sum_hours (counted_by_spec stubs) records).

(** What every record appended to [payroll_data] satisfies. *)
Definition record_ok (data : PayrollRecord) : Prop :=
  (total_hours_display data == total_hours data + on_call_hours data)%Q
  /\ (0 <= on_call_hours data)%Q.

End Engine.

(** ** Period navigation (lines 122-146) *)

(** The "Previous" button, on the (year, month) kept in the session. *)
Definition previous_period (y m : Z) : Z * Z :=
  if m =? 1 then (y - 1, 12) else (y, m - 1).

(** The "Next" button. *)
Definition next_period (y m : Z) : Z * Z :=
  if m =? 12 then (y + 1, 1) else (y, m + 1).

(** ** Users to process (line 995) *)

Definition users_to_process (ignored_user_ids : gset Z)
    (all_users : list UserData) : list UserData :=
  filter (fun ud => u_id (ud_user ud) ∉ ignored_user_ids) all_users.

(** ** Staff ordering (lines 1100-1107) *)

Section StaffOrdering.

(** [str.lower]. *)
Variable lower : string -> string.

Definition sort_key (x : PayrollRecord) : string := lower (employee_name x).

(** Python's [list.sort] is stable: a record goes before the first record
    whose key is not smaller than its own. *)
Fixpoint insert_by_key (x : PayrollRecord) (l : list PayrollRecord)
  : list PayrollRecord :=
  match l with
  | [] => [x]
  | y :: l' =>
      if String.leb (sort_key x) (sort_key y) then x :: y :: l'
      else y :: insert_by_key x l'
  end.

Definition sort_by_key (l : list PayrollRecord) : list PayrollRecord :=
  foldr insert_by_key [] l.

Definition is_salaried (p : PayrollRecord) : bool :=
  is_str (pay_type p) "annual".

Definition order_staff (payroll_data : list PayrollRecord)
  : list PayrollRecord :=
  let salaried_staff := List.filter is_salaried payroll_data in
  let hourly_staff :=
    List.filter (fun p => negb (is_salaried p)) payroll_data in
  sort_by_key salaried_staff ++ sort_by_key hourly_staff.

End StaffOrdering.

(** ** Spreadsheet layout ([create_payroll_excel], lines 607-695 and
    919-949) *)

Definition base_headers : list string :=
  ["Employee Name"; "Pay Type"; "Weekly Hrs"; "Total Hrs"; "Fixed Hrs";
   "Hours"; "Rate 1 (£)"]%string.

Definition custom_role_headers (roles : list (Z * string)) : list string :=
  fold_left
    (fun acc r => acc ++ [(r.2 ++ " Hrs")%string;
                           (r.2 ++ " Rate (£)")%string])
    roles [].

Definition on_call_headers : list string :=
  ["On-Call Hrs"; "On-Call Shifts"; "On-Call Flat Rate (£)"]%string.

Definition end_headers : list string :=
  ["Overtime Hrs"; "Rate 2 (£)"; "Holiday (Days)"; "Holiday (Hrs)";
   "Sickness (Days)"; "TOTAL PAY (£)"]%string.

Definition headers (roles : list (Z * string)) : list string :=
  base_headers ++ custom_role_headers roles ++ on_call_headers ++ end_headers.

(** Column numbers, counted from 1 as the worksheet does;
    [n] is [num_custom_role_cols]. *)
Definition weekly_hrs_col : nat := 3.
Definition total_hrs_col : nat := 4.
Definition fixed_hrs_col : nat := 5.
Definition hours_col : nat := 6.
Definition rate1_col : nat := 7.
Definition custom_role_start_col : nat := 8.
Definition on_call_hrs_col (n : nat) : nat := custom_role_start_col + n.
Definition on_call_shifts_col (n : nat) : nat := on_call_hrs_col n + 1.
Definition on_call_flat_rate_col (n : nat) : nat := on_call_shifts_col n + 1.
Definition overtime_hrs_col (n : nat) : nat := on_call_flat_rate_col n + 1.
Definition rate2_col (n : nat) : nat := overtime_hrs_col n + 1.
Definition holiday_days_col (n : nat) : nat := rate2_col n + 1.
Definition holiday_hrs_col (n : nat) : nat := holiday_days_col n + 1.
Definition sickness_days_col (n : nat) : nat := holiday_hrs_col n + 1.
Definition total_pay_col (n : nat) : nat := sickness_days_col n + 1.

(** The columns summed in the totals row. *)
Definition sum_columns (roles : list (Z * string)) : list nat :=
  let n := length (custom_role_headers roles) in
  let custom :=
    fst (fold_left
           (fun '(cols, col_offset) (_ : Z * string) =>
              (cols ++ [custom_role_start_col + col_offset], col_offset + 2)%nat)
           roles ([weekly_hrs_col; total_hrs_col; fixed_hrs_col; hours_col],
                  0%nat)) in
  custom ++ [on_call_hrs_col n; on_call_shifts_col n; overtime_hrs_col n;
             holiday_days_col n; holiday_hrs_col n; sickness_days_col n;
             total_pay_col n].

Inductive NumberFormat := CurrencyFormat | PlainNumberFormat.

(** The number format given to the totals cell of a summed column. *)
Definition total_cell_format (n col : nat) : NumberFormat :=
  if (col =? total_pay_col n)%nat then CurrencyFormat
  else if bool_decide
            (col ∈ [rate1_col; rate2_col n; on_call_flat_rate_col n])
          || ((custom_role_start_col <=? col)%nat
              && ((col - custom_role_start_col) mod 2 =? 1)%nat)
  then CurrencyFormat
  else PlainNumberFormat.

(** ** Image type detection ([imghdr.py], the signature checks of [what]) *)

#[global] Instance byte_eq_dec : EqDecision Byte.byte := Byte.byte_eq_dec.

(** [b.startswith(prefix)]. *)
Definition startswith (b prefix : list Byte.byte) : bool :=
  bool_decide (take (length prefix) b = prefix).

Definition sig_jpeg : list Byte.byte := [Byte.xff; Byte.xd8].
Definition sig_png : list Byte.byte :=
  [Byte.x89; Byte.x50; Byte.x4e; Byte.x47; Byte.x0d; Byte.x0a; Byte.x1a;
   Byte.x0a].
Definition sig_gif87a : list Byte.byte :=
  [Byte.x47; Byte.x49; Byte.x46; Byte.x38; Byte.x37; Byte.x61].
Definition sig_gif89a : list Byte.byte :=
  [Byte.x47; Byte.x49; Byte.x46; Byte.x38; Byte.x39; Byte.x61].
Definition sig_bmp : list Byte.byte := [Byte.x42; Byte.x4d].
Definition sig_riff : list Byte.byte :=
  [Byte.x52; Byte.x49; Byte.x46; Byte.x46].
Definition sig_webp : list Byte.byte :=
  [Byte.x57; Byte.x45; Byte.x42; Byte.x50].
Definition sig_ico1 : list Byte.byte :=
  [Byte.x00; Byte.x00; Byte.x01; Byte.x00].
Definition sig_ico2 : list Byte.byte :=
  [Byte.x00; Byte.x00; Byte.x02; Byte.x00].

(** The signature-based detection at the end of [what]. *)
Definition signature_what (b : list Byte.byte) : option string :=
  if startswith b sig_jpeg then Some "jpeg"%string
  else if startswith b sig_png then Some "png"%string
  else if bool_decide (take 6 b = sig_gif87a)
          || bool_decide (take 6 b = sig_gif89a) then Some "gif"%string
  else if startswith b sig_bmp then Some "bmp"%string
  else if (12 <=? length b)%nat
          && bool_decide (take 4 b = sig_riff)
          && bool_decide (take 4 (drop 8 b) = sig_webp) then Some "webp"%string
  else if startswith b sig_ico1 || startswith b sig_ico2 then Some "ico"%string
  else None.

(** [what(filename, h)] when header bytes [h] are given: [pillow h] is the
    lower-cased format Pillow reports for the bytes, if Pillow is installed,
    opens them and reports one. *)
Definition what_header (pillow : list Byte.byte -> option string)
    (h : list Byte.byte) : option string :=
  match h with
  | [] => None
  | _ =>
      match pillow h with
      | Some fmt => Some fmt
      | None => signature_what h
      end
  end.

(** ** On-call reconciler: the floats of lines 423-530 in binary64 *)

(** [calculate_on_call_hours] above carries the hours as exact rationals,
    which is what the pay formulas are stated over.  The source computes
    them with Python [float]s, IEEE 754 binary64: every operation rounds to
    the nearest float, ties to even, so the total depends on the roundings
    and on the order of the additions.  The definitions below are the same
    function with each float operation of the source performed in
    binary64. *)

Definition prec : Z := 53.
Definition emax : Z := 1024.

(** The float nearest to an int. *)
Definition float_of_int (z : Z) : spec_float :=
  binary_normalize prec emax z 0 false.

(** The conversion of the int operand of [int / float]; [None] stands for
    the [OverflowError] raised on an int beyond the range of floats. *)
Definition int_to_float (z : Z) : option spec_float :=
  match float_of_int z with
  | S754_infinity _ => None
  | x => Some x
  end.

(** The literals [0.0] and [3600.0], and the float that [12] is compared
    as. *)
Definition float_zero : spec_float := S754_zero false.
Definition float_3600 : spec_float := float_of_int 3600.
Definition float_12 : spec_float := float_of_int 12.

(** The rational number a finite float stands for. *)
Definition float_value (x : spec_float) : Q :=
  match x with
  | S754_finite s m e => (inject_Z (cond_Zopp s (Zpos m)) * 2 ^ e)%Q
  | _ => 0%Q
  end.

(** The float nearest to [n / d]; [zero_sign] is the sign given to a
    zero. *)
Definition float_of_ratio (n : Z) (d : positive) (zero_sign : bool)
  : spec_float :=
  match n with
  | Z0 => S754_zero zero_sign
  | Zpos p => SFdiv prec emax (S754_finite false p 0) (S754_finite false d 0)
  | Zneg p => SFdiv prec emax (S754_finite true p 0) (S754_finite false d 0)
  end.

(** The float a decimal such as [8.28] denotes. *)
Definition nearest_float (q : Q) : spec_float :=
  float_of_ratio (Qnum q) (Qden q) false.

(** Python's [round(x, 2)] on a float: the decimal with two places nearest
    to the value of [x], ties to even, read back as a float.  Zeros,
    infinities and nan round to themselves. *)
Definition round_2 (x : spec_float) : spec_float :=
  match x with
  | S754_finite s _ _ =>
      float_of_ratio (round_half_even (float_value x * 100)) 100 s
  | _ => x
  end.

Section OnCallBinary64.

Variable timestamp_converts : Z -> bool.

(** One iteration of the loop over [attendance_data] (lines 467-525).
    [None] stands for an exception that leaves the function: the
    [OverflowError] of an int too large for a float is not among the
    [(TypeError, ValueError)] that the loop catches. *)
Definition on_call_step_binary64 (shift_lookup : gmap (option Z) (Z * Z * Z))
    (acc : spec_float * list Warning) (attendance : Attendance)
  : option (spec_float * list Warning) :=
  if deleted attendance then Some acc
  else
    let shift_id := att_shift attendance in
    match shift_lookup !! shift_id with
    | None => Some acc
    | Some _ =>
        if negb (truthy (in_time attendance))
           || negb (truthy (out_time attendance)) then Some acc
        else
          let i := or0 (in_time attendance) in
          let o := or0 (out_time attendance) in
          match unix_to_datetime timestamp_converts i,
                unix_to_datetime timestamp_converts o with
          | Some _, Some _ =>
              match int_to_float (o - i) with
              | None => None
              | Some seconds =>
                  let hours := SFdiv prec emax seconds float_3600 in
                  if SFleb hours float_zero then
                    Some (fst acc,
                          snd acc
                          ++ [InvalidOnCallHours shift_id (float_value hours)])
                  else
                    Some (SFadd prec emax (fst acc) hours,
                          snd acc
                          ++ (if SFltb float_12 hours
                              then [SuspiciouslyLong shift_id
                                      (float_value hours)]
                              else []))
              end
          | _, _ => Some (fst acc, snd acc ++ [CouldNotConvert shift_id])
          end
    end.

(** [calculate_on_call_hours] with its floats: the total worked hours, the
    number of assigned shifts and the warnings shown. *)
Definition calculate_on_call_hours_binary64 (stubs : list OnCallShift)
    (attendance_data : option (list Attendance))
  : option (spec_float * Z * list Warning) :=
  match stubs with
  | [] => Some (float_zero, 0, [])
  | _ =>
      let total_on_call_shifts := Z.of_nat (length stubs) in
      match attendance_data with
      | None | Some [] => Some (float_zero, total_on_call_shifts, [])
      | Some records =>
          let shift_lookup := build_shift_lookup stubs in
          acc ← fold_left
                  (fun acc attendance =>
                     acc ≫= fun running =>
                       on_call_step_binary64 shift_lookup running attendance)
                  records (Some (float_zero, []));
          Some (round_2 (fst acc), total_on_call_shifts, snd acc)
      end
  end.

End OnCallBinary64.

(** [(out_time - in_time) / 3600.0] of an attendance record. *)
Definition attendance_hours_binary64 (a : Attendance) : spec_float :=
  SFdiv prec emax (float_of_int (or0 (out_time a) - or0 (in_time a)))
    float_3600.

(** Floats added one after the other, starting from [0.0]. *)
Definition float_sum (xs : list spec_float) : spec_float :=
  fold_left (SFadd prec emax) xs float_zero.

(** [datetime.fromtimestamp] accepts the timestamps of the years 1 to
    9999 at most. *)
Definition MIN_TIMESTAMP : Z := -62135596800.
Definition MAX_TIMESTAMP : Z := 253402300799.

(** ** Sample runs used to exercise the properties *)

(** A roles endpoint on which role 9 is the on-call role. *)
Definition sample_role_name (r : Z) : string :=
  if r =? 9 then "On-Call"%string else "Care"%string.

(** Timestamps of the years 1 to 9999 convert to a datetime. *)
Definition sample_converts (ts : Z) : bool :=
  (-62135596800 <=? ts) && (ts <=? 253402300799).

(** Day [k] of the sample period: nine and a half hours with a thirty
    minute break, in an ordinary role. *)
Definition sample_base_shift (k : Z) : Shift :=
  mkShift (Some k) (Some (1736589600 + k * 86400))
    (Some (1736589600 + k * 86400 + 34200)) (Some 30) (Some 4).

(** An on-call shift on day [k], with id [100 + k]. *)
Definition sample_on_call_shift (k : Z) : Shift :=
  mkShift (Some (100 + k)) (Some (1736625600 + k * 86400))
    (Some (1736625600 + k * 86400 + 28800)) None (Some 9).

Definition sample_attendance (k hours : Z) : Attendance :=
  mkAttendance (Some (100 + k)) (Some (1736625600 + k * 86400))
    (Some (1736625600 + k * 86400 + hours * 3600)) false.

(** The employee of the worked example: 14 per hour, 40 weekly hours,
    twenty nine-hour shifts, ten on-call shifts of which three were
    attended for 8, 8 and 4 hours. *)
Definition worked_example_user : UserData :=
  mkUserData
    (mkUser 1 "Ann Example" (Some "hourly"%string) (Some 14%Q) (Some 40%Q) ∅)
    (Some (map sample_base_shift (map Z.of_nat (seq 1 20))
           ++ map sample_on_call_shift (map Z.of_nat (seq 1 10))))
    (Some [sample_attendance 1 8; sample_attendance 2 8;
           sample_attendance 3 4])
    None.

(** An employee with one assigned on-call shift and nothing else. *)
Definition unattended_user : UserData :=
  mkUserData
    (mkUser 2 "Bob Example" (Some "hourly"%string) (Some 12%Q) (Some 20%Q) ∅)
    (Some [sample_on_call_shift 1]) (Some []) None.

(** An employee without contracted hours who attended a two-hour on-call
    shift. *)
Definition zero_hours_user : UserData :=
  mkUserData
    (mkUser 3 "Cy Example" (Some "hourly"%string) (Some 12%Q) None ∅)
    (Some [sample_on_call_shift 1]) (Some [sample_attendance 1 2]) None.

(** A salaried employee with one ordinary shift. *)
Definition salaried_user : UserData :=
  mkUserData
    (mkUser 4 "Di Example" (Some "annual"%string) (Some 36000%Q)
       (Some (375 # 10)%Q) ∅)
    (Some [sample_base_shift 1]) None None.

(** * Properties *)

(** ** The definitions on small inputs *)

Example round2_half_to_even :
  (round2 (1 # 8) == 12 # 100)%Q /\ (round2 (3 # 8) == 38 # 100)%Q
  /\ (round2 (-1 # 8) == -12 # 100)%Q.
Proof. repeat split. Qed.

Example period_days_january :
  calculate_period_days (mkDate 2025 1 11) (mkDate 2025 2 10) = 31.
Proof. reflexivity. Qed.

Example period_days_february_leap :
  calculate_period_days (mkDate 2024 2 11) (mkDate 2024 3 10) = 29.
Proof. reflexivity. Qed.

Example default_period_in_march :
  get_default_payroll_period (mkDate 2025 3 25)
  = Some (mkDate 2025 2 11, mkDate 2025 3 10).
Proof. reflexivity. Qed.

Example fixed_hours_eleven_days :
  (calculate_fixed_hours 35 11 == 55)%Q.
Proof. reflexivity. Qed.

Example leave_in_period :
  calculate_leave_hours
    (Some [mkLeaveRecord (Some "approved"%string) (Some 1)
             [mkLeaveDate (Some (mkDate 2025 1 20)) (Some 1%Q) (Some (75 # 10)%Q);
              mkLeaveDate (Some (mkDate 2025 2 11)) (Some 1%Q) (Some (75 # 10)%Q)];
           mkLeaveRecord (Some "requested"%string) (Some 3)
             [mkLeaveDate (Some (mkDate 2025 1 21)) (Some 1%Q) None]])
    (mkDate 2025 1 11) (mkDate 2025 2 10)
  = (round2 (0 + 1), round2 (0 + (75 # 10)), round2 0).
Proof. reflexivity. Qed.

(** ** Rounding *)

Lemma Qltb_lt (a b : Q) : Qltb a b = true <-> (a < b)%Q.
Proof.
  unfold Qltb. rewrite negb_true_iff, <- not_true_iff_false, Qle_bool_iff.
  split; [apply Qnot_le_lt | apply Qlt_not_le].
Qed.

Lemma Qltb_ge (a b : Q) : Qltb a b = false <-> (b <= a)%Q.
Proof. unfold Qltb. rewrite negb_false_iff. apply Qle_bool_iff. Qed.

Lemma round_half_even_floor (x : Q) :
  round_half_even x = Qfloor x \/ round_half_even x = Qfloor x + 1.
Proof.
  unfold round_half_even.
  destruct (x - inject_Z (Qfloor x) ?= 1 # 2)%Q; auto.
  destruct (Z.even (Qfloor x)); auto.
Qed.

(** The rounded integer is within one half of the argument. *)
Lemma round_half_even_close (x : Q) :
  (Qabs (inject_Z (round_half_even x) - x) <= 1 # 2)%Q.
Proof.
  apply Qabs_Qle_condition.
  pose proof (Qfloor_le x) as Hlo. pose proof (Qlt_floor x) as Hhi.
  rewrite inject_Z_plus in Hhi. change (inject_Z 1) with 1%Q in Hhi.
  unfold round_half_even.
  destruct (Qcompare_spec (x - inject_Z (Qfloor x)) (1 # 2)) as [He|Hl|Hg];
    [destruct (Z.even (Qfloor x)) | |];
    rewrite ?inject_Z_plus; change (inject_Z 1) with 1%Q; split; lra.
Qed.

Lemma round_half_even_comp (x y : Q) :
  (x == y)%Q -> round_half_even x = round_half_even y.
Proof.
  intros E. unfold round_half_even.
  rewrite (Qfloor_comp _ _ E).
  assert (x - inject_Z (Qfloor y) == y - inject_Z (Qfloor y))%Q as E'
    by (rewrite E; reflexivity).
  rewrite (Qcompare_comp _ _ E' (1 # 2) (1 # 2) (Qeq_refl _)).
  reflexivity.
Qed.

Lemma hundredths_inject (n : Z) : (n # 100 == inject_Z n * (1 # 100))%Q.
Proof. unfold Qeq, Qmult, inject_Z. simpl. lia. Qed.

(** [round2 x] is a whole number of hundredths at most half a hundredth
    away from [x]. *)
Lemma round2_close (x : Q) : (Qabs (round2 x - x) <= 1 # 200)%Q.
Proof.
  pose proof (round_half_even_close (x * 100)) as H.
  apply Qabs_Qle_condition in H. apply Qabs_Qle_condition.
  unfold round2. rewrite hundredths_inject. split; lra.
Qed.

#[global] Instance round2_comp : Proper (Qeq ==> Qeq) round2.
Proof.
  intros x y E. unfold round2.
  rewrite (round_half_even_comp (x * 100) (y * 100)); [reflexivity |].
  rewrite E. reflexivity.
Qed.

Lemma round2_nonneg (x : Q) : (0 <= x)%Q -> (0 <= round2 x)%Q.
Proof.
  intros Hx. unfold round2.
  assert (0 <= Qfloor (x * 100)) as Hf.
  { change 0 with (Qfloor 0). apply Qfloor_resp_le. lra. }
  assert (0 <= round_half_even (x * 100)) as Hr
    by (destruct (round_half_even_floor (x * 100)); lia).
  unfold Qle. simpl. lia.
Qed.

Lemma round2_zero (x : Q) : (x == 0)%Q -> (round2 x == 0)%Q.
Proof. intros E. rewrite E. reflexivity. Qed.

(** ** Period calculator *)

Lemma datetime_date_10_or_11 (y m d : Z) :
  MINYEAR <= y <= MAXYEAR -> 1 <= m <= 12 -> d = 10 \/ d = 11 ->
  datetime_date y m d = Some (mkDate y m d).
Proof.
  intros Hy Hm Hd. unfold datetime_date.
  assert (28 <= days_in_month y m) as Hdim.
  { unfold days_in_month.
    destruct (m =? 2); [destruct (is_leap y); lia |].
    destruct ((m =? 4) || (m =? 6) || (m =? 9) || (m =? 11)); lia. }
  replace ((MINYEAR <=? y) && (y <=? MAXYEAR) && (1 <=? m) && (m <=? 12)
           && (1 <=? d) && (d <=? days_in_month y m)) with true; [done |].
  symmetry. rewrite !andb_true_iff, !Z.leb_le. lia.
Qed.

(** The last month of the calendar has no period: its end date would lie in
    year 10000, which [datetime.date] refuses. *)
Lemma monthly_period_last_month :
  get_monthly_payroll_period MAXYEAR 12 = None.
Proof. reflexivity. Qed.

(** C10. For every year and month for which the 11th of that month and the
    10th of the following month are calendar dates,
    [get_monthly_payroll_period] returns a start date that is the 11th of
    that month and an end date that is the 10th of the next calendar month,
    the year being incremented exactly when the month is December. *)
Theorem monthly_period_11th_to_10th (y m : Z) :
  1 <= m <= 12 -> MINYEAR <= y ->
  (if m =? 12 then y + 1 else y) <= MAXYEAR ->
  exists start_date end_date,
    get_monthly_payroll_period y m = Some (start_date, end_date)
    /\ start_date = mkDate y m 11
    /\ day end_date = 10
    /\ month end_date = (if m =? 12 then 1 else m + 1)
    /\ (m = 12 -> year end_date = y + 1)
    /\ (m <> 12 -> year end_date = y).
Proof.
  intros Hm Hy Hnext. unfold get_monthly_payroll_period.
  destruct (Z.eqb_spec m 12) as [->|Hne].
  - rewrite datetime_date_10_or_11 by lia.
    rewrite datetime_date_10_or_11 by lia.
    eexists _, _. repeat split; simpl; lia.
  - rewrite datetime_date_10_or_11 by lia.
    rewrite datetime_date_10_or_11 by lia.
    eexists _, _. repeat split; simpl; lia.
Qed.

Lemma monthly_period_11th_to_10th_witness :
  exists start_date end_date,
    get_monthly_payroll_period 2025 12 = Some (start_date, end_date)
    /\ start_date = mkDate 2025 12 11
    /\ day end_date = 10
    /\ month end_date = 1
    /\ (12 = 12 -> year end_date = 2025 + 1)
    /\ (12 <> 12 -> year end_date = 2025).
Proof.
  apply (monthly_period_11th_to_10th 2025 12); unfold MINYEAR, MAXYEAR;
    simpl; lia.
Defined.

(** C9. For every value of today the branch taken on or before the 10th and
    the branch taken after the 10th choose the same target month, so the
    default period does not depend on the day; it is the period from the
    11th of the previous month (December of the previous year in January)
    to the 10th of today's month. *)
Theorem default_period_branches_agree (y m d : Z) :
  let today := mkDate y m d in
  target_on_or_before_10th today = target_after_10th today
  /\ (forall d', get_default_payroll_period (mkDate y m d')
                 = get_default_payroll_period today)
  /\ (1 <= m <= 12 -> MINYEAR <= y <= MAXYEAR -> (y, m) <> (MINYEAR, 1) ->
      get_default_payroll_period today = Some (spec_default_period today)).
Proof.
  intros today. split; [reflexivity |]. split.
  - intros d'. unfold get_default_payroll_period. simpl.
    destruct (d' <=? 10), (d <=? 10); reflexivity.
  - intros Hm Hy Hne.
    unfold get_default_payroll_period, spec_default_period,
      get_monthly_payroll_period. simpl.
    replace (if d <=? 10 then target_on_or_before_10th today
             else target_after_10th today)
      with (target_after_10th today) by (destruct (d <=? 10); reflexivity).
    unfold target_after_10th. simpl.
    destruct (Z.eqb_spec m 1) as [->|Hm1].
    + assert (y <> MINYEAR) by congruence.
      rewrite datetime_date_10_or_11 by (unfold MINYEAR in *; lia).
      simpl. replace (y - 1 + 1) with y by lia.
      rewrite datetime_date_10_or_11 by lia. reflexivity.
    + rewrite datetime_date_10_or_11 by lia.
      destruct (Z.eqb_spec (m - 1) 12); [lia |].
      replace (m - 1 + 1) with m by lia.
      rewrite datetime_date_10_or_11 by lia. reflexivity.
Qed.

Lemma default_period_branches_agree_witness :
  get_default_payroll_period (mkDate 2025 1 5)
    = Some (mkDate 2024 12 11, mkDate 2025 1 10)
  /\ get_default_payroll_period (mkDate 2025 1 25)
    = get_default_payroll_period (mkDate 2025 1 5).
Proof.
  destruct (default_period_branches_agree 2025 1 5) as (_ & Hday & Hspec).
  split.
  - apply Hspec; unfold MINYEAR, MAXYEAR; [lia | lia | congruence].
  - apply Hday.
Defined.

(** ** Fixed-hours proration *)

(** C8. [calculate_fixed_hours] returns 0 when either argument is not
    positive, and otherwise the full weeks plus the prorated remainder of
    the weekly hours, rounded to two decimal places; for 37.5 weekly hours
    over 31 days that is 4*37.5 + (3/7)*37.5 rounded, i.e. 166.07. *)
Theorem calculate_fixed_hours_spec (w : Q) (d : Z) :
  ((w <= 0)%Q \/ d <= 0 -> calculate_fixed_hours w d = 0%Q)
  /\ ((0 < w)%Q -> 0 < d ->
      calculate_fixed_hours w d
      = round2 (inject_Z (d / 7) * w + (inject_Z (d mod 7) / 7) * w))
  /\ (calculate_fixed_hours (375 # 10) 31
      == round2 (4 * (375 # 10) + (3 / 7) * (375 # 10)))%Q
  /\ (calculate_fixed_hours (375 # 10) 31 == 16607 # 100)%Q.
Proof.
  unfold calculate_fixed_hours. repeat split.
  - intros [Hw | Hd].
    + apply Qle_bool_iff in Hw. rewrite Hw. reflexivity.
    + apply Z.leb_le in Hd. rewrite Hd, orb_true_r. reflexivity.
  - intros Hw Hd.
    apply Qltb_lt in Hw. unfold Qltb in Hw. apply negb_true_iff in Hw.
    rewrite Hw. apply Z.leb_gt in Hd. rewrite Hd. reflexivity.
Qed.

Lemma calculate_fixed_hours_spec_witness :
  calculate_fixed_hours 0 31 = 0%Q
  /\ calculate_fixed_hours 40 (-3) = 0%Q
  /\ calculate_fixed_hours 40 11 = round2 (1 * 40 + (4 / 7) * 40).
Proof.
  split; [| split].
  - apply (calculate_fixed_hours_spec 0 31). left. unfold Qle. simpl. lia.
  - apply (calculate_fixed_hours_spec 40 (-3)). right. lia.
  - apply (calculate_fixed_hours_spec 40 11); [reflexivity | lia].
Defined.

(** ** On-call reconciler *)

Section OnCallProperties.

Context (timestamp_converts : Z -> bool).

Local Abbreviation lookup_hit stubs k :=
  (truthy k && existsb (fun s => bool_decide (oc_shift_id s = k)) stubs).

Lemma build_shift_lookup_fold (stubs : list OnCallShift) :
  forall (m : gmap (option Z) (Z * Z * Z)) (k : option Z),
    is_Some
      (fold_left
         (fun lookup shift =>
            if negb (truthy (oc_shift_id shift)) then lookup
            else <[oc_shift_id shift :=
                     (oc_start_time shift, oc_end_time shift,
                      oc_minutes_break shift)]> lookup)
         stubs m !! k)
    <-> is_Some (m !! k) \/ lookup_hit stubs k = true.
Proof.
  induction stubs as [|s stubs IH]; intros m k; simpl.
  - rewrite andb_false_r. split; [auto | intros [H | H]; [exact H | discriminate]].
  - rewrite IH. clear IH.
    destruct (truthy (oc_shift_id s)) eqn:Hs; simpl.
    + rewrite lookup_insert. case_decide as Hk.
      * subst k. rewrite Hs, bool_decide_eq_true_2 by done. simpl.
        split; [auto | intros _; left; eauto].
      * rewrite (bool_decide_eq_false_2 _ Hk). simpl. tauto.
    + destruct (bool_decide_reflect (oc_shift_id s = k)) as [<-|Hk]; simpl.
      * rewrite Hs. simpl. tauto.
      * tauto.
Qed.

Lemma build_shift_lookup_None (stubs : list OnCallShift) (k : option Z) :
  build_shift_lookup stubs !! k = None <-> lookup_hit stubs k = false.
Proof.
  rewrite <- not_true_iff_false, eq_None_not_Some.
  unfold build_shift_lookup. rewrite build_shift_lookup_fold.
  rewrite lookup_empty. split; intros H; [tauto |].
  intros [[? ?]|?]; [discriminate | tauto].
Qed.

(** What one attendance record adds to the running total. *)
Lemma on_call_step_total (stubs : list OnCallShift) (acc : Q * list Warning)
    (a : Attendance) :
  (fst (on_call_step timestamp_converts (build_shift_lookup stubs) acc a)
   == fst acc
      + (if counted timestamp_converts stubs a then attendance_hours a else 0))%Q.
Proof.
  unfold on_call_step, counted, matches_stub.
  destruct (deleted a); simpl; [lra |].
  destruct (build_shift_lookup stubs !! att_shift a) eqn:Hl.
  - assert (lookup_hit stubs (att_shift a) = true) as Hhit.
    { apply not_false_iff_true. rewrite <- build_shift_lookup_None. congruence. }
    apply andb_true_iff in Hhit as [-> ->]. simpl.
    destruct (truthy (in_time a)) eqn:Hi; simpl; [| lra].
    destruct (truthy (out_time a)) eqn:Ho; simpl; [| lra].
    unfold unix_to_datetime.
    assert ((or0 (in_time a) =? 0) = false) as ->.
    { destruct (in_time a); simpl in *; [| discriminate].
      by apply negb_true_iff. }
    assert ((or0 (out_time a) =? 0) = false) as ->.
    { destruct (out_time a); simpl in *; [| discriminate].
      by apply negb_true_iff. }
    destruct (timestamp_converts (or0 (in_time a))); simpl; [| lra].
    destruct (timestamp_converts (or0 (out_time a))); simpl; [| lra].
    fold (attendance_hours a). unfold Qltb.
    destruct (Qle_bool (attendance_hours a) 0); simpl; lra.
  - apply build_shift_lookup_None in Hl.
    destruct (truthy (att_shift a)); simpl in *; [rewrite Hl; simpl |]; lra.
Qed.

Lemma on_call_fold_total (stubs : list OnCallShift) (records : list Attendance) :
  forall acc : Q * list Warning,
    (fst (fold_left (on_call_step timestamp_converts (build_shift_lookup stubs))
            records acc)
     == fst acc + sum_hours (counted timestamp_converts stubs) records)%Q.
Proof.
  induction records as [|a records IH]; intros acc; simpl.
  - lra.
  - rewrite IH, on_call_step_total. lra.
Qed.

Lemma counted_positive (stubs : list OnCallShift) (a : Attendance) :
  counted timestamp_converts stubs a = true -> (0 < attendance_hours a)%Q.
Proof.
  unfold counted. rewrite !andb_true_iff. intros [_ H]. by apply Qltb_lt.
Qed.

Lemma sum_hours_counted_nonneg (stubs : list OnCallShift)
    (records : list Attendance) :
  (0 <= sum_hours (counted timestamp_converts stubs) records)%Q.
Proof.
  induction records as [|a records IH]; simpl; [lra |].
  destruct (counted timestamp_converts stubs a) eqn:Hc; [| lra].
  apply counted_positive in Hc. lra.
Qed.

Lemma sum_hours_none (keep : Attendance -> bool) (records : list Attendance) :
  (forall a, keep a = false) -> (sum_hours keep records == 0)%Q.
Proof.
  intros Hk. induction records as [|a records IH]; simpl; [lra |].
  rewrite Hk. lra.
Qed.

Lemma on_call_step_keeps_warnings (lookup : gmap (option Z) (Z * Z * Z))
    (acc : Q * list Warning) (a : Attendance) (w : Warning) :
  w ∈ snd acc -> w ∈ snd (on_call_step timestamp_converts lookup acc a).
Proof.
  intros Hw. unfold on_call_step.
  repeat (match goal with
          | |- context [if ?b then _ else _] => destruct b
          | |- context [match ?o with Some _ => _ | None => _ end] =>
              destruct o
          end; simpl; rewrite ?elem_of_app; auto).
Qed.

Lemma on_call_fold_keeps_warnings (lookup : gmap (option Z) (Z * Z * Z))
    (records : list Attendance) (w : Warning) :
  forall acc : Q * list Warning,
    w ∈ snd acc ->
    w ∈ snd (fold_left (on_call_step timestamp_converts lookup) records acc).
Proof.
  induction records as [|a records IH]; intros acc Hw; simpl; [done |].
  by apply IH, on_call_step_keeps_warnings.
Qed.

(** A counted record longer than twelve hours raises a warning. *)
Lemma on_call_step_long (stubs : list OnCallShift) (acc : Q * list Warning)
    (a : Attendance) :
  counted timestamp_converts stubs a = true ->
  (12 < attendance_hours a)%Q ->
  SuspiciouslyLong (att_shift a) (attendance_hours a)
  ∈ snd (on_call_step timestamp_converts (build_shift_lookup stubs) acc a).
Proof.
  unfold counted, matches_stub. rewrite !andb_true_iff.
  intros (((((((Hd & Hs) & Hm) & Hi) & Ho) & Hci) & Hco) & Hpos) Hlong.
  unfold on_call_step. apply negb_true_iff in Hd. rewrite Hd.
  destruct (build_shift_lookup stubs !! att_shift a) eqn:Hl.
  2:{ apply build_shift_lookup_None in Hl. rewrite Hs, Hm in Hl. discriminate. }
  rewrite Hi, Ho. simpl. unfold unix_to_datetime. rewrite Hci, Hco.
  assert ((or0 (in_time a) =? 0) = false) as ->.
  { destruct (in_time a); simpl in *; [| discriminate].
    by apply negb_true_iff. }
  assert ((or0 (out_time a) =? 0) = false) as ->.
  { destruct (out_time a); simpl in *; [| discriminate].
    by apply negb_true_iff. }
  fold (attendance_hours a).
  unfold Qltb in Hpos. apply negb_true_iff in Hpos. rewrite Hpos. simpl.
  apply Qltb_lt in Hlong. rewrite Hlong. rewrite elem_of_app. right.
  apply list_elem_of_singleton. reflexivity.
Qed.

Lemma on_call_fold_long (stubs : list OnCallShift) (records : list Attendance)
    (a : Attendance) :
  a ∈ records ->
  counted timestamp_converts stubs a = true ->
  (12 < attendance_hours a)%Q ->
  forall acc : Q * list Warning,
    SuspiciouslyLong (att_shift a) (attendance_hours a)
    ∈ snd (fold_left
             (on_call_step timestamp_converts (build_shift_lookup stubs))
             records acc).
Proof.
  intros Hin Hc Hlong.
  induction records as [|b records IH]; intros acc; [by inversion Hin |].
  simpl. apply elem_of_cons in Hin as [<- | Hin].
  - by apply on_call_fold_keeps_warnings, on_call_step_long.
  - by apply IH.
Qed.

Lemma counted_no_stubs (a : Attendance) :
  counted timestamp_converts [] a = false.
Proof.
  unfold counted, matches_stub. simpl.
  by rewrite andb_false_r.
Qed.

Lemma calculate_on_call_hours_count (stubs : list OnCallShift)
    (attendance_data : option (list Attendance)) :
  (calculate_on_call_hours timestamp_converts stubs attendance_data).1.2
  = Z.of_nat (length stubs).
Proof.
  unfold calculate_on_call_hours.
  destruct stubs; [done |]. by destruct attendance_data as [[|? ?]|].
Qed.

Lemma calculate_on_call_hours_total (stubs : list OnCallShift)
    (attendance_data : option (list Attendance)) :
  ((calculate_on_call_hours timestamp_converts stubs attendance_data).1.1
   == round2 (sum_hours (counted timestamp_converts stubs)
                (default [] attendance_data)))%Q.
Proof.
  unfold calculate_on_call_hours.
  destruct stubs as [|s stubs].
  - simpl. rewrite (sum_hours_none _ _ counted_no_stubs). reflexivity.
  - destruct attendance_data as [[|a records]|]; simpl default;
      [reflexivity | | reflexivity].
    cbn [fst snd]. rewrite on_call_fold_total. cbn [fst].
    apply round2_comp. lra.
Qed.

Lemma calculate_on_call_hours_nonneg (stubs : list OnCallShift)
    (attendance_data : option (list Attendance)) :
  (0 <= (calculate_on_call_hours timestamp_converts stubs attendance_data).1.1)%Q.
Proof.
  rewrite calculate_on_call_hours_total.
  apply round2_nonneg, sum_hours_counted_nonneg.
Qed.

End OnCallProperties.

(** ** On-call reconciler in binary64 *)

(** *** Floats of 53 bits *)

(** The number of bits of a positive number. *)
Lemma digits2_pos_lower (p : positive) :
  2 ^ (Zpos (digits2_pos p) - 1) <= Zpos p.
Proof.
  induction p as [p IH|p IH|]; cbn [digits2_pos].
  - rewrite Pos2Z.inj_succ, (Pos2Z.inj_xI p).
    replace (Z.succ (Z.pos (digits2_pos p)) - 1)
      with (Z.succ (Z.pos (digits2_pos p) - 1)) by lia.
    rewrite Z.pow_succ_r by lia. lia.
  - rewrite Pos2Z.inj_succ, (Pos2Z.inj_xO p).
    replace (Z.succ (Z.pos (digits2_pos p)) - 1)
      with (Z.succ (Z.pos (digits2_pos p) - 1)) by lia.
    rewrite Z.pow_succ_r by lia. lia.
  - simpl. lia.
Qed.

Lemma digits2_pos_upper (p : positive) :
  Zpos p < 2 ^ Zpos (digits2_pos p).
Proof.
  induction p as [p IH|p IH|]; cbn [digits2_pos].
  - rewrite Pos2Z.inj_succ, (Pos2Z.inj_xI p), Z.pow_succ_r by lia. lia.
  - rewrite Pos2Z.inj_succ, (Pos2Z.inj_xO p), Z.pow_succ_r by lia. lia.
  - simpl. lia.
Qed.

Lemma digits2_pos_range (p : positive) (k : Z) :
  2 ^ (k - 1) <= Zpos p < 2 ^ k -> Zpos (digits2_pos p) = k.
Proof.
  intros [Hlo Hhi].
  pose proof (digits2_pos_lower p) as Hl.
  pose proof (digits2_pos_upper p) as Hu.
  destruct (Z.lt_trichotomy (Zpos (digits2_pos p)) k) as [H | [H | H]];
    [| exact H |].
  - assert (2 ^ Zpos (digits2_pos p) <= 2 ^ (k - 1))
      by (apply Z.pow_le_mono_r; lia).
    lia.
  - assert (2 ^ k <= 2 ^ (Zpos (digits2_pos p) - 1))
      by (apply Z.pow_le_mono_r; lia).
    lia.
Qed.

Lemma iter_xO_digits (p d : positive) :
  digits2_pos (Pos.iter xO p d) = (digits2_pos p + d)%positive.
Proof.
  induction d as [|d IH] using Pos.peano_ind.
  - simpl. lia.
  - rewrite Pos.iter_succ. cbn [digits2_pos]. rewrite IH. lia.
Qed.

Lemma iter_xO_value (p d : positive) :
  Zpos (Pos.iter xO p d) = Zpos p * 2 ^ Zpos d.
Proof.
  induction d as [|d IH] using Pos.peano_ind.
  - simpl. lia.
  - rewrite Pos.iter_succ, (Pos2Z.inj_xO (Pos.iter xO p d)), IH.
    rewrite Pos2Z.inj_succ, Z.pow_succ_r by lia. lia.
Qed.

(** A mantissa of exactly 53 bits with an exponent in range is kept as it
    is. *)
Lemma binary_round_aux_canonical (s : bool) (m : positive) (e : Z) :
  Zpos (digits2_pos m) = 53 -> -1074 <= e <= 971 ->
  binary_round_aux prec emax s (Zpos m) e loc_Exact = S754_finite s m e.
Proof.
  intros Hd He.
  assert (fexp prec emax (Zdigits2 (Zpos m) + e) - e = 0) as Hn.
  { unfold fexp, emin, prec, emax. cbn [Zdigits2]. rewrite Hd. lia. }
  unfold binary_round_aux, shr_fexp. rewrite Hn. cbn [shr shr_record_of_loc].
  cbn [loc_of_shr_record shr_m round_nearest_even]. rewrite Hn. cbn [shr shr_m].
  assert ((e <=? emax - prec) = true) as ->; [| reflexivity].
  apply Z.leb_le. unfold emax, prec. lia.
Qed.

(** An int below [2 ^ 53] is a float: the conversion is exact. *)
Lemma binary_round_int (s : bool) (p : positive) :
  Zpos p < 2 ^ 53 ->
  exists (m : positive) (e : Z),
    binary_round prec emax s p 0 = S754_finite s m e
    /\ 2 ^ 52 <= Zpos m < 2 ^ 53 /\ -52 <= e <= 0
    /\ Zpos m = Zpos p * 2 ^ (- e).
Proof.
  intros Hp.
  pose proof (digits2_pos_lower p) as Hl.
  pose proof (digits2_pos_upper p) as Hu.
  set (k := Zpos (digits2_pos p)) in *.
  assert (1 <= k <= 53) as Hk.
  { split; [subst k; lia |].
    destruct (Z_le_gt_dec k 53) as [H | H]; [exact H |].
    assert (2 ^ 53 <= 2 ^ (k - 1)) by (apply Z.pow_le_mono_r; lia). lia. }
  unfold binary_round.
  assert (fexp prec emax (Zpos (digits2_pos p) + 0) = k - 53) as ->.
  { unfold fexp, emin, prec, emax. fold k. lia. }
  unfold shl_align.
  destruct (k - 53 - 0) as [|d|d] eqn:Hd; [| lia |].
  - exists p, 0. assert (k = 53) as Hk53 by lia.
    split; [apply binary_round_aux_canonical; [exact Hk53 | lia] |].
    split; [| split; [lia | simpl; lia]].
    rewrite Hk53 in Hl, Hu. simpl in Hl. lia.
  - exists (Pos.iter xO p d), (k - 53).
    assert (Zpos d = 53 - k) as Hd' by lia.
    split.
    + apply binary_round_aux_canonical; [| lia].
      rewrite iter_xO_digits, Pos2Z.inj_add. fold k. lia.
    + rewrite iter_xO_value, Hd'.
      split; [| split; [lia | f_equal; f_equal; lia]].
      assert (2 ^ 52 = 2 ^ (k - 1) * 2 ^ (53 - k)) as ->.
      { rewrite <- Z.pow_add_r by lia. f_equal. lia. }
      assert (2 ^ 53 = 2 ^ k * 2 ^ (53 - k)) as ->.
      { rewrite <- Z.pow_add_r by lia. f_equal. lia. }
      assert (0 < 2 ^ (53 - k)) by (apply Z.pow_pos_nonneg; lia).
      split; [apply Z.mul_le_mono_nonneg_r; lia
             | apply Z.mul_lt_mono_pos_r; lia].
Qed.

Lemma shr_record_of_loc_m (m : Z) (l : location) :
  shr_m (shr_record_of_loc m l) = m.
Proof. by destruct l as [|[]]. Qed.

Lemma shr_1_m (mrs : shr_record) :
  0 <= shr_m mrs -> shr_m (shr_1 mrs) = shr_m mrs / 2.
Proof.
  destruct mrs as [m r s']. cbn [shr_m]. intros Hm.
  destruct m as [|[p|p|]|p]; cbn [shr_1 shr_m];
    [reflexivity | | | reflexivity | lia].
  - rewrite (Pos2Z.inj_xI p). apply (Z.div_unique _ 2 _ 1); lia.
  - rewrite (Pos2Z.inj_xO p). apply (Z.div_unique _ 2 _ 0); lia.
Qed.

(** Bringing a mantissa of 53 or 54 bits to 53 bits drops at most one
    bit. *)
Lemma shr_fexp_normal (m e : Z) (l : location) :
  2 ^ 52 <= m < 2 ^ 54 -> -1074 <= e ->
  (m < 2 ^ 53 /\ shr_m (fst (shr_fexp prec emax m e l)) = m
   /\ snd (shr_fexp prec emax m e l) = e)
  \/ (2 ^ 53 <= m /\ shr_m (fst (shr_fexp prec emax m e l)) = m / 2
      /\ snd (shr_fexp prec emax m e l) = e + 1).
Proof.
  intros Hm He. unfold shr_fexp.
  destruct m as [|p|p]; [simpl in Hm; lia | | lia].
  destruct (Z_lt_ge_dec (Zpos p) (2 ^ 53)) as [Hlt | Hge]; [left | right].
  - assert (Zpos (digits2_pos p) = 53) as Hd
      by (apply digits2_pos_range; simpl; lia).
    assert (fexp prec emax (Zdigits2 (Zpos p) + e) - e = 0) as ->.
    { unfold fexp, emin, prec, emax. cbn [Zdigits2]. rewrite Hd. lia. }
    cbn [shr fst snd]. by rewrite shr_record_of_loc_m.
  - assert (Zpos (digits2_pos p) = 54) as Hd
      by (apply digits2_pos_range; simpl; lia).
    assert (fexp prec emax (Zdigits2 (Zpos p) + e) - e = 1) as ->.
    { unfold fexp, emin, prec, emax. cbn [Zdigits2]. rewrite Hd. lia. }
    cbn [shr iter_pos fst snd].
    rewrite shr_1_m, shr_record_of_loc_m by (rewrite shr_record_of_loc_m; lia).
    split; [lia | done].
Qed.

Lemma round_nearest_even_range (m : Z) (l : location) :
  m <= round_nearest_even m l <= m + 1.
Proof.
  destruct l as [|[]]; cbn [round_nearest_even]; try lia.
  destruct (Z.even m); lia.
Qed.

(** Rounding a mantissa [m] of 53 or 54 bits gives a finite float of the
    same sign, whose value is [m] up to the bits dropped. *)
Lemma binary_round_aux_normal (s : bool) (m e : Z) (l : location) :
  2 ^ 52 <= m < 2 ^ 54 -> -1074 <= e <= 969 ->
  exists (m' : positive) (e' : Z),
    binary_round_aux prec emax s m e l = S754_finite s m' e'
    /\ 2 ^ 52 <= Zpos m' < 2 ^ 53
    /\ ((e' = e /\ m <= Zpos m' <= m + 1)
        \/ (e' = e + 1 /\ m - 1 <= 2 * Zpos m' <= m + 2)
        \/ (e' = e + 2 /\ m - 3 <= 4 * Zpos m' <= m + 2)).
Proof.
  intros Hm He. unfold binary_round_aux.
  pose proof (shr_fexp_normal m e l Hm ltac:(lia)) as H1.
  destruct (shr_fexp prec emax m e l) as [mrs1 e1]. cbn [fst snd] in H1.
  pose proof (round_nearest_even_range (shr_m mrs1) (loc_of_shr_record mrs1))
    as Hr.
  set (m2 := round_nearest_even (shr_m mrs1) (loc_of_shr_record mrs1)) in *.
  change (2 ^ 52) with 4503599627370496 in *.
  change (2 ^ 53) with 9007199254740992 in *.
  change (2 ^ 54) with 18014398509481984 in *.
  pose proof (shr_fexp_normal m2 e1 loc_Exact) as H2.
  change (2 ^ 52) with 4503599627370496 in H2.
  change (2 ^ 53) with 9007199254740992 in H2.
  change (2 ^ 54) with 18014398509481984 in H2.
  assert (4503599627370496 <= m2 < 18014398509481984 /\ -1074 <= e1)
    as [Hm2 He1] by (destruct H1 as [H1 | H1]; Z.div_mod_to_equations; lia).
  specialize (H2 Hm2 He1).
  destruct (shr_fexp prec emax m2 e1 loc_Exact) as [mrs3 e3].
  cbn [fst snd] in H2.
  destruct (shr_m mrs3) as [|m'|m'] eqn:Hm3;
    [destruct H2 as [H2 | H2]; Z.div_mod_to_equations; lia |
    | destruct H2 as [H2 | H2]; Z.div_mod_to_equations; lia].
  assert ((e3 <=? emax - prec) = true) as ->.
  { apply Z.leb_le. unfold emax, prec.
    destruct H1 as [H1 | H1], H2 as [H2 | H2]; lia. }
  exists m', e3. split; [reflexivity |].
  destruct H1 as [H1 | H1], H2 as [H2 | H2]; Z.div_mod_to_equations; lia.
Qed.

(** The quotient of two normal floats whose exponents are not far apart:
    a finite float whose sign is the product of the signs and whose value
    is the quotient of the mantissas up to the bits dropped. *)
Lemma SFdiv_normal (s1 s2 : bool) (m1 m2 : positive) (e1 e2 : Z) :
  2 ^ 52 <= Zpos m1 < 2 ^ 53 -> 2 ^ 52 <= Zpos m2 < 2 ^ 53 ->
  -1000 <= e1 - e2 <= 1000 ->
  let q := Zpos m1 * 2 ^ 53 / Zpos m2 in
  let e := e1 - e2 - 53 in
  exists (m' : positive) (e' : Z),
    SFdiv prec emax (S754_finite s1 m1 e1) (S754_finite s2 m2 e2)
    = S754_finite (xorb s1 s2) m' e'
    /\ 2 ^ 52 <= Zpos m' < 2 ^ 53
    /\ ((e' = e /\ q <= Zpos m' <= q + 1)
        \/ (e' = e + 1 /\ q - 1 <= 2 * Zpos m' <= q + 2)
        \/ (e' = e + 2 /\ q - 3 <= 4 * Zpos m' <= q + 2)).
Proof.
  intros H1 H2 He q e. subst q e.
  assert (Zpos (digits2_pos m1) = 53) as Hd1 by (by apply digits2_pos_range).
  assert (Zpos (digits2_pos m2) = 53) as Hd2 by (by apply digits2_pos_range).
  unfold SFdiv, SFdiv_core_binary. cbn [Zdigits2]. rewrite Hd1, Hd2.
  assert (Z.min (fexp prec emax (53 + e1 - (53 + e2))) (e1 - e2) = e1 - e2 - 53)
    as -> by (unfold fexp, emin, prec, emax; lia).
  assert (e1 - e2 - (e1 - e2 - 53) = 53) as -> by lia.
  rewrite Z.shiftl_mul_pow2 by lia.
  pose proof (Z_div_mod (Zpos m1 * 2 ^ 53) (Zpos m2) ltac:(lia)) as Hdiv.
  unfold Z.div.
  destruct (Z.div_eucl (Zpos m1 * 2 ^ 53) (Zpos m2)) as [q r].
  destruct Hdiv as [Hq Hr].
  apply binary_round_aux_normal; [| lia].
  change (2 ^ 52) with 4503599627370496 in *.
  change (2 ^ 53) with 9007199254740992 in *.
  change (2 ^ 54) with 18014398509481984.
  nia.
Qed.

Lemma float_3600_eq : float_3600 = S754_finite false 7916483719987200 (-41).
Proof. reflexivity. Qed.

Lemma float_12_eq : float_12 = S754_finite false 6755399441055744 (-49).
Proof. reflexivity. Qed.

(** [(out_time - in_time) / 3600.0] has the sign of [out_time - in_time]. *)
Lemma hours_sign (d : Z) :
  -(2 ^ 53) < d < 2 ^ 53 ->
  SFleb (SFdiv prec emax (float_of_int d) float_3600) float_zero = (d <=? 0).
Proof.
  intros Hd. unfold float_of_int, binary_normalize. rewrite float_3600_eq.
  destruct d as [|p|p].
  - reflexivity.
  - destruct (binary_round_int false p ltac:(lia)) as (m & e & -> & Hm & He & _).
    destruct (SFdiv_normal false false m 7916483719987200 e (-41))
      as (m' & e' & -> & _); [exact Hm | simpl; lia | lia |].
    reflexivity.
  - destruct (binary_round_int true p ltac:(lia)) as (m & e & -> & Hm & He & _).
    destruct (SFdiv_normal true false m 7916483719987200 e (-41))
      as (m' & e' & -> & _); [exact Hm | simpl; lia | lia |].
    reflexivity.
Qed.

Lemma SFltb_finite (m1 m2 : positive) (e1 e2 : Z) :
  SFltb (S754_finite false m1 e1) (S754_finite false m2 e2) = true
  <-> e1 < e2 \/ (e1 = e2 /\ Zpos m1 < Zpos m2).
Proof.
  unfold SFltb, SFcompare.
  destruct (Z.compare_spec e1 e2) as [He | He | He].
  - change (Pos.compare_cont Eq m1 m2) with (Pos.compare m1 m2).
    destruct (Pos.compare_spec m1 m2) as [Hm | Hm | Hm];
      split; try discriminate; try lia.
  - split; [lia | done].
  - split; [discriminate | lia].
Qed.

(** [(out_time - in_time) / 3600.0 > 12] holds exactly when
    [out_time - in_time] is above 43200 seconds. *)
Lemma hours_long (d : Z) :
  -(2 ^ 53) < d < 2 ^ 53 ->
  SFltb float_12 (SFdiv prec emax (float_of_int d) float_3600) = (43200 <? d).
Proof.
  intros Hd.
  destruct (Z.eq_dec d 43200) as [-> | Hne]; [reflexivity |].
  unfold float_of_int, binary_normalize.
  rewrite float_3600_eq, float_12_eq.
  destruct d as [|p|p].
  - reflexivity.
  - destruct (binary_round_int false p ltac:(lia))
      as (m & e & -> & Hm & He & Hv).
    destruct (SFdiv_normal false false m 7916483719987200 e (-41))
      as (m' & e' & -> & Hm' & Hq); [exact Hm | simpl; lia | lia |].
    cbn [xorb]. apply eq_true_iff_eq. rewrite SFltb_finite, Z.ltb_lt.
    change (2 ^ 52) with 4503599627370496 in *.
    change (2 ^ 53) with 9007199254740992 in *.
    destruct (Z_le_gt_dec e (-38)) as [He38 | He38];
      [| destruct (Z_le_gt_dec e (-37)) as [He37 | He37]].
    + (* fewer than 2 ^ 15 seconds *)
      assert (Zpos p < 32768) as Hp.
      { assert (2 ^ 38 <= 2 ^ (- e)) as Hpow by (apply Z.pow_le_mono_r; lia).
        change (2 ^ 38) with 274877906944 in Hpow. nia. }
      split; [intros H; exfalso | lia].
      destruct Hq as [[-> Hq] | [[-> Hq] | [-> Hq]]];
        destruct H as [H | [H1 H2]]; Z.div_mod_to_equations; lia.
    + (* from 2 ^ 15 to 2 ^ 16 seconds *)
      assert (e = -37) as -> by lia.
      change (2 ^ (- -37)) with 137438953472 in Hv.
      split; intros H.
      * destruct Hq as [[-> Hq] | [[-> Hq] | [-> Hq]]];
          destruct H as [H | [H1 H2]]; Z.div_mod_to_equations; lia.
      * destruct Hq as [[-> Hq] | [[-> Hq] | [-> Hq]]];
          [right | left | left]; Z.div_mod_to_equations; lia.
    + (* 2 ^ 16 seconds and more *)
      assert (65536 <= Zpos p) as Hp.
      { assert (2 ^ (- e) <= 2 ^ 36) as Hpow by (apply Z.pow_le_mono_r; lia).
        change (2 ^ 36) with 68719476736 in Hpow. nia. }
      split; [lia | intros _; left].
      destruct Hq as [[-> Hq] | [[-> Hq] | [-> Hq]]]; lia.
  - destruct (binary_round_int true p ltac:(lia)) as (m & e & -> & Hm & He & _).
    destruct (SFdiv_normal true false m 7916483719987200 e (-41))
      as (m' & e' & -> & _); [exact Hm | simpl; lia | lia |].
    reflexivity.
Qed.

(** *** The reconciler *)

Lemma Qltb_hours_positive (a : Attendance) :
  Qltb 0 (attendance_hours a)
  = negb (or0 (out_time a) - or0 (in_time a) <=? 0).
Proof.
  unfold Qltb, attendance_hours. f_equal.
  apply eq_true_iff_eq. rewrite Qle_bool_iff, Z.leb_le.
  unfold Qle, Qdiv, Qmult, Qinv, inject_Z. simpl. lia.
Qed.

Lemma Qltb_hours_long (a : Attendance) :
  Qltb 12 (attendance_hours a)
  = (43200 <? or0 (out_time a) - or0 (in_time a)).
Proof.
  apply eq_true_iff_eq. rewrite Qltb_lt, Z.ltb_lt.
  unfold attendance_hours, Qlt, Qdiv, Qmult, Qinv, inject_Z. simpl. lia.
Qed.

(** The test [hours_worked <= 0] on the float agrees with the sign of the
    duration in seconds. *)
Lemma attendance_hours_binary64_sign (a : Attendance) :
  -(2 ^ 53) < or0 (out_time a) - or0 (in_time a) < 2 ^ 53 ->
  SFleb (attendance_hours_binary64 a) float_zero
  = negb (Qltb 0 (attendance_hours a)).
Proof.
  intros H. rewrite Qltb_hours_positive, negb_involutive.
  by apply hours_sign.
Qed.

(** The test [hours_worked > 12] on the float agrees with the duration
    being above twelve hours. *)
Lemma attendance_hours_binary64_long (a : Attendance) :
  -(2 ^ 53) < or0 (out_time a) - or0 (in_time a) < 2 ^ 53 ->
  SFltb float_12 (attendance_hours_binary64 a)
  = Qltb 12 (attendance_hours a).
Proof.
  intros H. rewrite Qltb_hours_long. by apply hours_long.
Qed.

(** No [OverflowError]: an int below [2 ^ 53] converts to a float. *)
Lemma int_to_float_exact (d : Z) :
  -(2 ^ 53) < d < 2 ^ 53 -> int_to_float d = Some (float_of_int d).
Proof.
  intros Hd. unfold int_to_float, float_of_int, binary_normalize.
  destruct d as [|p|p]; [reflexivity | |].
  - by destruct (binary_round_int false p ltac:(lia)) as (m & e & -> & _).
  - by destruct (binary_round_int true p ltac:(lia)) as (m & e & -> & _).
Qed.

Section OnCallBinary64Properties.

Context (timestamp_converts : Z -> bool).

(** [datetime.fromtimestamp] fails outside the years 1 to 9999. *)
Hypothesis timestamp_converts_range :
  forall t : Z,
    timestamp_converts t = true -> MIN_TIMESTAMP <= t <= MAX_TIMESTAMP.

Local Abbreviation step64 stubs :=
  (on_call_step_binary64 timestamp_converts (build_shift_lookup stubs)).

(** What one attendance record does to the running total and to the
    warnings. *)
Lemma on_call_step_binary64_spec (stubs : list OnCallShift)
    (acc : spec_float * list Warning) (a : Attendance) :
  exists ws : list Warning,
    step64 stubs acc a
    = Some (if counted timestamp_converts stubs a
            then SFadd prec emax (fst acc) (attendance_hours_binary64 a)
            else fst acc,
            snd acc ++ ws)
    /\ (counted timestamp_converts stubs a = true ->
        (12 < attendance_hours a)%Q ->
        SuspiciouslyLong (att_shift a)
          (float_value (attendance_hours_binary64 a)) ∈ ws).
Proof.
  unfold on_call_step_binary64, counted, matches_stub.
  destruct (deleted a); simpl.
  { exists []. rewrite app_nil_r. split; [by destruct acc | done]. }
  destruct (build_shift_lookup stubs !! att_shift a) eqn:Hl.
  2:{ apply build_shift_lookup_None in Hl.
      exists []. rewrite app_nil_r. split.
      - destruct (truthy (att_shift a)); simpl in *; [rewrite Hl |];
          by destruct acc.
      - destruct (truthy (att_shift a)); simpl in *; [rewrite Hl |]; done. }
  assert (truthy (att_shift a)
          && existsb (fun s => bool_decide (oc_shift_id s = att_shift a)) stubs
          = true) as Hhit.
  { apply not_false_iff_true. rewrite <- build_shift_lookup_None. congruence. }
  apply andb_true_iff in Hhit as [-> ->]. simpl.
  destruct (truthy (in_time a)) eqn:Hi; simpl.
  2:{ exists []. rewrite app_nil_r. split; [by destruct acc | done]. }
  destruct (truthy (out_time a)) eqn:Ho; simpl.
  2:{ exists []. rewrite app_nil_r. split; [by destruct acc | done]. }
  unfold unix_to_datetime.
  assert ((or0 (in_time a) =? 0) = false) as ->.
  { destruct (in_time a); simpl in *; [| discriminate].
    by apply negb_true_iff. }
  assert ((or0 (out_time a) =? 0) = false) as ->.
  { destruct (out_time a); simpl in *; [| discriminate].
    by apply negb_true_iff. }
  destruct (timestamp_converts (or0 (in_time a))) eqn:Hci; simpl.
  2:{ by eexists. }
  destruct (timestamp_converts (or0 (out_time a))) eqn:Hco; simpl.
  2:{ by eexists. }
  apply timestamp_converts_range in Hci, Hco.
  assert (-(2 ^ 53) < or0 (out_time a) - or0 (in_time a) < 2 ^ 53) as Hd.
  { unfold MIN_TIMESTAMP, MAX_TIMESTAMP in *.
    change (2 ^ 53) with 9007199254740992. lia. }
  rewrite (int_to_float_exact _ Hd). fold (attendance_hours_binary64 a).
  rewrite (attendance_hours_binary64_sign _ Hd).
  rewrite (attendance_hours_binary64_long _ Hd).
  destruct (Qltb 0 (attendance_hours a)); simpl.
  - eexists. split; [reflexivity |]. intros _ Hlong.
    apply Qltb_lt in Hlong. rewrite Hlong.
    apply list_elem_of_singleton. reflexivity.
  - by eexists.
Qed.

Lemma on_call_fold_binary64_spec (stubs : list OnCallShift)
    (records : list Attendance) :
  forall acc : spec_float * list Warning,
  exists ws : list Warning,
    fold_left
      (fun acc attendance => acc ≫= fun running => step64 stubs running attendance)
      records (Some acc)
    = Some (fold_left (SFadd prec emax)
              (attendance_hours_binary64
                 <$> List.filter (counted timestamp_converts stubs) records)
              (fst acc),
            snd acc ++ ws)
    /\ (forall a, a ∈ records ->
          counted timestamp_converts stubs a = true ->
          (12 < attendance_hours a)%Q ->
          SuspiciouslyLong (att_shift a)
            (float_value (attendance_hours_binary64 a)) ∈ ws).
Proof.
  induction records as [|a records IH]; intros acc.
  - exists []. rewrite app_nil_r. split; [by destruct acc |].
    intros a Ha. by inversion Ha.
  - destruct (on_call_step_binary64_spec stubs acc a) as (ws1 & Hstep & Hw1).
    cbn [fold_left mbind option_bind]. rewrite Hstep.
    destruct (IH (if counted timestamp_converts stubs a
                  then SFadd prec emax (fst acc) (attendance_hours_binary64 a)
                  else fst acc,
                  snd acc ++ ws1)) as (ws2 & Hfold & Hw2).
    exists (ws1 ++ ws2). rewrite Hfold. cbn [fst snd]. split.
    + rewrite app_assoc. f_equal. cbn [List.filter].
      by destruct (counted timestamp_converts stubs a).
    + intros b Hb Hc Hlong. rewrite elem_of_app.
      apply elem_of_cons in Hb as [-> | Hb]; [left | right]; auto.
Qed.

Lemma filter_counted_no_stubs (records : list Attendance) :
  List.filter (counted timestamp_converts []) records = [].
Proof.
  induction records as [|a records IH]; [reflexivity |].
  cbn [List.filter]. by rewrite counted_no_stubs.
Qed.

(** C5, as the reconciler implements it.  For every list of on-call stubs
    and every attendance result, the function returns; the assigned shift
    count is the number of stubs whatever the attendance; and the worked
    hours are [round(total, 2)] of the binary64 total obtained by adding,
    in the order of the attendance records and starting from 0.0, the
    binary64 quotients (out_time - in_time) / 3600.0 of exactly the records
    that are not deleted, whose shift id is the truthy (neither null nor
    zero) id of a stub, whose in_time and out_time are truthy and convert
    to a datetime, and whose duration is strictly positive.  Durations
    above twelve hours are included and raise a warning; every other record
    is skipped.  The timestamps that convert to a datetime are those of the
    years 1 to 9999 at most. *)
Theorem on_call_hours_binary64_reconciled (stubs : list OnCallShift)
    (attendance_data : option (list Attendance)) :
  let records := default [] attendance_data in
  exists warnings : list Warning,
    calculate_on_call_hours_binary64 timestamp_converts stubs attendance_data
    = Some (round_2
              (float_sum
                 (attendance_hours_binary64
                    <$> List.filter (counted timestamp_converts stubs)
                          records)),
            Z.of_nat (length stubs), warnings)
    /\ (forall a, a ∈ records ->
          counted timestamp_converts stubs a = true ->
          (12 < attendance_hours a)%Q ->
          SuspiciouslyLong (att_shift a)
            (float_value (attendance_hours_binary64 a)) ∈ warnings).
Proof.
  intros records. subst records. unfold calculate_on_call_hours_binary64.
  destruct stubs as [|s stubs].
  - exists []. split.
    + by rewrite filter_counted_no_stubs.
    + intros a _ Hc. by rewrite counted_no_stubs in Hc.
  - destruct attendance_data as [[|a records]|]; simpl default.
    + exists []. split; [reflexivity |]. intros a Ha. by inversion Ha.
    + destruct (on_call_fold_binary64_spec (s :: stubs) (a :: records)
                  (float_zero, [])) as (ws & Hfold & Hw).
      exists ws. rewrite Hfold. cbn [fst snd app mbind option_bind]. done.
    + exists []. split; [reflexivity |]. intros a Ha. by inversion Ha.
Qed.

End OnCallBinary64Properties.

Lemma sample_converts_range (t : Z) :
  sample_converts t = true -> MIN_TIMESTAMP <= t <= MAX_TIMESTAMP.
Proof.
  unfold sample_converts, MIN_TIMESTAMP, MAX_TIMESTAMP.
  rewrite andb_true_iff, !Z.leb_le. lia.
Qed.

(** C5, as the specification words it, fails twice.  A stub whose id is 0
    is left out of the lookup, so an attendance record for it is not
    counted although it is not deleted, matches the stub, has both times
    and lasts one hour: the reconciler returns 0.0 where the specification
    gives 1.00.  And the sum is a binary64 sum: one attendance of 3654
    seconds is 1.015 hours, which the specification rounds to 1.02, while
    the float nearest to 3654 / 3600 lies below 1.015 and the reconciler
    returns 1.01. *)
Lemma on_call_spec_counterexample :
  (let stubs := [mkOnCallShift (Some 0) 1700000000 1700003600 0] in
   let records :=
     [mkAttendance (Some 0) (Some 1700000000) (Some 1700003600) false] in
   (spec_worked_hours stubs records == 1)%Q
   /\ calculate_on_call_hours_binary64 sample_converts stubs (Some records)
      = Some (float_zero, 1, [])
   /\ float_zero <> nearest_float (spec_worked_hours stubs records))
  /\ (let stubs := [mkOnCallShift (Some 7) 1700000000 1700003654 0] in
      let records :=
        [mkAttendance (Some 7) (Some 1700000000) (Some 1700003654) false] in
      (spec_worked_hours stubs records == 102 # 100)%Q
      /\ calculate_on_call_hours_binary64 sample_converts stubs (Some records)
         = Some (nearest_float (101 # 100), 1, [])
      /\ nearest_float (101 # 100)
         <> nearest_float (spec_worked_hours stubs records)).
Proof.
  split; (split; [vm_compute; reflexivity |]);
    (split; [vm_compute; reflexivity | vm_compute; discriminate]).
Qed.

Lemma on_call_hours_binary64_reconciled_witness :
  let thirteen_hours :=
    mkAttendance (Some 7) (Some 1700000000) (Some 1700046800) false in
  let stubs := [mkOnCallShift (Some 7) 1700000000 1700046800 0] in
  exists warnings : list Warning,
    calculate_on_call_hours_binary64 sample_converts stubs
      (Some [thirteen_hours])
    = Some (float_of_int 13, 1, warnings)
    /\ SuspiciouslyLong (Some 7)
         (float_value (attendance_hours_binary64 thirteen_hours))
       ∈ warnings.
Proof.
  intros thirteen_hours stubs.
  destruct (on_call_hours_binary64_reconciled sample_converts
              sample_converts_range stubs (Some [thirteen_hours]))
    as (warnings & Hresult & Hwarn).
  exists warnings. split.
  - etransitivity; [exact Hresult |]. vm_compute. reflexivity.
  - apply (Hwarn thirteen_hours).
    + apply list_elem_of_singleton. reflexivity.
    + reflexivity.
    + reflexivity.
Defined.

(** ** Hour classifier *)

Section ClassifierProperties.

Context (fetch_role_name : Z -> string).

Local Abbreviation resolve' := (resolve fetch_role_name).
Local Abbreviation step := (classify_step fetch_role_name).

(** Seconds accumulated so far in the bucket of a role. *)
Definition bucket_seconds (o : option RoleAcc) : Z := from_option ra_seconds 0 o.

(** Filling the cache for a role changes no resolved name. *)
Lemma resolve_cached (names : gmap (option Z) string) (k k' : option Z) :
  resolve'
    (match names !! k with
     | None => <[k := get_role_name fetch_role_name k]> names
     | Some _ => names
     end) k'
  = resolve' names k'.
Proof.
  unfold resolve. destruct (names !! k) eqn:Hk; [done |].
  rewrite lookup_insert. case_decide as Hkk; [subst k'; by rewrite Hk | done].
Qed.

Lemma role_name_resolved (names : gmap (option Z) string) (k : option Z) :
  default "Unknown"%string
    (match names !! k with
     | None => <[k := get_role_name fetch_role_name k]> names
     | Some _ => names
     end !! k)
  = resolve' names k.
Proof.
  unfold resolve. destruct (names !! k) eqn:Hk; [by rewrite Hk |].
  by rewrite lookup_insert_eq.
Qed.

Lemma route_agree (n1 n2 : gmap (option Z) string) (rr : gmap Z Q) (s : Shift) :
  (forall k, resolve' n1 k = resolve' n2 k) ->
  route fetch_role_name n1 rr s = route fetch_role_name n2 rr s.
Proof. intros H. unfold route. by rewrite H. Qed.

(** The effect of one iteration, in terms of the bucket [route] gives. *)
(** Closes the side conditions on which buckets exist after a step. *)
Local Ltac route_side :=
  solve [intuition (eauto; try discriminate; try congruence)].

Lemma classify_step_spec (rr : gmap Z Q) (st : ClassifyState) (s : Shift) :
  let rt := route fetch_role_name (role_id_to_name st) rr in
  let st' := step rr st s in
  (forall k, resolve' (role_id_to_name st') k = resolve' (role_id_to_name st) k)
  /\ on_call_shifts st' = on_call_shifts st ++ option_list (on_call_stub rt s)
  /\ total_seconds st'
     = total_seconds st + (if is_worked rt s then net_seconds s else 0)
  /\ base_rate_seconds st'
     = base_rate_seconds st
       + (if bool_decide (rt s = ToBase) then net_seconds s else 0)
  /\ (forall r,
        bucket_seconds (role_hours st' !! r)
        = bucket_seconds (role_hours st !! r)
          + (if bool_decide (rt s = ToCustom r) then net_seconds s else 0))
  /\ (forall r,
        is_Some (role_hours st' !! r)
        <-> is_Some (role_hours st !! r) \/ rt s = ToCustom r).
Proof.
  intros rt st'. subst rt st'.
  unfold classify_step, route, on_call_stub, is_worked, net_seconds.
  rewrite role_name_resolved.
  destruct (start_time s) as [st_unix|], (end_time s) as [en_unix|];
    cbn [role_id_to_name on_call_shifts total_seconds base_rate_seconds
         role_hours or0 default];
    try (repeat split; try apply resolve_cached; try intros r;
         rewrite ?app_nil_r, ?Z.add_0_r; try done;
         rewrite ?bool_decide_eq_false_2 by done; simpl; try lia;
         route_side).
  destruct (String.eqb (resolve' (role_id_to_name st) (role s))
              ON_CALL_ROLE_NAME) eqn:Hoc.
  - cbn [role_id_to_name on_call_shifts total_seconds base_rate_seconds
         role_hours].
    repeat split; try apply resolve_cached; try intros r;
      rewrite ?bool_decide_eq_false_2 by done; simpl; try lia; route_side.
  - destruct (custom_rate_of rr (role s)) as [[r0 rate0]|] eqn:Hc.
    + destruct (role_hours st !! r0) as [acc|] eqn:Hrh;
        cbn [role_id_to_name on_call_shifts total_seconds base_rate_seconds
             role_hours];
        (split; [apply resolve_cached |]);
        (split; [by rewrite app_nil_r |]);
        (split; [done |]);
        (split; [rewrite bool_decide_eq_false_2 by done; lia |]).
      * split; intros r; rewrite lookup_alter; case_decide as Hr.
        -- subst r. rewrite Hrh, bool_decide_eq_true_2 by done. done.
        -- rewrite bool_decide_eq_false_2 by congruence. simpl. lia.
        -- subst r. rewrite Hrh. route_side.
        -- route_side.
      * split; intros r; rewrite lookup_alter; case_decide as Hr.
        -- subst r. rewrite lookup_insert_eq, Hrh,
             bool_decide_eq_true_2 by done. simpl. lia.
        -- rewrite lookup_insert_ne by done.
           rewrite bool_decide_eq_false_2 by congruence. simpl. lia.
        -- subst r. rewrite lookup_insert_eq. route_side.
        -- rewrite lookup_insert_ne by done. route_side.
    + cbn [role_id_to_name on_call_shifts total_seconds base_rate_seconds
           role_hours].
      repeat split; try apply resolve_cached; try intros r;
        rewrite ?app_nil_r, ?Z.add_0_r; try done;
        rewrite ?bool_decide_eq_true_2 by done;
        rewrite ?bool_decide_eq_false_2 by done; simpl; try lia; route_side.
Qed.

(** The effect of the whole loop, started in any state whose cache resolves
    names as [names0] does. *)
Lemma classify_fold_spec (rr : gmap Z Q) (names0 : gmap (option Z) string)
    (shifts : list Shift) :
  forall st : ClassifyState,
    (forall k, resolve' (role_id_to_name st) k = resolve' names0 k) ->
    let rt := route fetch_role_name names0 rr in
    let st' := fold_left (step rr) shifts st in
    on_call_shifts st' = on_call_shifts st ++ omap (on_call_stub rt) shifts
    /\ total_seconds st'
       = total_seconds st + seconds_where (is_worked rt) shifts
    /\ base_rate_seconds st'
       = base_rate_seconds st + seconds_routed rt ToBase shifts
    /\ (forall r,
          bucket_seconds (role_hours st' !! r)
          = bucket_seconds (role_hours st !! r)
            + seconds_routed rt (ToCustom r) shifts)
    /\ (forall r,
          is_Some (role_hours st' !! r)
          <-> is_Some (role_hours st !! r)
              \/ exists s, s ∈ shifts /\ rt s = ToCustom r).
Proof.
  induction shifts as [|s shifts IH]; intros st Hst rt st'; subst rt st'.
  - simpl. rewrite app_nil_r, !Z.add_0_r. repeat split; try done.
    + intros r. unfold seconds_routed. simpl. lia.
    + auto.
    + intros [H | (s & Hs & _)]; [done | by inversion Hs].
  - destruct (classify_step_spec rr st s)
      as (Hnames & Hoc & Htot & Hbase & Hsec & Hdom).
    assert (forall x, route fetch_role_name (role_id_to_name st) rr x
                      = route fetch_role_name names0 rr x) as Hrt
      by (intros x; by apply route_agree).
    unfold is_worked, on_call_stub in *. rewrite !Hrt in *.
    destruct (IH (step rr st s)) as (IHoc & IHtot & IHbase & IHsec & IHdom).
    { intros k. by rewrite Hnames. }
    cbn [fold_left]. split; [| split; [| split; [| split]]].
    + rewrite IHoc, Hoc, <- app_assoc. f_equal. simpl.
      unfold on_call_stub.
      by destruct (bool_decide (route fetch_role_name names0 rr s = ToOnCall)).
    + rewrite IHtot, Htot. unfold is_worked. simpl. lia.
    + rewrite IHbase, Hbase. unfold seconds_routed. simpl. lia.
    + intros r. rewrite IHsec, Hsec. unfold seconds_routed. simpl.
      rewrite ?Hrt. lia.
    + intros r. rewrite IHdom, Hdom, ?Hrt. split.
      * intros [[H | H] | (x & Hx & Hr)]; [by left | right | right].
        -- exists s. split; [apply list_elem_of_here | done].
        -- exists x. split; [by apply list_elem_of_further | done].
      * intros [H | (x & Hx & Hr)]; [by left; left |].
        apply elem_of_cons in Hx as [-> | Hx]; [by left; right |].
        right. by exists x.
Qed.

(** C6. With [rt] the bucket each shift goes to, a shift goes nowhere
    exactly when a timestamp is missing, and to the on-call stubs exactly
    when both timestamps are present and its role resolves to "On-Call",
    whatever rate overrides exist; every other shift goes to the bucket of
    its role or to the base bucket. The classifier's stubs are the on-call
    shifts, each once and in order; the base hours, the hours of every
    custom role and the total hours are the rounded net seconds of exactly
    the shifts routed there. *)
Theorem shifts_routed_exactly_once (pay_details : PayDetails)
    (roles : gmap Z string) (names : gmap (option Z) string)
    (shifts : list Shift) :
  let rt := route fetch_role_name names (pd_role_rates pay_details) in
  let res := calculate_shift_hours_by_role fetch_role_name (Some shifts)
               pay_details roles names in
  (forall s, rt s = Dropped <-> start_time s = None \/ end_time s = None)
  /\ (forall s, rt s = ToOnCall
                <-> is_Some (start_time s) /\ is_Some (end_time s)
                    /\ resolve' names (role s) = ON_CALL_ROLE_NAME)
  /\ ch_on_call_shifts res = omap (on_call_stub rt) shifts
  /\ (ch_base_rate_hours res
      == seconds_to_hours (seconds_routed rt ToBase shifts))%Q
  /\ (forall r,
        match ch_custom_role_hours res !! r with
        | Some rh =>
            rh_hours rh = seconds_to_hours (seconds_routed rt (ToCustom r) shifts)
            /\ exists s, s ∈ shifts /\ rt s = ToCustom r
        | None => forall s, s ∈ shifts -> rt s <> ToCustom r
        end)
  /\ (ch_total_hours res
      == seconds_to_hours (seconds_where (is_worked rt) shifts))%Q.
Proof.
  intros rt res. split; [| split].
  - intros s. subst rt. unfold route.
    destruct (start_time s), (end_time s);
      repeat match goal with
             | |- context [if ?b then _ else _] => destruct b
             | |- context [match ?o with Some _ => _ | None => _ end] =>
                 destruct o as [[? ?]|]
             end; intuition congruence.
  - intros s. subst rt. unfold route.
    destruct (start_time s), (end_time s);
      try (split; [discriminate | intros (H1 & H2 & _);
                                  by (destruct H1 || destruct H2)]).
    destruct (String.eqb_spec (resolve' names (role s)) ON_CALL_ROLE_NAME)
      as [Heq | Hne].
    + split; [eauto | done].
    + split; [| intros (_ & _ & H); done].
      destruct (custom_rate_of _ _) as [[? ?]|]; discriminate.
  - subst res. unfold calculate_shift_hours_by_role.
    destruct shifts as [|s shifts].
    { simpl. repeat split; try done.
      intros r. rewrite lookup_empty. intros s Hs. by inversion Hs. }
    pose proof (classify_fold_spec (pd_role_rates pay_details) names
                  (s :: shifts) (mkClassifyState 0 0 ∅ [] roles names)
                  (fun k => eq_refl)) as H.
    cbv zeta in H. fold rt in H.
    set (st1 := fold_left (step (pd_role_rates pay_details)) (s :: shifts)
                  (mkClassifyState 0 0 ∅ [] roles names)) in *.
    cbn [role_id_to_name on_call_shifts total_seconds base_rate_seconds
         role_hours] in H.
    destruct H as (Hoc & Htot & Hbase & Hsec & Hdom).
    cbn [ch_on_call_shifts ch_base_rate_hours ch_custom_role_hours
         ch_total_hours].
    split; [by rewrite Hoc |]. split; [by rewrite Hbase |].
    split; [| by rewrite Htot].
    intros r. rewrite lookup_fmap. specialize (Hsec r). specialize (Hdom r).
    rewrite lookup_empty in Hsec, Hdom.
    destruct (role_hours st1 !! r) as [acc|] eqn:Hacc; simpl in *.
    + split; [by rewrite Hsec |].
      destruct Hdom as [Hdom _].
      destruct Hdom as [[? H] | H]; [eauto | done | done].
    + intros x Hx Hr. destruct Hdom as [_ Hdom].
      destruct Hdom as [? H]; [right; eauto | done].
Qed.

End ClassifierProperties.

(** ** Main loop and pay calculator *)

Section PayrollProperties.

Context (fetch_role_name : Z -> string) (timestamp_converts : Z -> bool).

Local Abbreviation classify := (calculate_shift_hours_by_role fetch_role_name).
Local Abbreviation on_call := (on_call_of timestamp_converts).
Local Abbreviation process := (process_user fetch_role_name timestamp_converts).
Local Abbreviation run := (run_step fetch_role_name timestamp_converts).
Local Abbreviation build := (build_payroll_data fetch_role_name timestamp_converts).

Lemma on_call_of_nonneg (stubs : list OnCallShift)
    (attendance_data : option (list Attendance)) :
  (0 <= (on_call stubs attendance_data).1)%Q.
Proof.
  unfold on_call_of. destruct stubs; [simpl; lra |].
  apply calculate_on_call_hours_nonneg.
Qed.

Lemma on_call_of_count (stubs : list OnCallShift)
    (attendance_data : option (list Attendance)) :
  (on_call stubs attendance_data).2 = Z.of_nat (length stubs).
Proof.
  unfold on_call_of. destruct stubs; [done |].
  apply calculate_on_call_hours_count.
Qed.

(** The record [process_user] appends, spelled out. *)
Lemma process_user_record (period_days : Z) (start_date end_date : date)
    (roles : gmap Z string) (names : gmap (option Z) string) (ud : UserData) :
  let pay_details := get_user_pay_details (ud_user ud) in
  let ch := classify (ud_shifts ud) pay_details roles names in
  let oc := on_call (ch_on_call_shifts ch) (ud_attendance ud) in
  let lv := calculate_leave_hours (ud_leave ud) start_date end_date in
  (process period_days start_date end_date roles names ud).1.1
  = if included (ch_total_hours ch) lv.1.2 lv.1.1 lv.2 oc.1
    then Some {|
      employee_name := u_name (ud_user ud);
      pay_type := pd_pay_type pay_details;
      annual_salary := pd_annual_salary pay_details;
      hourly_rate := pd_hourly_rate pay_details;
      weekly_hours := pd_standard_weekly_hours pay_details;
      total_hours := ch_total_hours ch;
      total_hours_display := (ch_total_hours ch + oc.1)%Q;
      fixed_hours :=
        calculate_fixed_hours (pd_standard_weekly_hours pay_details)
          period_days;
      rate_1 := round2 (rate_1_of pay_details);
      base_rate_hours := ch_base_rate_hours ch;
      custom_role_hours := ch_custom_role_hours ch;
      on_call_hours := oc.1;
      on_call_shift_count := oc.2;
      holiday_days := lv.1.1;
      holiday_hours := lv.1.2;
      sickness_days := lv.2 |}
    else None.
Proof.
  intros pay_details ch oc lv. subst pay_details ch oc lv.
  unfold process_user.
  destruct (on_call_of _ _ _) as [och cnt].
  destruct (calculate_leave_hours _ _ _) as [[hd hh] sd].
  reflexivity.
Qed.

Lemma run_step_payroll_data (period_days : Z) (start_date end_date : date)
    (rs : RunState) (ud : UserData) :
  payroll_data (run period_days start_date end_date rs ud)
  = payroll_data rs
    ++ option_list
         (process period_days start_date end_date (rs_all_custom_roles rs)
            (rs_role_id_to_name rs) ud).1.1.
Proof.
  unfold run_step.
  destruct (process_user _ _ _ _ _ _ _ _) as [[[d|] roles] names]; simpl;
    [done | by rewrite app_nil_r].
Qed.

Lemma included_iff (th hh hd sd och : Q) :
  included th hh hd sd och = true
  <-> (0 < th \/ 0 < hh \/ 0 < hd \/ 0 < sd \/ 0 < och)%Q.
Proof. unfold included. rewrite !orb_true_iff, !Qltb_lt. tauto. Qed.

Lemma process_user_ok (period_days : Z) (start_date end_date : date)
    (roles : gmap Z string) (names : gmap (option Z) string) (ud : UserData)
    (d : PayrollRecord) :
  (process period_days start_date end_date roles names ud).1.1 = Some d ->
  record_ok d.
Proof.
  rewrite process_user_record. destruct (included _ _ _ _ _); [| done].
  intros [= <-]. split; simpl; [reflexivity | apply on_call_of_nonneg].
Qed.

Lemma build_payroll_data_ok (period_days : Z) (start_date end_date : date)
    (users : list UserData) :
  forall rs : RunState,
    Forall record_ok (payroll_data rs) ->
    Forall record_ok
      (payroll_data (fold_left (run period_days start_date end_date) users rs)).
Proof.
  induction users as [|ud users IH]; intros rs Hrs; simpl; [done |].
  apply IH. rewrite run_step_payroll_data. apply Forall_app. split; [done |].
  destruct (process_user _ _ _ _ _ _ _ _).1.1 as [d|] eqn:Hd; simpl;
    [| constructor].
  constructor; [| constructor]. by eapply process_user_ok.
Qed.

(** C3. An employee is appended to the payroll output if and only if the
    displayed total hours (shift hours plus on-call worked hours), the
    holiday hours, the holiday days, the sickness days or the on-call worked
    hours are positive; otherwise the output is left as it was. *)
Theorem emitted_iff_any_positive (period_days : Z) (start_date end_date : date)
    (rs : RunState) (ud : UserData) :
  let pay_details := get_user_pay_details (ud_user ud) in
  let ch := classify (ud_shifts ud) pay_details (rs_all_custom_roles rs)
              (rs_role_id_to_name rs) in
  let oc := on_call (ch_on_call_shifts ch) (ud_attendance ud) in
  let lv := calculate_leave_hours (ud_leave ud) start_date end_date in
  let shown_total := (ch_total_hours ch + oc.1)%Q in
  let positive :=
    (0 < shown_total \/ 0 < lv.1.2 \/ 0 < lv.1.1 \/ 0 < lv.2 \/ 0 < oc.1)%Q in
  let out := payroll_data (run period_days start_date end_date rs ud) in
  (positive <->
   exists d, out = payroll_data rs ++ [d]
             /\ employee_name d = u_name (ud_user ud)
             /\ total_hours_display d = shown_total
             /\ holiday_hours d = lv.1.2
             /\ holiday_days d = lv.1.1
             /\ sickness_days d = lv.2
             /\ on_call_hours d = oc.1)
  /\ (~ positive <-> out = payroll_data rs).
Proof.
  intros pay_details ch oc lv shown_total positive out.
  assert (positive
          <-> included (ch_total_hours ch) lv.1.2 lv.1.1 lv.2 oc.1 = true)
    as Hp.
  { rewrite included_iff. subst positive shown_total.
    pose proof (on_call_of_nonneg (ch_on_call_shifts ch) (ud_attendance ud))
      as Hnn.
    fold oc in Hnn. split.
    - intros [H | H]; [| tauto].
      destruct (Qlt_le_dec 0 oc.1); [tauto |]. left. lra.
    - intros [H | H]; [left; lra | tauto]. }
  subst out. rewrite run_step_payroll_data, process_user_record.
  fold pay_details ch oc lv.
  rewrite Hp. destruct (included _ _ _ _ _); simpl.
  - split.
    + split; [| done]. intros _. eexists. split; [reflexivity |]. by simpl.
    + split; [done |]. intros H. exfalso.
      apply (f_equal length) in H. rewrite length_app in H. simpl in H. lia.
  - split.
    + split; [done |]. intros (d & H & _). exfalso.
      rewrite app_nil_r in H.
      apply (f_equal length) in H. rewrite length_app in H. simpl in H. lia.
    + split; [by rewrite app_nil_r | discriminate].
Qed.

(** C7. An employee whose classification yields assigned on-call shifts
    but no worked on-call hours, no other shift hours, no holiday and no
    sickness gets no payroll record: the output is left as it was, so no
    flat-rate pay for the assigned shifts appears in it. *)
Theorem unattended_on_call_only_excluded (period_days : Z)
    (start_date end_date : date) (rs : RunState) (ud : UserData) :
  let pay_details := get_user_pay_details (ud_user ud) in
  let ch := classify (ud_shifts ud) pay_details (rs_all_custom_roles rs)
              (rs_role_id_to_name rs) in
  let oc := on_call (ch_on_call_shifts ch) (ud_attendance ud) in
  let lv := calculate_leave_hours (ud_leave ud) start_date end_date in
  0 < oc.2 -> (oc.1 == 0)%Q -> (ch_total_hours ch == 0)%Q ->
  (lv.1.1 == 0)%Q -> (lv.1.2 == 0)%Q -> (lv.2 == 0)%Q ->
  (process period_days start_date end_date (rs_all_custom_roles rs)
     (rs_role_id_to_name rs) ud).1.1 = None
  /\ payroll_data (run period_days start_date end_date rs ud)
     = payroll_data rs.
Proof.
  intros pay_details ch oc lv Hcount Hoc Hth Hhd Hhh Hsd.
  assert (included (ch_total_hours ch) lv.1.2 lv.1.1 lv.2 oc.1 = false) as Hi.
  { apply not_true_iff_false. rewrite included_iff. lra. }
  assert ((process period_days start_date end_date (rs_all_custom_roles rs)
             (rs_role_id_to_name rs) ud).1.1 = None) as Hnone.
  { rewrite process_user_record. fold pay_details ch oc lv. by rewrite Hi. }
  split; [exact Hnone |].
  rewrite run_step_payroll_data, Hnone. apply app_nil_r.
Qed.

(** C4. For a salaried employee the total pay, in the preview and in the
    spreadsheet, is the annual salary divided by twelve; it is the same for
    any two salaried records with the same annual salary, whatever their
    hour buckets and whatever the overtime rate. *)
Theorem salaried_total_pay (overtime_rate : Q) (roles : gmap Z string)
    (data : PayrollRecord) :
  pay_type data = Some "annual"%string ->
  total_pay overtime_rate data = (annual_salary data / 12)%Q
  /\ excel_total_pay overtime_rate roles data = (annual_salary data / 12)%Q
  /\ (forall (rate' : Q) (data' : PayrollRecord),
        pay_type data' = Some "annual"%string ->
        annual_salary data' = annual_salary data ->
        total_pay rate' data' = total_pay overtime_rate data).
Proof.
  intros Hp. unfold total_pay, excel_total_pay. rewrite Hp. simpl.
  repeat split. intros rate' data' Hp' Hs. by rewrite Hp', Hs.
Qed.

(** C2. For every record of the payroll output the hours paid at the base
    rate are min(total_hours_display - on_call_hours, fixed_hours -
    on_call_hours), in the preview as in the spreadsheet, with no clamping:
    when the on-call hours exceed the fixed hours they are negative, and
    for an employee who is not salaried the total pay contains the term
    hours * rate_1, which is then negative for a positive rate. *)
Theorem hours_at_base_unclamped (period_days : Z) (start_date end_date : date)
    (users : list UserData) (overtime_rate : Q) (d : PayrollRecord) :
  d ∈ payroll_data (build period_days start_date end_date users) ->
  (hours_worked d
   == Qmin (total_hours_display d - on_call_hours d)
           (fixed_hours d - on_call_hours d))%Q
  /\ excel_hours d
     = Qmin (total_hours_display d - on_call_hours d)
            (fixed_hours d - on_call_hours d)
  /\ ((fixed_hours d < on_call_hours d)%Q -> (hours_worked d < 0)%Q)
  /\ (pay_type d <> Some "annual"%string ->
      (total_pay overtime_rate d
       == hours_worked d * rate_1 d
          + (custom_role_pay d + on_call_hours d * rate_1 d
             + inject_Z (on_call_shift_count d) * ON_CALL_FLAT_RATE
             + overtime_hrs d * overtime_rate
             + holiday_hours d * rate_1 d))%Q)
  /\ ((fixed_hours d < on_call_hours d)%Q -> (0 < rate_1 d)%Q ->
      (hours_worked d * rate_1 d < 0)%Q).
Proof.
  intros Hin.
  assert (record_ok d) as [Hd _].
  { pose proof (build_payroll_data_ok period_days start_date end_date users
                  (mkRunState [] ∅ ∅) (Forall_nil_2 _)) as Hall.
    rewrite Forall_forall in Hall. by apply Hall. }
  assert ((fixed_hours d < on_call_hours d)%Q -> (hours_worked d < 0)%Q)
    as Hneg.
  { intros Hlt. unfold hours_worked.
    pose proof (Q.le_min_r (total_hours d) (fixed_hours d - on_call_hours d)).
    lra. }
  split; [| split; [reflexivity | split; [exact Hneg | split]]].
  - unfold hours_worked. apply Q.min_compat; lra.
  - intros Hp. unfold total_pay.
    assert (is_str (pay_type d) "annual" = false) as ->.
    { destruct (pay_type d) as [t|]; simpl; [| done].
      destruct (String.eqb_spec t "annual"); [congruence | done]. }
    lra.
  - intros Hlt Hr. specialize (Hneg Hlt).
    assert (0 < - hours_worked d * rate_1 d)%Q as Hpos
      by (apply Qmult_lt_0_compat; lra).
    assert (hours_worked d * rate_1 d == - (- hours_worked d * rate_1 d))%Q
      as E by ring.
    lra.
Qed.

Lemma no_custom_role_cells (data : PayrollRecord) (roles : list (Z * string)) :
  custom_role_hours data = ∅ ->
  forall init : Q,
    (fold_left
       (fun acc r => acc + (role_cells data r.1).1 * (role_cells data r.1).2)
       roles init == init)%Q.
Proof.
  intros He. induction roles as [|r roles IH]; intros init; simpl;
    [reflexivity |].
  rewrite IH. unfold role_cells. rewrite He, lookup_empty. simpl. lra.
Qed.

(** C1. The worked example: an hourly employee at 14 per hour with 40
    weekly hours over 28 days (160 fixed hours), 200 displayed hours of
    which 20 are on-call worked hours, 10 assigned on-call shifts, no
    custom-role hours and no holiday hours. The base hours are 140, the
    overtime hours 40 and the total pay 2878.40 at the default overtime
    rate of 12.21, in the preview and in the spreadsheet. *)
Theorem worked_example_total_pay (roles : gmap Z string)
    (data : PayrollRecord) :
  (total_hours_display data == total_hours data + on_call_hours data)%Q ->
  pay_type data = Some "hourly"%string ->
  (rate_1 data == 14)%Q ->
  (fixed_hours data == calculate_fixed_hours 40 28)%Q ->
  (total_hours_display data == 200)%Q ->
  (on_call_hours data == 20)%Q ->
  on_call_shift_count data = 10 ->
  custom_role_hours data = ∅ ->
  (holiday_hours data == 0)%Q ->
  (fixed_hours data == 160)%Q
  /\ (hours_worked data == 140)%Q /\ (excel_hours data == 140)%Q
  /\ (overtime_hrs data == 40)%Q /\ (excel_overtime data == 40)%Q
  /\ (total_pay UK_MINIMUM_WAGE data == 287840 # 100)%Q
  /\ (excel_total_pay UK_MINIMUM_WAGE roles data == 287840 # 100)%Q
  /\ (total_pay UK_MINIMUM_WAGE data
      == 140 * 14 + 0 + 20 * 14 + 10 * 15 + 40 * (1221 # 100) + 0)%Q.
Proof.
  intros Hok Hp Hrate Hfixed Hshown Hoc Hcount Hcustom Hhol.
  assert (fixed_hours data == 160)%Q as Hf by (rewrite Hfixed; reflexivity).
  assert (total_hours data == 180)%Q as Hth by lra.
  assert (hours_worked data == 140)%Q as Hhw.
  { unfold hours_worked.
    apply (Qeq_trans _ (Qmin 180 140)); [apply Q.min_compat; lra | reflexivity]. }
  assert (excel_hours data == 140)%Q as Heh.
  { unfold excel_hours.
    apply (Qeq_trans _ (Qmin 180 140)); [apply Q.min_compat; lra | reflexivity]. }
  assert (overtime_hrs data == 40)%Q as Hot.
  { unfold overtime_hrs.
    apply (Qeq_trans _ (Qmax 0 40)); [apply Q.max_compat; lra | reflexivity]. }
  assert (custom_role_pay data == 0)%Q as Hcp.
  { unfold custom_role_pay. rewrite Hcustom, map_to_list_empty. reflexivity. }
  assert (total_pay UK_MINIMUM_WAGE data == 287840 # 100)%Q as Htp.
  { unfold total_pay. rewrite Hp. simpl.
    rewrite Hhw, Hcp, Hrate, Hoc, Hot, Hhol, Hcount. reflexivity. }
  split; [exact Hf |]. split; [exact Hhw |]. split; [exact Heh |].
  split; [exact Hot |]. split; [exact Hot |]. split; [exact Htp |].
  split; [| rewrite Htp; reflexivity].
  unfold excel_total_pay. rewrite Hp. simpl.
  rewrite (no_custom_role_cells data _ Hcustom).
  fold (excel_overtime data). unfold excel_overtime. fold (overtime_hrs data).
  rewrite Heh, Hrate, Hoc, Hot, Hhol, Hcount. reflexivity.
Qed.

End PayrollProperties.

(** ** The properties on the sample runs *)

Lemma shifts_routed_exactly_once_witness :
  let shifts := [sample_on_call_shift 1; sample_base_shift 1;
                 mkShift (Some 5) None (Some 1736600000) None (Some 4)] in
  let res := calculate_shift_hours_by_role sample_role_name (Some shifts)
               (mkPayDetails (Some "hourly"%string) 14 0 {[9 := 20%Q]} 40)
               ∅ ∅ in
  ch_on_call_shifts res = [mkOnCallShift (Some 101) 1736712000 1736740800 0]
  /\ (ch_base_rate_hours res == 9)%Q
  /\ ch_custom_role_hours res !! 9 = None
  /\ (ch_total_hours res == 9)%Q.
Proof.
  intros shifts res.
  destruct (shifts_routed_exactly_once sample_role_name
              (mkPayDetails (Some "hourly"%string) 14 0 {[9 := 20%Q]} 40)
              ∅ ∅ shifts) as (_ & _ & Hoc & Hbase & Hcustom & Htotal).
  split; [| split; [| split]].
  - etransitivity; [exact Hoc |]. vm_compute. reflexivity.
  - eapply Qeq_trans; [exact Hbase |]. vm_compute. reflexivity.
  - vm_compute. reflexivity.
  - eapply Qeq_trans; [exact Htotal |]. vm_compute. reflexivity.
Defined.

Lemma emitted_iff_any_positive_witness :
  exists d,
    payroll_data
      (run_step sample_role_name sample_converts 28 (mkDate 2025 1 11)
         (mkDate 2025 2 7) (mkRunState [] ∅ ∅) worked_example_user) = [d]
    /\ employee_name d = "Ann Example"%string.
Proof.
  destruct (emitted_iff_any_positive sample_role_name sample_converts 28
              (mkDate 2025 1 11) (mkDate 2025 2 7) (mkRunState [] ∅ ∅)
              worked_example_user) as [[Hin _] _].
  destruct Hin as (d & Hout & Hname & _).
  - left. vm_compute. reflexivity.
  - exists d. split; [exact Hout | exact Hname].
Defined.

Lemma unattended_on_call_only_excluded_witness :
  (process_user sample_role_name sample_converts 28 (mkDate 2025 1 11)
     (mkDate 2025 2 7) ∅ ∅ unattended_user).1.1 = None
  /\ payroll_data
       (run_step sample_role_name sample_converts 28 (mkDate 2025 1 11)
          (mkDate 2025 2 7) (mkRunState [] ∅ ∅) unattended_user) = [].
Proof.
  apply (unattended_on_call_only_excluded sample_role_name sample_converts 28
           (mkDate 2025 1 11) (mkDate 2025 2 7) (mkRunState [] ∅ ∅)
           unattended_user); vm_compute; reflexivity.
Defined.

Lemma salaried_total_pay_witness :
  exists d,
    (process_user sample_role_name sample_converts 31 (mkDate 2025 1 11)
       (mkDate 2025 2 10) ∅ ∅ salaried_user).1.1 = Some d
    /\ (total_pay UK_MINIMUM_WAGE d == 3000)%Q
    /\ (excel_total_pay UK_MINIMUM_WAGE ∅ d == 3000)%Q.
Proof.
  eexists. split; [vm_compute; reflexivity |].
  match goal with
  | |- (total_pay _ ?d == _)%Q /\ _ =>
      destruct (salaried_total_pay UK_MINIMUM_WAGE ∅ d eq_refl)
        as (Hpreview & Hexcel & _)
  end.
  rewrite Hpreview, Hexcel. split; reflexivity.
Defined.

Lemma hours_at_base_unclamped_witness :
  exists d,
    d ∈ payroll_data
          (build_payroll_data sample_role_name sample_converts 31
             (mkDate 2025 1 11) (mkDate 2025 2 10)
             [unattended_user; zero_hours_user])
    /\ (hours_worked d == -2)%Q
    /\ (hours_worked d * rate_1 d < 0)%Q.
Proof.
  eexists. split; [vm_compute; apply list_elem_of_here |].
  match goal with
  | |- (hours_worked ?d == _)%Q /\ _ =>
      destruct (hours_at_base_unclamped sample_role_name sample_converts 31
                  (mkDate 2025 1 11) (mkDate 2025 2 10)
                  [unattended_user; zero_hours_user] UK_MINIMUM_WAGE d)
        as (Hmin & _ & _ & _ & Hneg)
  end.
  - vm_compute. apply list_elem_of_here.
  - split.
    + eapply Qeq_trans; [exact Hmin |]. reflexivity.
    + apply Hneg; reflexivity.
Defined.

Lemma worked_example_total_pay_witness :
  exists d,
    (process_user sample_role_name sample_converts 28 (mkDate 2025 1 11)
       (mkDate 2025 2 7) ∅ ∅ worked_example_user).1.1 = Some d
    /\ (total_hours_display d == 200)%Q
    /\ (hours_worked d == 140)%Q
    /\ (overtime_hrs d == 40)%Q
    /\ (total_pay UK_MINIMUM_WAGE d == 287840 # 100)%Q.
Proof.
  eexists. split; [vm_compute; reflexivity |].
  match goal with
  | |- (total_hours_display ?d == _)%Q /\ _ =>
      destruct (worked_example_total_pay ∅ d)
        as (_ & Hhours & _ & Hover & _ & Hpay & _)
  end; try reflexivity.
  split; [reflexivity |]. split; [exact Hhours |].
  split; [exact Hover | exact Hpay].
Defined.

(** * Further properties of the period calculator *)

Lemma datetime_date_Some (y m d : Z) (x : date) :
  datetime_date y m d = Some x ->
  x = mkDate y m d /\ MINYEAR <= y <= MAXYEAR /\ 1 <= m <= 12
  /\ 1 <= d <= days_in_month y m.
Proof.
  unfold datetime_date.
  destruct ((MINYEAR <=? y) && (y <=? MAXYEAR) && (1 <=? m) && (m <=? 12)
            && (1 <=? d) && (d <=? days_in_month y m)) eqn:E; [| done].
  intros [= <-]. rewrite !andb_true_iff, !Z.leb_le in E. intuition lia.
Qed.

Lemma monthly_period_Some (y m : Z) (s e : date) :
  get_monthly_payroll_period y m = Some (s, e) ->
  1 <= m <= 12 /\ MINYEAR <= y <= MAXYEAR
  /\ s = mkDate y m 11
  /\ e = (if m =? 12 then mkDate (y + 1) 1 10 else mkDate y (m + 1) 10).
Proof.
  unfold get_monthly_payroll_period.
  destruct (datetime_date y m 11) as [s'|] eqn:Hs; [| done].
  apply datetime_date_Some in Hs as (-> & Hy & Hm & _).
  destruct (m =? 12);
    (destruct (datetime_date _ _ 10) as [e'|] eqn:He; [| done]);
    apply datetime_date_Some in He as (-> & _); intros [= <- <-]; auto.
Qed.

Lemma days_before_month_succ (y m : Z) :
  1 <= m ->
  days_before_month y (m + 1) = days_before_month y m + days_in_month y m.
Proof.
  intros Hm. unfold days_before_month.
  replace (Z.to_nat (m + 1 - 1)) with (S (Z.to_nat (m - 1))) by lia.
  cbn [days_before_month_from]. by replace (m + 1 - 1) with m by lia.
Qed.

Lemma days_before_december (y : Z) :
  days_before_month y 12 = 334 + (if is_leap y then 1 else 0).
Proof.
  unfold days_before_month. change (Z.to_nat (12 - 1)) with 11%nat.
  cbn [days_before_month_from]. unfold days_in_month.
  repeat match goal with
         | |- context [?a - 1] =>
             let v := eval cbv in (a - 1) in change (a - 1) with v
         end.
  cbn [Z.eqb Pos.eqb orb].
  destruct (is_leap y); lia.
Qed.

Lemma days_before_next_year (y : Z) :
  days_before_year (y + 1)
  = days_before_year y + 365 + (if is_leap y then 1 else 0).
Proof.
  unfold days_before_year, is_leap. replace (y + 1 - 1) with y by lia.
  destruct (Z.eqb_spec (y mod 4) 0), (Z.eqb_spec (y mod 100) 0),
    (Z.eqb_spec (y mod 400) 0); cbn [andb orb negb];
    Z.div_mod_to_equations; lia.
Qed.

Lemma days_in_month_bounds (y m : Z) : 28 <= days_in_month y m <= 31.
Proof.
  unfold days_in_month.
  destruct (m =? 2); [destruct (is_leap y); lia |].
  destruct ((m =? 4) || (m =? 6) || (m =? 9) || (m =? 11)); lia.
Qed.

(** X1. A monthly payroll period has as many days as the calendar month it
    starts in, hence between 28 and 31. *)
Theorem monthly_period_days (y m : Z) (start_date end_date : date) :
  get_monthly_payroll_period y m = Some (start_date, end_date) ->
  calculate_period_days start_date end_date = days_in_month y m
  /\ 28 <= calculate_period_days start_date end_date <= 31.
Proof.
  intros H. apply monthly_period_Some in H as (Hm & Hy & -> & ->).
  assert (calculate_period_days (mkDate y m 11)
            (if m =? 12 then mkDate (y + 1) 1 10 else mkDate y (m + 1) 10)
          = days_in_month y m) as E.
  { unfold calculate_period_days, toordinal.
    destruct (Z.eqb_spec m 12) as [-> | Hne]; cbn [year month day].
    - rewrite days_before_next_year, days_before_december.
      unfold days_in_month. cbn. change (days_before_month (y + 1) 1) with 0.
      destruct (is_leap y); lia.
    - rewrite days_before_month_succ by lia. lia. }
  rewrite E. split; [done | apply days_in_month_bounds].
Qed.

Lemma monthly_period_days_witness :
  calculate_period_days (mkDate 2024 2 11) (mkDate 2024 3 10) = 29
  /\ 28 <= 29 <= 31.
Proof. apply (monthly_period_days 2024 2). reflexivity. Defined.

(** X2. Stepping to the next period and back, or back and forth, returns to
    the same year and month, and stepping keeps the month between 1 and
    12. *)
Theorem period_navigation_round_trip (y m : Z) :
  1 <= m <= 12 ->
  next_period (previous_period y m).1 (previous_period y m).2 = (y, m)
  /\ previous_period (next_period y m).1 (next_period y m).2 = (y, m)
  /\ 1 <= (next_period y m).2 <= 12
  /\ 1 <= (previous_period y m).2 <= 12.
Proof.
  intros Hm. unfold next_period, previous_period.
  destruct (Z.eqb_spec m 1), (Z.eqb_spec m 12); subst; cbn; try lia;
    repeat split; try lia;
    repeat match goal with
           | |- context [?a =? ?b] => destruct (Z.eqb_spec a b); try lia
           end; cbn; try (f_equal; lia); lia.
Qed.

Lemma period_navigation_round_trip_witness :
  next_period (previous_period 2025 1).1 (previous_period 2025 1).2
  = (2025, 1)
  /\ previous_period (next_period 2025 1).1 (next_period 2025 1).2 = (2025, 1)
  /\ 1 <= (next_period 2025 1).2 <= 12
  /\ 1 <= (previous_period 2025 1).2 <= 12.
Proof. apply (period_navigation_round_trip 2025 1). lia. Defined.

(** X3. Consecutive periods leave no gap and do not overlap: the period
    reached with "Next" starts on the day after the current period ends. *)
Theorem next_period_is_contiguous (y m : Z) (s e s' e' : date) :
  get_monthly_payroll_period y m = Some (s, e) ->
  get_monthly_payroll_period (next_period y m).1 (next_period y m).2
  = Some (s', e') ->
  year s' = year e /\ month s' = month e
  /\ toordinal s' = toordinal e + 1.
Proof.
  intros H H'. apply monthly_period_Some in H as (Hm & Hy & -> & ->).
  apply monthly_period_Some in H' as (_ & _ & -> & _).
  unfold next_period, toordinal.
  destruct (m =? 12); cbn [fst snd year month day]; repeat split; lia.
Qed.

Lemma next_period_is_contiguous_witness :
  toordinal (mkDate 2026 1 11) = toordinal (mkDate 2026 1 10) + 1.
Proof.
  apply (next_period_is_contiguous 2025 12 (mkDate 2025 12 11)
           (mkDate 2026 1 10) (mkDate 2026 1 11) (mkDate 2026 2 10));
    reflexivity.
Defined.

(** X4. The default period starts before today, and today lies inside it
    exactly when the day of the month is at most 10: on or before the 10th
    the default period is the one still running, after the 10th it is the
    one that has just ended. *)
Theorem default_period_and_today (y m d : Z) (today s e : date) :
  datetime_date y m d = Some today ->
  get_default_payroll_period today = Some (s, e) ->
  date_leb s today = true
  /\ (date_leb today e = true <-> d <= 10).
Proof.
  intros Ht H. apply datetime_date_Some in Ht as (-> & Hy & Hm & Hd).
  unfold get_default_payroll_period in H. cbn [year month day] in H.
  replace (if d <=? 10 then target_on_or_before_10th (mkDate y m d)
           else target_after_10th (mkDate y m d))
    with (target_after_10th (mkDate y m d)) in H
    by (destruct (d <=? 10); reflexivity).
  unfold target_after_10th in H. cbn [year month day] in H.
  destruct (Z.eqb_spec m 1) as [-> | Hm1];
    apply monthly_period_Some in H as (_ & _ & -> & ->).
  - cbn. unfold date_leb. cbn [year month day].
    split.
    + apply orb_true_iff. left. apply Z.ltb_lt. lia.
    + replace (y - 1 + 1) with y by lia.
      rewrite Z.ltb_irrefl, Z.eqb_refl. cbn. by rewrite Z.leb_le.
  - destruct (Z.eqb_spec (m - 1) 12); [lia |].
    unfold date_leb. cbn [year month day].
    replace (m - 1 + 1) with m by lia.
    rewrite !Z.ltb_irrefl, !Z.eqb_refl. cbn.
    split.
    + apply orb_true_iff. left. apply Z.ltb_lt. lia.
    + by rewrite Z.leb_le.
Qed.

Lemma default_period_and_today_witness :
  date_leb (mkDate 2025 2 11) (mkDate 2025 3 25) = true
  /\ (date_leb (mkDate 2025 3 25) (mkDate 2025 3 10) = true <-> 25 <= 10).
Proof.
  apply (default_period_and_today 2025 3 25); reflexivity.
Defined.

(** * Further properties of rounding and of the fixed-hours proration *)

Lemma round_half_even_mono (x y : Q) :
  (x <= y)%Q -> round_half_even x <= round_half_even y.
Proof.
  intros Hxy. pose proof (Qfloor_resp_le _ _ Hxy) as Hf.
  destruct (Z.eq_dec (Qfloor x) (Qfloor y)) as [E | Hne].
  - unfold round_half_even. rewrite E.
    destruct (Qcompare_spec (x - inject_Z (Qfloor y)) (1 # 2)),
      (Qcompare_spec (y - inject_Z (Qfloor y)) (1 # 2));
      try lia; try (exfalso; lra);
      destruct (Z.even (Qfloor y)); lia.
  - destruct (round_half_even_floor x), (round_half_even_floor y); lia.
Qed.

Lemma round2_mono (x y : Q) : (x <= y)%Q -> (round2 x <= round2 y)%Q.
Proof.
  intros Hxy. unfold round2.
  assert (round_half_even (x * 100) <= round_half_even (y * 100)) as H
    by (apply round_half_even_mono; lra).
  unfold Qle. simpl. lia.
Qed.

(** Full weeks plus prorated remainder is one seventh of the weekly hours
    per day. *)
Lemma proration_linear (w : Q) (d : Z) :
  (inject_Z (d / 7) * w + (inject_Z (d mod 7) / 7) * w
   == w * inject_Z d * (1 # 7))%Q.
Proof.
  assert (inject_Z d == 7 * inject_Z (d / 7) + inject_Z (d mod 7))%Q as E.
  { change 7%Q with (inject_Z 7).
    rewrite <- inject_Z_mult, <- inject_Z_plus, <- Z.div_mod by lia.
    reflexivity. }
  rewrite E. unfold Qdiv. change (/ 7)%Q with (1 # 7)%Q. ring.
Qed.

Lemma calculate_fixed_hours_positive (w : Q) (d : Z) :
  (0 < w)%Q -> 0 < d ->
  (calculate_fixed_hours w d == round2 (w * inject_Z d * (1 # 7)))%Q.
Proof.
  intros Hw Hd. unfold calculate_fixed_hours.
  apply Qltb_lt in Hw. unfold Qltb in Hw. apply negb_true_iff in Hw.
  rewrite Hw. apply Z.leb_gt in Hd. rewrite Hd. cbn [orb].
  apply round2_comp, proration_linear.
Qed.

Lemma calculate_fixed_hours_zero (w : Q) (d : Z) :
  (w <= 0)%Q \/ d <= 0 -> calculate_fixed_hours w d = 0%Q.
Proof.
  unfold calculate_fixed_hours. intros [Hw | Hd].
  - apply Qle_bool_iff in Hw. by rewrite Hw.
  - apply Z.leb_le in Hd. by rewrite Hd, orb_true_r.
Qed.

Lemma inject_Z_pos (d : Z) : 0 < d -> (0 < inject_Z d)%Q.
Proof. intros H. unfold Qlt. simpl. lia. Qed.

Lemma calculate_fixed_hours_ge_0 (w : Q) (d : Z) :
  (0 <= calculate_fixed_hours w d)%Q.
Proof.
  destruct (Qlt_le_dec 0 w) as [Hw | Hw];
    [| rewrite calculate_fixed_hours_zero by auto; lra].
  destruct (Z.lt_ge_cases 0 d) as [Hd | Hd];
    [| rewrite calculate_fixed_hours_zero by auto; lra].
  rewrite calculate_fixed_hours_positive by done.
  apply round2_nonneg. pose proof (inject_Z_pos d Hd).
  apply Qmult_le_0_compat; [apply Qmult_le_0_compat |]; lra.
Qed.

(** X5. The fixed hours are never negative, and for positive weekly hours
    and a positive number of days they are one seventh of the weekly hours
    per day of the period, up to half a hundredth of an hour of rounding. *)
Theorem fixed_hours_linear_proration (w : Q) (d : Z) :
  (0 <= calculate_fixed_hours w d)%Q
  /\ ((0 < w)%Q -> 0 < d ->
      (Qabs (calculate_fixed_hours w d - w * inject_Z d / 7) <= 1 # 200)%Q).
Proof.
  split; [apply calculate_fixed_hours_ge_0 |].
  intros Hw Hd.
  pose proof (calculate_fixed_hours_positive w d Hw Hd) as E.
  pose proof (round2_close (w * inject_Z d * (1 # 7))) as Hc.
  apply Qabs_Qle_condition in Hc. apply Qabs_Qle_condition.
  assert (w * inject_Z d / 7 == w * inject_Z d * (1 # 7))%Q as E'
    by (unfold Qdiv; reflexivity).
  set (u := (w * inject_Z d * (1 # 7))%Q) in *.
  set (v := (w * inject_Z d / 7)%Q) in *.
  split; lra.
Qed.

Lemma fixed_hours_linear_proration_witness :
  (Qabs (calculate_fixed_hours (375 # 10) 31
         - (375 # 10) * inject_Z 31 / 7) <= 1 # 200)%Q.
Proof.
  apply (fixed_hours_linear_proration (375 # 10) 31); [reflexivity | lia].
Defined.

(** X6. The fixed hours never decrease when the period gets longer or the
    weekly hours get larger. *)
Theorem fixed_hours_monotone (w w' : Q) (d d' : Z) :
  (w <= w')%Q -> d <= d' ->
  (calculate_fixed_hours w d <= calculate_fixed_hours w' d')%Q.
Proof.
  intros Hw Hd.
  destruct (Qlt_le_dec 0 w) as [Hw0 | Hw0];
    [| rewrite (calculate_fixed_hours_zero w d) by auto;
       apply calculate_fixed_hours_ge_0].
  destruct (Z.lt_ge_cases 0 d) as [Hd0 | Hd0];
    [| rewrite (calculate_fixed_hours_zero w d) by auto;
       apply calculate_fixed_hours_ge_0].
  rewrite !calculate_fixed_hours_positive by (done || lra || lia).
  apply round2_mono.
  assert (inject_Z d <= inject_Z d')%Q as Hdq
    by (unfold Qle; simpl; lia).
  pose proof (inject_Z_pos d Hd0) as Hdp.
  assert (w * inject_Z d <= w' * inject_Z d')%Q as Hm.
  { apply Qle_trans with (w * inject_Z d')%Q.
    - rewrite !(Qmult_comm w). apply Qmult_le_compat_r; lra.
    - apply Qmult_le_compat_r; lra. }
  set (a := (w * inject_Z d)%Q) in *. set (b := (w' * inject_Z d')%Q) in *.
  lra.
Qed.

Lemma fixed_hours_monotone_witness :
  (calculate_fixed_hours 35 28 <= calculate_fixed_hours 40 31)%Q.
Proof.
  apply (fixed_hours_monotone 35 40 28 31); [| lia].
  unfold Qle. simpl. lia.
Defined.

(** * Further properties of the on-call reconciler *)

Section OnCallFurther.

Context (timestamp_converts : Z -> bool).

Local Abbreviation reconcile := (calculate_on_call_hours timestamp_converts).
Local Abbreviation counts := (counted timestamp_converts).

Lemma sum_hours_ext (keep keep' : Attendance -> bool)
    (records : list Attendance) :
  (forall a, a ∈ records -> keep a = keep' a) ->
  (sum_hours keep records == sum_hours keep' records)%Q.
Proof.
  induction records as [|a records IH]; intros H; simpl; [reflexivity |].
  rewrite (H a) by apply list_elem_of_here.
  rewrite IH; [reflexivity |]. intros b Hb. apply H. by apply list_elem_of_further.
Qed.

Lemma sum_hours_app (keep : Attendance -> bool) (l1 l2 : list Attendance) :
  (sum_hours keep (l1 ++ l2) == sum_hours keep l1 + sum_hours keep l2)%Q.
Proof.
  induction l1 as [|a l1 IH]; simpl; [lra |]. rewrite IH. lra.
Qed.

Lemma sum_hours_filter (keep p : Attendance -> bool)
    (records : list Attendance) :
  (forall a, keep a = true -> p a = true) ->
  (sum_hours keep (List.filter p records) == sum_hours keep records)%Q.
Proof.
  intros H. induction records as [|a records IH]; simpl; [reflexivity |].
  destruct (p a) eqn:Hp; simpl; rewrite IH; [reflexivity |].
  destruct (keep a) eqn:Hk; [| lra]. rewrite (H a Hk) in Hp. discriminate.
Qed.

(** X7. The worked on-call hours are never negative, and they are zero
    when no attendance record qualifies, in particular when every record is
    deleted. *)
Theorem on_call_hours_never_negative (stubs : list OnCallShift)
    (attendance_data : option (list Attendance)) :
  (0 <= (reconcile stubs attendance_data).1.1)%Q
  /\ (Forall (fun a => deleted a = true) (default [] attendance_data) ->
      ((reconcile stubs attendance_data).1.1 == 0)%Q).
Proof.
  split; [apply calculate_on_call_hours_nonneg |].
  intros Hall. rewrite calculate_on_call_hours_total.
  rewrite (sum_hours_ext _ (fun _ => false)).
  - rewrite sum_hours_none by done. reflexivity.
  - intros a Ha. rewrite Forall_forall in Hall.
    unfold counted. by rewrite (Hall a Ha).
Qed.

(** X9. Deleted attendance records and attendance records of shifts that
    are not on-call stubs have no effect: removing them all leaves the
    worked hours unchanged. *)
Theorem on_call_hours_ignore_irrelevant (stubs : list OnCallShift)
    (records : list Attendance) :
  ((reconcile stubs
      (Some (List.filter
               (fun a => negb (deleted a) && matches_stub stubs a) records))).1.1
   == (reconcile stubs (Some records)).1.1)%Q.
Proof.
  rewrite !calculate_on_call_hours_total. simpl default.
  apply round2_comp, sum_hours_filter.
  intros a. unfold counted. rewrite !andb_true_iff. tauto.
Qed.

(** X10. More attendance never lowers the worked hours: with further
    records appended the worked hours are at least what they were. *)
Theorem on_call_hours_monotone (stubs : list OnCallShift)
    (records more : list Attendance) :
  ((reconcile stubs (Some records)).1.1
   <= (reconcile stubs (Some (records ++ more))).1.1)%Q.
Proof.
  rewrite !calculate_on_call_hours_total. simpl default.
  apply round2_mono. rewrite sum_hours_app.
  pose proof (sum_hours_counted_nonneg timestamp_converts stubs more). lra.
Qed.

End OnCallFurther.

Lemma on_call_hours_never_negative_witness :
  let stubs := [mkOnCallShift (Some 101) 1736712000 1736740800 0] in
  let records :=
    [mkAttendance (Some 101) (Some 1736712000) (Some 1736719200) true] in
  ((calculate_on_call_hours sample_converts stubs (Some records)).1.1 == 0)%Q.
Proof.
  intros stubs records.
  apply (on_call_hours_never_negative sample_converts).
  repeat constructor.
Defined.

(** On attendances of whole hours the binary64 total is exact: the three
    attendances of the worked example, 8, 8 and 4 hours, give 20.0. *)
Example on_call_binary64_worked_example :
  calculate_on_call_hours_binary64 sample_converts
    [mkOnCallShift (Some 101) 1736712000 1736740800 0;
     mkOnCallShift (Some 102) 1736798400 1736827200 0;
     mkOnCallShift (Some 103) 1736884800 1736913600 0]
    (Some [sample_attendance 1 8; sample_attendance 2 8;
           sample_attendance 3 4])
  = Some (float_of_int 20, 3, []).
Proof. vm_compute. reflexivity. Qed.

(** The reconciler consults the lookup only for the presence of the shift
    id, and the ids present do not depend on the order of the stubs. *)
Lemma build_shift_lookup_perm (stubs stubs' : list OnCallShift)
    (k : option Z) :
  stubs ≡ₚ stubs' ->
  build_shift_lookup stubs !! k = None
  <-> build_shift_lookup stubs' !! k = None.
Proof.
  intros Hp. rewrite !build_shift_lookup_None.
  assert (existsb (fun s => bool_decide (oc_shift_id s = k)) stubs
          = existsb (fun s => bool_decide (oc_shift_id s = k)) stubs') as ->;
    [| done].
  apply eq_true_iff_eq. rewrite !existsb_exists.
  split; intros (s & Hs & H); exists s; split; try done;
    apply list_elem_of_In; apply list_elem_of_In in Hs;
    [by rewrite <- Hp | by rewrite Hp].
Qed.

Lemma on_call_step_binary64_ext (timestamp_converts : Z -> bool)
    (l1 l2 : gmap (option Z) (Z * Z * Z)) (acc : spec_float * list Warning)
    (a : Attendance) :
  (l1 !! att_shift a = None <-> l2 !! att_shift a = None) ->
  on_call_step_binary64 timestamp_converts l1 acc a
  = on_call_step_binary64 timestamp_converts l2 acc a.
Proof.
  intros H. unfold on_call_step_binary64.
  destruct (l1 !! att_shift a) as [v1|] eqn:H1,
           (l2 !! att_shift a) as [v2|] eqn:H2; try reflexivity.
  - destruct H as [_ H]. by discriminate H.
  - destruct H as [H _]. by discriminate H.
Qed.

(** X8. The order of the on-call stubs does not matter: permuting them
    leaves the worked hours, the assigned shift count and the warnings
    unchanged.  The order of the attendance records does matter, because
    the hours are added in binary64: attendances of 13521, 7609 and 8660
    seconds give 8.28 hours in that order and 8.27 hours when the last two
    are exchanged. *)
Theorem on_call_hours_order_dependence (timestamp_converts : Z -> bool) :
  (forall (stubs stubs' : list OnCallShift)
      (attendance_data : option (list Attendance)),
      stubs ≡ₚ stubs' ->
      calculate_on_call_hours_binary64 timestamp_converts stubs attendance_data
      = calculate_on_call_hours_binary64 timestamp_converts stubs'
          attendance_data)
  /\ (let stubs := [mkOnCallShift (Some 7) 1700000000 1700050000 0] in
      let a1 :=
        mkAttendance (Some 7) (Some 1700000000) (Some 1700013521) false in
      let a2 :=
        mkAttendance (Some 7) (Some 1700020000) (Some 1700027609) false in
      let a3 :=
        mkAttendance (Some 7) (Some 1700030000) (Some 1700038660) false in
      calculate_on_call_hours_binary64 sample_converts stubs
        (Some [a1; a2; a3])
      = Some (nearest_float (828 # 100), 1, [])
      /\ calculate_on_call_hours_binary64 sample_converts stubs
           (Some [a1; a3; a2])
         = Some (nearest_float (827 # 100), 1, [])
      /\ nearest_float (828 # 100) <> nearest_float (827 # 100)).
Proof.
  split;
    [| split; [vm_compute; reflexivity |];
       split; [vm_compute; reflexivity | vm_compute; discriminate]].
  intros stubs stubs' attendance_data Hp.
  unfold calculate_on_call_hours_binary64.
  destruct stubs as [|s stubs], stubs' as [|s' stubs'].
  - reflexivity.
  - by apply Permutation_nil_cons in Hp.
  - symmetry in Hp. by apply Permutation_nil_cons in Hp.
  - rewrite (Permutation_length Hp).
    destruct attendance_data as [[|a records]|]; try reflexivity.
    cbv zeta. f_equal.
    generalize (Some (float_zero, @nil Warning)).
    induction (a :: records) as [|b l IH]; intros acc; [reflexivity |].
    cbn [fold_left]. rewrite IH. f_equal.
    destruct acc as [acc|]; [| reflexivity]. cbn [mbind option_bind].
    apply on_call_step_binary64_ext, build_shift_lookup_perm, Hp.
Qed.

Lemma on_call_hours_order_dependence_witness :
  let s1 := mkOnCallShift (Some 101) 1736712000 1736740800 0 in
  let s2 := mkOnCallShift (Some 102) 1736798400 1736827200 0 in
  let records := Some [sample_attendance 1 8; sample_attendance 2 4] in
  calculate_on_call_hours_binary64 sample_converts [s1; s2] records
  = calculate_on_call_hours_binary64 sample_converts [s2; s1] records.
Proof.
  intros s1 s2 records.
  apply (proj1 (on_call_hours_order_dependence sample_converts)).
  apply Permutation_swap.
Defined.

Section OnCallWarnings.

Context (timestamp_converts : Z -> bool).

(** A record that reaches the duration test: not deleted, for a stub with a
    truthy id, with truthy times that convert. *)
Definition reaches_duration_test (stubs : list OnCallShift) (a : Attendance)
  : bool :=
  negb (deleted a) && truthy (att_shift a) && matches_stub stubs a
  && truthy (in_time a) && truthy (out_time a)
  && timestamp_converts (or0 (in_time a))
  && timestamp_converts (or0 (out_time a)).

Lemma on_call_step_invalid (stubs : list OnCallShift) (acc : Q * list Warning)
    (a : Attendance) :
  reaches_duration_test stubs a = true ->
  (attendance_hours a <= 0)%Q ->
  InvalidOnCallHours (att_shift a) (attendance_hours a)
  ∈ snd (on_call_step timestamp_converts (build_shift_lookup stubs) acc a).
Proof.
  unfold reaches_duration_test, matches_stub. rewrite !andb_true_iff.
  intros ((((((Hd & Hs) & Hm) & Hi) & Ho) & Hci) & Hco) Hle.
  unfold on_call_step. apply negb_true_iff in Hd. rewrite Hd.
  destruct (build_shift_lookup stubs !! att_shift a) eqn:Hl.
  2:{ apply build_shift_lookup_None in Hl. rewrite Hs, Hm in Hl. discriminate. }
  rewrite Hi, Ho. simpl. unfold unix_to_datetime. rewrite Hci, Hco.
  assert ((or0 (in_time a) =? 0) = false) as ->.
  { destruct (in_time a); simpl in *; [| discriminate].
    by apply negb_true_iff. }
  assert ((or0 (out_time a) =? 0) = false) as ->.
  { destruct (out_time a); simpl in *; [| discriminate].
    by apply negb_true_iff. }
  fold (attendance_hours a).
  apply Qle_bool_iff in Hle. rewrite Hle. simpl.
  rewrite elem_of_app. right. apply list_elem_of_singleton. reflexivity.
Qed.

(** X11. An attendance record that is not deleted, belongs to an on-call
    stub and has usable times but does not end after it starts raises the
    invalid-hours warning and adds nothing to the worked hours. *)
Theorem on_call_invalid_duration_warned (stubs : list OnCallShift)
    (records : list Attendance) (a : Attendance) :
  a ∈ records ->
  reaches_duration_test stubs a = true ->
  (attendance_hours a <= 0)%Q ->
  InvalidOnCallHours (att_shift a) (attendance_hours a)
  ∈ (calculate_on_call_hours timestamp_converts stubs (Some records)).2
  /\ counted timestamp_converts stubs a = false.
Proof.
  intros Hin Hr Hle. split.
  - unfold calculate_on_call_hours.
    destruct stubs as [|s stubs].
    { unfold reaches_duration_test, matches_stub in Hr. simpl in Hr.
      rewrite andb_false_r in Hr. discriminate. }
    destruct records as [|b records]; [by inversion Hin |].
    cbn [snd].
    set (lookup := build_shift_lookup (s :: stubs)).
    assert (forall l acc, a ∈ l ->
              InvalidOnCallHours (att_shift a) (attendance_hours a)
              ∈ snd (fold_left (on_call_step timestamp_converts lookup) l acc))
      as Hfold.
    { induction l as [|c l IH]; intros acc Hc; [by inversion Hc |].
      simpl. apply elem_of_cons in Hc as [<- | Hc].
      - by apply on_call_fold_keeps_warnings, on_call_step_invalid.
      - by apply IH. }
    by apply Hfold.
  - unfold counted. apply andb_false_iff. right. by apply Qltb_ge.
Qed.

End OnCallWarnings.

Lemma on_call_invalid_duration_warned_witness :
  let backwards :=
    mkAttendance (Some 101) (Some 1736719200) (Some 1736712000) false in
  let stubs := [mkOnCallShift (Some 101) 1736712000 1736740800 0] in
  InvalidOnCallHours (Some 101) (attendance_hours backwards)
  ∈ (calculate_on_call_hours sample_converts stubs (Some [backwards])).2
  /\ counted sample_converts stubs backwards = false.
Proof.
  intros backwards stubs.
  apply (on_call_invalid_duration_warned sample_converts stubs [backwards]
           backwards).
  - apply list_elem_of_here.
  - reflexivity.
  - unfold Qle. simpl. lia.
Defined.

(** * Properties of the leave aggregator *)

(** A date entry that parsed and lies in the period, both ends included. *)
Definition in_period (start_date end_date : date) (e : LeaveDate) : bool :=
  match le_date e with
  | Some d => date_leb start_date d && date_leb d end_date
  | None => false
  end.

(** Sum of [f] over the in-period date entries of a list. *)
Definition dates_total (start_date end_date : date) (f : LeaveDate -> Q)
    (dates : list LeaveDate) : Q :=
  foldr (fun e acc =>
           ((if in_period start_date end_date e then f e else 0) + acc)%Q)
    0%Q dates.

(** Sum of [f] over the in-period date entries of the approved records of
    leave type [ty]. *)
Definition leave_total (start_date end_date : date) (ty : Z)
    (f : LeaveDate -> Q) (records : list LeaveRecord) : Q :=
  foldr (fun r acc =>
           ((if is_str (lr_status r) "approved"
                && bool_decide (lr_type r = Some ty)
             then dates_total start_date end_date f (lr_dates r) else 0)
            + acc)%Q)
    0%Q records.

Definition entry_days (e : LeaveDate) : Q := or0Q (le_days e).
Definition entry_hours (e : LeaveDate) : Q := or0Q (le_hours e).

Definition is_type (ty : option Z) (code : Z) : bool :=
  bool_decide (ty = Some code).

Lemma leave_date_step_cases (ty : option Z) (s e : date) (acc : Q * Q * Q)
    (d : LeaveDate) :
  leave_date_step ty s e acc d
  = if in_period s e d then
      if is_type ty 1 then
        ((acc.1.1 + entry_days d)%Q, (acc.1.2 + entry_hours d)%Q, acc.2)
      else if is_type ty 3 then
        (acc.1.1, acc.1.2, (acc.2 + entry_days d)%Q)
      else acc
    else acc.
Proof.
  destruct acc as [[hd hh] sd]. unfold leave_date_step, in_period.
  destruct (le_date d) as [dd|]; [| done].
  destruct (date_leb s dd && date_leb dd e); [| done].
  destruct ty as [[|[[?|?|]|?|]|?]|]; reflexivity.
Qed.

Lemma leave_dates_fold (ty : option Z) (s e : date) (dates : list LeaveDate) :
  forall acc : Q * Q * Q,
    let r := fold_left (leave_date_step ty s e) dates acc in
    (r.1.1 == acc.1.1 + (if is_type ty 1
                         then dates_total s e entry_days dates else 0))%Q
    /\ (r.1.2 == acc.1.2 + (if is_type ty 1
                            then dates_total s e entry_hours dates else 0))%Q
    /\ (r.2 == acc.2 + (if is_type ty 3
                        then dates_total s e entry_days dates else 0))%Q.
Proof.
  induction dates as [|d dates IH]; intros acc; simpl.
  - repeat split; destruct (is_type _ _); lra.
  - destruct (IH (leave_date_step ty s e acc d)) as (H1 & H2 & H3).
    rewrite H1, H2, H3. rewrite leave_date_step_cases.
    assert (is_type ty 1 = true -> is_type ty 3 = false) as Hexcl.
    { unfold is_type. intros H%bool_decide_eq_true. subst ty.
      by apply bool_decide_eq_false_2. }
    destruct (in_period s e d), (is_type ty 1) eqn:E1;
      try rewrite (Hexcl eq_refl);
      try destruct (is_type ty 3);
      cbn [fst snd]; repeat split; lra.
Qed.

Lemma leave_records_fold (s e : date) (records : list LeaveRecord) :
  forall acc : Q * Q * Q,
    let r := fold_left (leave_record_step s e) records acc in
    (r.1.1 == acc.1.1 + leave_total s e 1 entry_days records)%Q
    /\ (r.1.2 == acc.1.2 + leave_total s e 1 entry_hours records)%Q
    /\ (r.2 == acc.2 + leave_total s e 3 entry_days records)%Q.
Proof.
  induction records as [|rec records IH]; intros acc; simpl.
  - repeat split; lra.
  - destruct (IH (leave_record_step s e acc rec)) as (H1 & H2 & H3).
    rewrite H1, H2, H3. unfold leave_record_step.
    destruct (is_str (lr_status rec) "approved"); cbn [negb andb];
      [| repeat split; lra].
    destruct (leave_dates_fold (lr_type rec) s e (lr_dates rec) acc)
      as (D1 & D2 & D3).
    rewrite D1, D2, D3. unfold is_type. repeat split; lra.
Qed.

Lemma calculate_leave_hours_totals (leave_json : option (list LeaveRecord))
    (s e : date) :
  let records := default [] leave_json in
  let r := calculate_leave_hours leave_json s e in
  (r.1.1 == round2 (leave_total s e 1 entry_days records))%Q
  /\ (r.1.2 == round2 (leave_total s e 1 entry_hours records))%Q
  /\ (r.2 == round2 (leave_total s e 3 entry_days records))%Q.
Proof.
  intros records r. subst records r. unfold calculate_leave_hours.
  destruct leave_json as [[|rec records]|]; simpl default;
    [repeat split; reflexivity | | repeat split; reflexivity].
  destruct (leave_records_fold s e (rec :: records) (0%Q, 0%Q, 0%Q))
    as (H1 & H2 & H3).
  destruct (fold_left _ _ _) as [[hd hh] sd]. cbn [fst snd] in *.
  repeat split; apply round2_comp; lra.
Qed.

(** X12. The leave totals are rounded sums over the date entries that
    parse, lie within the period (both ends included) and belong to an
    approved record: holiday days and holiday hours over the records of
    type 1, sickness days over the records of type 3. Sickness hours and
    records of any other type are not counted anywhere. *)
Theorem leave_totals_are_period_sums
    (leave_json : option (list LeaveRecord)) (start_date end_date : date) :
  let records := default [] leave_json in
  let r := calculate_leave_hours leave_json start_date end_date in
  (r.1.1 == round2 (leave_total start_date end_date 1 entry_days records))%Q
  /\ (r.1.2
      == round2 (leave_total start_date end_date 1 entry_hours records))%Q
  /\ (r.2 == round2 (leave_total start_date end_date 3 entry_days records))%Q.
Proof. apply calculate_leave_hours_totals. Qed.

Lemma leave_total_app (s e : date) (ty : Z) (f : LeaveDate -> Q)
    (l1 l2 : list LeaveRecord) :
  (leave_total s e ty f (l1 ++ l2)
   == leave_total s e ty f l1 + leave_total s e ty f l2)%Q.
Proof.
  induction l1 as [|r l1 IH]; simpl; [lra |]. rewrite IH. lra.
Qed.

(** X13. A leave record that is not approved, or whose type is neither
    holiday (1) nor sickness (3), changes none of the three totals,
    wherever it stands in the list. *)
Theorem leave_ignores_unapproved (before after : list LeaveRecord)
    (r : LeaveRecord) (start_date end_date : date) :
  is_str (lr_status r) "approved" = false
  \/ (lr_type r <> Some 1 /\ lr_type r <> Some 3) ->
  let with_r :=
    calculate_leave_hours (Some (before ++ r :: after)) start_date end_date in
  let without :=
    calculate_leave_hours (Some (before ++ after)) start_date end_date in
  (with_r.1.1 == without.1.1)%Q /\ (with_r.1.2 == without.1.2)%Q
  /\ (with_r.2 == without.2)%Q.
Proof.
  intros Hr with_r without. subst with_r without.
  destruct (calculate_leave_hours_totals (Some (before ++ r :: after))
              start_date end_date) as (A1 & A2 & A3).
  destruct (calculate_leave_hours_totals (Some (before ++ after))
              start_date end_date) as (B1 & B2 & B3).
  simpl default in *.
  rewrite A1, A2, A3, B1, B2, B3.
  assert (forall ty f, ty = 1 \/ ty = 3 ->
            (leave_total start_date end_date ty f (before ++ r :: after)
             == leave_total start_date end_date ty f (before ++ after))%Q)
    as Hsame.
  { intros ty f Hty. rewrite !leave_total_app. simpl.
    assert (is_str (lr_status r) "approved"
            && bool_decide (lr_type r = Some ty) = false) as ->; [| lra].
    destruct Hr as [-> | [H1 H3]]; [done |].
    apply andb_false_iff. right. apply bool_decide_eq_false_2.
    destruct Hty as [-> | ->]; done. }
  repeat split; apply round2_comp, Hsame; auto.
Qed.

Lemma leave_ignores_unapproved_witness :
  let holiday :=
    mkLeaveRecord (Some "approved"%string) (Some 1)
      [mkLeaveDate (Some (mkDate 2025 1 20)) (Some 1%Q) (Some (75 # 10)%Q)] in
  let requested :=
    mkLeaveRecord (Some "requested"%string) (Some 1)
      [mkLeaveDate (Some (mkDate 2025 1 21)) (Some 1%Q) (Some (75 # 10)%Q)] in
  ((calculate_leave_hours (Some ([holiday] ++ requested :: []))
      (mkDate 2025 1 11) (mkDate 2025 2 10)).1.2
   == (calculate_leave_hours (Some ([holiday] ++ []))
         (mkDate 2025 1 11) (mkDate 2025 2 10)).1.2)%Q.
Proof.
  intros holiday requested.
  apply (leave_ignores_unapproved [holiday] [] requested
           (mkDate 2025 1 11) (mkDate 2025 2 10)).
  left. reflexivity.
Defined.

(** * Further properties of the hour classifier *)

(** Seconds accumulated in all custom-role buckets. *)
Definition custom_seconds (hours : gmap Z RoleAcc) : Z :=
  map_fold (fun _ a acc => ra_seconds a + acc) 0 hours.

Lemma custom_seconds_insert (hours : gmap Z RoleAcc) (r : Z) (a : RoleAcc) :
  hours !! r = None ->
  custom_seconds (<[r := a]> hours) = ra_seconds a + custom_seconds hours.
Proof.
  intros H. unfold custom_seconds.
  rewrite map_fold_insert_L; [done | intros; lia | done].
Qed.

Lemma custom_seconds_alter (hours : gmap Z RoleAcc) (r : Z) (a : RoleAcc)
    (f : RoleAcc -> RoleAcc) :
  hours !! r = Some a ->
  custom_seconds (alter f r hours)
  = custom_seconds hours - ra_seconds a + ra_seconds (f a).
Proof.
  intros H.
  assert (alter f r hours = <[r := f a]> (delete r hours)) as ->.
  { apply map_eq. intros k. rewrite lookup_alter, lookup_insert.
    case_decide; [subst; by rewrite H |]. by rewrite lookup_delete_ne. }
  rewrite custom_seconds_insert by apply lookup_delete_eq.
  unfold custom_seconds at 2.
  rewrite (map_fold_delete_L _ _ r a hours); [| intros; lia | done].
  fold (custom_seconds (delete r hours)). lia.
Qed.

Section ClassifierFurther.

Context (fetch_role_name : Z -> string).

Local Abbreviation step := (classify_step fetch_role_name).

(** What the loop keeps true of its state. *)
Definition classify_inv (rr : gmap Z Q) (st : ClassifyState) : Prop :=
  total_seconds st = base_rate_seconds st + custom_seconds (role_hours st)
  /\ (forall r a, role_hours st !! r = Some a ->
        r <> 0 /\ rr !! r = Some (ra_rate a)
        /\ ra_name a = fetch_role_name r
        /\ all_custom_roles st !! r = Some (fetch_role_name r)).

Lemma custom_rate_of_Some (rr : gmap Z Q) (role_id : option Z) (r : Z)
    (rate : Q) :
  custom_rate_of rr role_id = Some (r, rate) ->
  role_id = Some r /\ r <> 0 /\ rr !! r = Some rate.
Proof.
  unfold custom_rate_of. destruct role_id as [r'|]; [| done].
  destruct (Z.eqb_spec r' 0); [done |]. cbn [negb].
  destruct (rr !! r') as [q|] eqn:E; [| done]. cbn. by intros [= <- <-].
Qed.

Lemma classify_step_inv (rr : gmap Z Q) (st : ClassifyState) (s : Shift) :
  classify_inv rr st -> classify_inv rr (step rr st s).
Proof.
  intros [Htot Hb]. unfold classify_step.
  destruct (start_time s) as [st_unix|], (end_time s) as [en_unix|];
    try (split; [exact Htot | exact Hb]).
  destruct (String.eqb _ ON_CALL_ROLE_NAME); [split; [exact Htot | exact Hb] |].
  destruct (custom_rate_of rr (role s)) as [[r0 rate0]|] eqn:Hc.
  - apply custom_rate_of_Some in Hc as (Hrole & Hr0 & Hrate).
    destruct (role_hours st !! r0) as [a0|] eqn:Hrh;
      unfold classify_inv;
      cbn [total_seconds base_rate_seconds role_hours all_custom_roles].
    + split.
      * rewrite (custom_seconds_alter _ _ a0) by done. cbn. lia.
      * intros r a. rewrite lookup_alter. case_decide as Hr.
        -- subst r. rewrite Hrh. cbn. intros [= <-]. cbn. by apply Hb.
        -- apply Hb.
    + split.
      * rewrite (custom_seconds_alter _ _ (mkRoleAcc 0 rate0
                   (get_role_name fetch_role_name (role s))))
          by apply lookup_insert_eq.
        rewrite custom_seconds_insert by done. cbn. lia.
      * intros r a. rewrite lookup_alter. case_decide as Hr.
        -- subst r. rewrite !lookup_insert_eq. cbn. intros [= <-]. cbn.
           rewrite Hrole. by cbn.
        -- rewrite !lookup_insert_ne by done. apply Hb.
  - unfold classify_inv;
      cbn [total_seconds base_rate_seconds role_hours all_custom_roles].
    split; [lia | exact Hb].
Qed.

Lemma classify_fold_inv (rr : gmap Z Q) (shifts : list Shift) :
  forall st, classify_inv rr st -> classify_inv rr (fold_left (step rr) shifts st).
Proof.
  induction shifts as [|s shifts IH]; intros st H; [done |].
  simpl. by apply IH, classify_step_inv.
Qed.

(** X14. Whatever the shifts, the loop of the classifier ends with the
    total seconds equal to the base seconds plus the seconds of all
    custom-role buckets: every counted second is in exactly one of them. *)
Theorem classifier_seconds_conserved (rr : gmap Z Q) (roles : gmap Z string)
    (names : gmap (option Z) string) (shifts : list Shift) :
  let st := fold_left (step rr) shifts (mkClassifyState 0 0 ∅ [] roles names) in
  total_seconds st = base_rate_seconds st + custom_seconds (role_hours st).
Proof.
  intros st. subst st.
  apply (classify_fold_inv rr shifts (mkClassifyState 0 0 ∅ [] roles names)).
  split; [done |]. intros r a. cbn. by rewrite lookup_empty.
Qed.

Lemma classify_step_roles_grow (rr : gmap Z Q) (st : ClassifyState)
    (s : Shift) (k : Z) :
  is_Some (all_custom_roles st !! k) ->
  is_Some (all_custom_roles (step rr st s) !! k).
Proof.
  intros H. unfold classify_step.
  destruct (start_time s), (end_time s); try done.
  destruct (String.eqb _ _); [done |].
  destruct (custom_rate_of rr (role s)) as [[r0 rate0]|]; [| done].
  destruct (role_hours st !! r0); cbn [all_custom_roles]; [done |].
  rewrite lookup_insert. case_decide; [eauto | done].
Qed.

Lemma classify_fold_roles_grow (rr : gmap Z Q) (shifts : list Shift) (k : Z) :
  forall st,
    is_Some (all_custom_roles st !! k) ->
    is_Some (all_custom_roles (fold_left (step rr) shifts st) !! k).
Proof.
  induction shifts as [|s shifts IH]; intros st H; [done |].
  simpl. by apply IH, classify_step_roles_grow.
Qed.

Lemma classify_roles_grow (shifts_json : option (list Shift))
    (pay_details : PayDetails) (roles : gmap Z string)
    (names : gmap (option Z) string) (k : Z) :
  is_Some (roles !! k) ->
  is_Some (ch_all_custom_roles
             (calculate_shift_hours_by_role fetch_role_name shifts_json
                pay_details roles names) !! k).
Proof.
  intros H. unfold calculate_shift_hours_by_role.
  destruct shifts_json as [[|s shifts]|]; [done | | done].
  cbn [ch_all_custom_roles]. by apply classify_fold_roles_grow.
Qed.

(** X15. Every custom-role bucket the classifier returns belongs to a
    non-zero role id for which the employee has a rate override; it carries
    that rate and the fetched role name, and the role is registered under
    that name in the shared dictionary of custom roles, which loses none of
    the roles it had. *)
Theorem custom_buckets_carry_override (shifts_json : option (list Shift))
    (pay_details : PayDetails) (roles : gmap Z string)
    (names : gmap (option Z) string) :
  let res := calculate_shift_hours_by_role fetch_role_name shifts_json
               pay_details roles names in
  (forall r rh, ch_custom_role_hours res !! r = Some rh ->
     r <> 0
     /\ pd_role_rates pay_details !! r = Some (rh_rate rh)
     /\ rh_name rh = fetch_role_name r
     /\ ch_all_custom_roles res !! r = Some (fetch_role_name r))
  /\ (forall k, is_Some (roles !! k) -> is_Some (ch_all_custom_roles res !! k)).
Proof.
  intros res. split; [| intros k; apply classify_roles_grow].
  subst res. unfold calculate_shift_hours_by_role.
  destruct shifts_json as [[|s shifts]|];
    try (intros r rh; cbn; by rewrite lookup_empty).
  cbn [ch_custom_role_hours ch_all_custom_roles].
  destruct (classify_fold_inv (pd_role_rates pay_details) (s :: shifts)
              (mkClassifyState 0 0 ∅ [] roles names)) as [_ Hb].
  { split; [done |]. intros r a. cbn. by rewrite lookup_empty. }
  intros r rh. rewrite lookup_fmap.
  destruct (role_hours _ !! r) as [a|] eqn:Ha; [| done].
  cbn. intros [= <-]. cbn. by apply Hb.
Qed.

End ClassifierFurther.

Lemma custom_buckets_carry_override_witness :
  let pay := mkPayDetails (Some "hourly"%string) 14 0 {[4 := 20%Q]} 40 in
  let res := calculate_shift_hours_by_role sample_role_name
               (Some [sample_base_shift 1]) pay ∅ ∅ in
  exists rh, ch_custom_role_hours res !! 4 = Some rh
             /\ pd_role_rates pay !! 4 = Some (rh_rate rh)
             /\ ch_all_custom_roles res !! 4 = Some "Care"%string.
Proof.
  intros pay res.
  destruct (custom_buckets_carry_override sample_role_name
              (Some [sample_base_shift 1]) pay ∅ ∅) as [Hb _].
  eexists. split; [vm_compute; reflexivity |].
  match goal with
  | |- _ !! 4 = Some (rh_rate ?rh) /\ _ =>
      destruct (Hb 4 rh) as (_ & Hrate & _ & Hname)
  end; [vm_compute; reflexivity |].
  split; [exact Hrate | exact Hname].
Defined.

Section RoleNameCache.

Context (fetch_role_name : Z -> string).

Local Abbreviation step := (classify_step fetch_role_name).
Local Abbreviation resolve' := (resolve fetch_role_name).

Lemma classify_step_names (rr : gmap Z Q) (st : ClassifyState) (s : Shift) :
  role_id_to_name (step rr st s)
  = match role_id_to_name st !! role s with
    | None => <[role s := get_role_name fetch_role_name (role s)]>
                (role_id_to_name st)
    | Some _ => role_id_to_name st
    end.
Proof.
  unfold classify_step.
  destruct (start_time s), (end_time s); try done.
  destruct (String.eqb _ _); [done |].
  destruct (custom_rate_of rr (role s)) as [[r0 rate0]|]; [| done].
  by destruct (role_hours st !! r0).
Qed.

Lemma classify_fold_names (rr : gmap Z Q) (shifts : list Shift) :
  forall st,
    let names := role_id_to_name st in
    let names' := role_id_to_name (fold_left (step rr) shifts st) in
    (forall k n, names !! k = Some n -> names' !! k = Some n)
    /\ (forall k n, names' !! k = Some n -> n = resolve' names k)
    /\ (forall s, s ∈ shifts -> is_Some (names' !! role s)).
Proof.
  induction shifts as [|s shifts IH]; intros st names names'; subst names names'.
  - simpl. split; [done |]. split.
    + intros k n H. unfold resolve. by rewrite H.
    + intros s Hs. by inversion Hs.
  - simpl. destruct (IH (step rr st s)) as (Hkeep & Hres & Hin).
    rewrite classify_step_names in Hkeep, Hres.
    pose proof (resolve_cached fetch_role_name (role_id_to_name st) (role s))
      as Hrc.
    split; [| split].
    + intros k n H. apply Hkeep.
      destruct (role_id_to_name st !! role s) eqn:E; [done |].
      rewrite lookup_insert. case_decide; [subst; congruence | done].
    + intros k n H. rewrite <- Hrc. by apply Hres.
    + intros x Hx. apply elem_of_cons in Hx as [-> | Hx]; [| by apply Hin].
      destruct (role_id_to_name st !! role s) as [n|] eqn:E.
      * exists n. by apply Hkeep.
      * eexists. apply Hkeep. apply lookup_insert_eq.
Qed.

(** X16. The cache of role names stays coherent across a classification:
    names cached before are kept, every name in the cache afterwards is the
    name the role resolved to when the classification started (the cached
    one, or else the fetched one), and the role of every shift processed is
    cached afterwards, shifts without timestamps included. *)
Theorem role_name_cache_coherent (pay_details : PayDetails)
    (roles : gmap Z string) (names : gmap (option Z) string)
    (shifts : list Shift) :
  let names' :=
    ch_role_id_to_name
      (calculate_shift_hours_by_role fetch_role_name (Some shifts)
         pay_details roles names) in
  (forall k n, names !! k = Some n -> names' !! k = Some n)
  /\ (forall k n, names' !! k = Some n -> n = resolve' names k)
  /\ (forall s, s ∈ shifts -> names' !! role s = Some (resolve' names (role s))).
Proof.
  intros names'. subst names'. unfold calculate_shift_hours_by_role.
  destruct shifts as [|s shifts].
  - cbn. split; [done |]. split.
    + intros k n H. unfold resolve. by rewrite H.
    + intros s Hs. by inversion Hs.
  - cbn [ch_role_id_to_name].
    destruct (classify_fold_names (pd_role_rates pay_details) (s :: shifts)
                (mkClassifyState 0 0 ∅ [] roles names))
      as (Hkeep & Hres & Hin).
    cbn [role_id_to_name] in Hkeep, Hres.
    split; [exact Hkeep |]. split; [exact Hres |].
    intros x Hx. destruct (Hin x Hx) as [n Hn]. rewrite Hn.
    f_equal. by apply Hres.
Qed.

End RoleNameCache.

Lemma role_name_cache_coherent_witness :
  let names' :=
    ch_role_id_to_name
      (calculate_shift_hours_by_role sample_role_name
         (Some [sample_on_call_shift 1])
         (mkPayDetails (Some "hourly"%string) 14 0 ∅ 40) ∅
         {[Some 4 := "Kitchen"%string]}) in
  names' !! Some 4 = Some "Kitchen"%string
  /\ names' !! Some 9 = Some "On-Call"%string.
Proof.
  intros names'.
  destruct (role_name_cache_coherent sample_role_name
              (mkPayDetails (Some "hourly"%string) 14 0 ∅ 40) ∅
              {[Some 4 := "Kitchen"%string]} [sample_on_call_shift 1])
    as (Hkeep & _ & Hin).
  split.
  - apply Hkeep. reflexivity.
  - apply (Hin (sample_on_call_shift 1)). apply list_elem_of_here.
Defined.

(** * Further properties of the main loop and of the pay calculator *)

(** Sum of a list of rationals. *)
Definition Qsum (l : list Q) : Q := foldr Qplus 0%Q l.

Lemma Qsum_perm (l l' : list Q) : l ≡ₚ l' -> (Qsum l == Qsum l')%Q.
Proof.
  induction 1 as [|a l l' _ IH|a b l|l1 l2 l3 _ IH1 _ IH2]; simpl.
  - reflexivity.
  - rewrite IH. reflexivity.
  - lra.
  - by rewrite IH1.
Qed.

Lemma Qsum_ext {A : Type} (f g : A -> Q) (l : list A) :
  (forall x, x ∈ l -> (f x == g x)%Q) -> (Qsum (f <$> l) == Qsum (g <$> l))%Q.
Proof.
  induction l as [|a l IH]; intros H; simpl; [reflexivity |].
  rewrite (H a) by apply list_elem_of_here.
  rewrite IH; [reflexivity |]. intros x Hx. apply H. by apply list_elem_of_further.
Qed.

Lemma fold_left_Qsum {A : Type} (f : A -> Q) (l : list A) :
  forall init : Q,
    (fold_left (fun acc x => acc + f x) l init == init + Qsum (f <$> l))%Q.
Proof.
  induction l as [|a l IH]; intros init; [simpl; lra |].
  cbn [fold_left]. rewrite IH.
  change (Qsum (f <$> a :: l)) with (f a + Qsum (f <$> l))%Q. lra.
Qed.

(** Pay of the custom-role hours of an entry. *)
Definition role_pay (rd : RoleHours) : Q := (rh_hours rd * rh_rate rd)%Q.

(** The product of the two cells written for a role. *)
Definition cell_pay (hours : gmap Z RoleHours) (role_id : Z) : Q :=
  match hours !! role_id with
  | Some rd => role_pay rd
  | None => (0 * 0)%Q
  end.

(** Summing the role cells over a dictionary of roles that contains every
    role of the employee gives the pay of the employee's custom roles. *)
Lemma cells_cover_roles (roles : gmap Z string) :
  forall hours : gmap Z RoleHours,
    (forall k, is_Some (hours !! k) -> is_Some (roles !! k)) ->
    (Qsum ((fun kv => cell_pay hours kv.1) <$> map_to_list roles)
     == Qsum ((fun kv => role_pay kv.2) <$> map_to_list hours))%Q.
Proof.
  induction roles as [|k v roles Hk IH] using map_ind; intros hours Hsub.
  - assert (hours = ∅) as ->.
    { apply map_empty. intros i. apply eq_None_not_Some. intros H.
      apply Hsub in H. rewrite lookup_empty in H. by destruct H. }
    rewrite !map_to_list_empty. reflexivity.
  - rewrite (Qsum_perm _ _ (fmap_Permutation _ _ _ (map_to_list_insert _ _ v Hk))).
    cbn [fmap list_fmap Qsum foldr fst].
    fold (Qsum ((fun kv => cell_pay hours kv.1) <$> map_to_list roles)).
    rewrite (Qsum_ext _ (fun kv => cell_pay (delete k hours) kv.1)).
    2:{ intros [j w] Hj. apply elem_of_map_to_list in Hj. cbn.
        unfold cell_pay. rewrite lookup_delete_ne by congruence. reflexivity. }
    rewrite (IH (delete k hours)).
    2:{ intros j [rd Hj]. apply lookup_delete_Some in Hj as [Hne Hj].
        destruct (Hsub j) as [w Hw]; [eauto |].
        rewrite lookup_insert_ne in Hw by done. eauto. }
    unfold cell_pay at 1. destruct (hours !! k) as [rd|] eqn:Hrd.
    + rewrite <- (Qsum_perm _ _
                    (fmap_Permutation (fun kv => role_pay kv.2) _ _
                       (map_to_list_delete _ _ _ Hrd))).
      cbn. reflexivity.
    + rewrite (delete_id _ _ Hrd). lra.
Qed.

Section PayrollFurther.

Context (fetch_role_name : Z -> string) (timestamp_converts : Z -> bool).

Local Abbreviation classify := (calculate_shift_hours_by_role fetch_role_name).
Local Abbreviation on_call := (on_call_of timestamp_converts).
Local Abbreviation process := (process_user fetch_role_name timestamp_converts).
Local Abbreviation run := (run_step fetch_role_name timestamp_converts).
Local Abbreviation build := (build_payroll_data fetch_role_name timestamp_converts).

(** The dictionary of custom roles [process_user] leaves behind. *)
Lemma process_user_roles (period_days : Z) (start_date end_date : date)
    (roles : gmap Z string) (names : gmap (option Z) string) (ud : UserData) :
  let ch := classify (ud_shifts ud) (get_user_pay_details (ud_user ud))
              roles names in
  (process period_days start_date end_date roles names ud).1.2
  = ch_all_custom_roles ch ∪ (rh_name <$> ch_custom_role_hours ch).
Proof.
  intros ch. subst ch. unfold process_user.
  destruct (on_call_of _ _ _) as [och cnt].
  destruct (calculate_leave_hours _ _ _) as [[hd hh] sd].
  reflexivity.
Qed.

Lemma run_step_roles (period_days : Z) (start_date end_date : date)
    (rs : RunState) (ud : UserData) :
  rs_all_custom_roles (run period_days start_date end_date rs ud)
  = (process period_days start_date end_date (rs_all_custom_roles rs)
       (rs_role_id_to_name rs) ud).1.2.
Proof.
  unfold run_step.
  by destruct (process_user _ _ _ _ _ _ _ _) as [[[d|] roles] names].
Qed.

(** Whatever holds of every record [process_user] can return holds of
    every record of the payroll output. *)
Lemma payroll_data_Forall (P : PayrollRecord -> Prop) (period_days : Z)
    (start_date end_date : date) :
  (forall roles names ud d,
     (process period_days start_date end_date roles names ud).1.1 = Some d ->
     P d) ->
  forall (users : list UserData) (rs : RunState),
    Forall P (payroll_data rs) ->
    Forall P (payroll_data
                (fold_left (run period_days start_date end_date) users rs)).
Proof.
  intros HP users. induction users as [|ud users IH]; intros rs Hrs; [done |].
  simpl. apply IH. rewrite run_step_payroll_data. apply Forall_app.
  split; [done |].
  destruct (process_user _ _ _ _ _ _ _ _).1.1 as [d|] eqn:Hd; simpl;
    [| constructor].
  constructor; [| constructor]. by eapply HP.
Qed.

(** What every appended record satisfies beyond [record_ok]. *)
Definition record_sound (d : PayrollRecord) : Prop :=
  (total_hours_display d == total_hours d + on_call_hours d)%Q
  /\ (0 <= on_call_hours d)%Q
  /\ 0 <= on_call_shift_count d
  /\ (0 <= fixed_hours d)%Q
  /\ (0 < total_hours d \/ 0 < holiday_hours d \/ 0 < holiday_days d
      \/ 0 < sickness_days d \/ 0 < on_call_hours d)%Q.

Lemma process_user_sound (period_days : Z) (start_date end_date : date)
    (roles : gmap Z string) (names : gmap (option Z) string) (ud : UserData)
    (d : PayrollRecord) :
  (process period_days start_date end_date roles names ud).1.1 = Some d ->
  record_sound d.
Proof.
  rewrite process_user_record.
  destruct (included _ _ _ _ _) eqn:Hi; [| done].
  intros [= <-]. unfold record_sound. cbn.
  split; [reflexivity |]. split; [apply on_call_of_nonneg |].
  split; [rewrite on_call_of_count; lia |].
  split; [apply calculate_fixed_hours_ge_0 |].
  by apply included_iff.
Qed.

(** X17. Every record of the payroll output is sound: its displayed total
    is its shift hours plus its on-call hours, its on-call hours, on-call
    shift count and fixed hours are not negative, and at least one of shift
    hours, holiday hours, holiday days, sickness days and on-call hours is
    positive. *)
Theorem payroll_records_sound (period_days : Z) (start_date end_date : date)
    (users : list UserData) (d : PayrollRecord) :
  d ∈ payroll_data (build period_days start_date end_date users) ->
  record_sound d.
Proof.
  intros Hin.
  pose proof (payroll_data_Forall record_sound period_days start_date end_date
                (process_user_sound period_days start_date end_date)
                users (mkRunState [] ∅ ∅) (Forall_nil_2 _)) as Hall.
  rewrite Forall_forall in Hall. by apply Hall.
Qed.

(** X18. For every record of the payroll output the hours paid at the
    base rate and the overtime hours add up to the shift hours (the total
    without on-call), and the overtime hours are never negative. *)
Theorem base_plus_overtime_is_total (period_days : Z)
    (start_date end_date : date) (users : list UserData) (d : PayrollRecord) :
  d ∈ payroll_data (build period_days start_date end_date users) ->
  (hours_worked d + overtime_hrs d == total_hours d)%Q
  /\ (0 <= overtime_hrs d)%Q.
Proof.
  intros Hin.
  pose proof (payroll_data_Forall record_sound period_days start_date end_date
                (process_user_sound period_days start_date end_date)
                users (mkRunState [] ∅ ∅) (Forall_nil_2 _)) as Hall.
  rewrite Forall_forall in Hall. destruct (Hall d Hin) as (Hd & _).
  unfold hours_worked, overtime_hrs.
  destruct (Q.min_spec (total_hours d) (fixed_hours d - on_call_hours d))
    as [[H1 E1] | [H1 E1]];
    destruct (Q.max_spec 0 (total_hours_display d - fixed_hours d))
      as [[H2 E2] | [H2 E2]];
    rewrite E1, E2; split; lra.
Qed.

End PayrollFurther.

Lemma payroll_records_sound_witness :
  exists d,
    d ∈ payroll_data
          (build_payroll_data sample_role_name sample_converts 28
             (mkDate 2025 1 11) (mkDate 2025 2 7)
             [worked_example_user; unattended_user])
    /\ record_sound d.
Proof.
  eexists. split; [vm_compute; apply list_elem_of_here |].
  match goal with
  | |- record_sound ?d =>
      apply (payroll_records_sound sample_role_name sample_converts 28
               (mkDate 2025 1 11) (mkDate 2025 2 7)
               [worked_example_user; unattended_user] d)
  end.
  vm_compute. apply list_elem_of_here.
Defined.

Lemma base_plus_overtime_is_total_witness :
  exists d,
    d ∈ payroll_data
          (build_payroll_data sample_role_name sample_converts 28
             (mkDate 2025 1 11) (mkDate 2025 2 7) [worked_example_user])
    /\ (hours_worked d + overtime_hrs d == 180)%Q.
Proof.
  eexists. split; [vm_compute; apply list_elem_of_here |].
  match goal with
  | |- (hours_worked ?d + _ == _)%Q =>
      destruct (base_plus_overtime_is_total sample_role_name sample_converts 28
                  (mkDate 2025 1 11) (mkDate 2025 2 7) [worked_example_user] d)
        as [Hsum _]
  end.
  - vm_compute. apply list_elem_of_here.
  - eapply Qeq_trans; [exact Hsum |]. reflexivity.
Defined.

Section PayrollOutput.

Context (fetch_role_name : Z -> string) (timestamp_converts : Z -> bool).

Local Abbreviation classify := (calculate_shift_hours_by_role fetch_role_name).
Local Abbreviation process := (process_user fetch_role_name timestamp_converts).
Local Abbreviation run := (run_step fetch_role_name timestamp_converts).
Local Abbreviation build := (build_payroll_data fetch_role_name timestamp_converts).

Definition user_name (ud : UserData) : string := u_name (ud_user ud).

Lemma run_fold_names (period_days : Z) (start_date end_date : date)
    (users : list UserData) :
  forall rs : RunState,
    exists l,
      payroll_data (fold_left (run period_days start_date end_date) users rs)
      = payroll_data rs ++ l
      /\ (employee_name <$> l) `sublist_of` (user_name <$> users).
Proof.
  induction users as [|ud users IH]; intros rs; simpl.
  - exists []. by rewrite app_nil_r.
  - destruct (IH (run period_days start_date end_date rs ud)) as (l & -> & Hl).
    rewrite run_step_payroll_data, process_user_record.
    destruct (included _ _ _ _ _); simpl.
    + eexists (_ :: l). rewrite <- app_assoc. split; [reflexivity |].
      cbn. by apply sublist_skip.
    + exists l. rewrite app_nil_r. split; [done |]. by apply sublist_cons.
Qed.

(** X19. The payroll output lists employees in the order of the user list:
    the names of its records are a sublist of the names of the users that
    are not ignored, so an ignored user never gets a record and no user
    gets more than one. *)
Theorem payroll_names_follow_users (period_days : Z)
    (start_date end_date : date) (ignored_user_ids : gset Z)
    (all_users : list UserData) :
  let out :=
    payroll_data (build period_days start_date end_date
                    (users_to_process ignored_user_ids all_users)) in
  (employee_name <$> out)
    `sublist_of` (user_name <$> users_to_process ignored_user_ids all_users)
  /\ (forall d, d ∈ out ->
        exists ud, ud ∈ all_users
                   /\ (u_id (ud_user ud) ∉ ignored_user_ids)
                   /\ employee_name d = user_name ud)
  /\ (length out <= length all_users)%nat.
Proof.
  intros out. subst out. unfold build_payroll_data.
  destruct (run_fold_names period_days start_date end_date
              (users_to_process ignored_user_ids all_users)
              (mkRunState [] ∅ ∅)) as (l & -> & Hl).
  cbn [payroll_data app]. split; [exact Hl |]. split.
  - intros d Hd.
    assert (employee_name d
            ∈ user_name <$> users_to_process ignored_user_ids all_users) as Hn.
    { eapply elem_of_sublist; [| exact Hl]. by apply list_elem_of_fmap_2. }
    apply list_elem_of_fmap in Hn as (ud & -> & Hud).
    unfold users_to_process in Hud. apply list_elem_of_filter in Hud as [Hi Hud].
    by exists ud.
  - apply sublist_length in Hl. rewrite !length_fmap in Hl.
    etransitivity; [exact Hl |].
    apply sublist_length, sublist_filter.
Qed.

(** X20. When the shift request of a user fails, the classifier leaves the
    shared dictionaries as they were, any record for the user has zero
    shift hours, no custom roles, zero on-call hours and no on-call shifts,
    and if the leave request fails too the user gets no record. *)
Theorem failed_shift_fetch_degrades (period_days : Z)
    (start_date end_date : date) (roles : gmap Z string)
    (names : gmap (option Z) string) (ud : UserData) :
  ud_shifts ud = None ->
  let result := process period_days start_date end_date roles names ud in
  result.1.2 = roles /\ result.2 = names
  /\ (forall d, result.1.1 = Some d ->
        total_hours d = 0%Q /\ base_rate_hours d = 0%Q
        /\ custom_role_hours d = ∅
        /\ on_call_hours d = 0%Q /\ on_call_shift_count d = 0)
  /\ (ud_leave ud = None -> result.1.1 = None).
Proof.
  intros Hs result. subst result.
  rewrite process_user_roles, process_user_record. unfold process_user.
  rewrite Hs. cbn.
  destruct (calculate_leave_hours (ud_leave ud) start_date end_date)
    as [[hd hh] sd] eqn:Hl. cbn.
  split; [by rewrite fmap_empty, (right_id_L ∅ (∪)) |]. split; [done |]. split.
  - destruct (included 0 hh hd sd 0); [| done]. by intros d [= <-].
  - intros Hleave. rewrite Hleave in Hl. injection Hl as <- <- <-. done.
Qed.

Definition roles_cover (rs : RunState) : Prop :=
  forall d, d ∈ payroll_data rs ->
    forall k, is_Some (custom_role_hours d !! k) ->
              is_Some (rs_all_custom_roles rs !! k).

Lemma run_step_roles_cover (period_days : Z) (start_date end_date : date)
    (rs : RunState) (ud : UserData) :
  roles_cover rs -> roles_cover (run period_days start_date end_date rs ud).
Proof.
  intros Hrs d Hd k Hk.
  rewrite run_step_roles, process_user_roles.
  rewrite run_step_payroll_data, process_user_record in Hd.
  apply lookup_union_is_Some.
  apply elem_of_app in Hd as [Hd | Hd].
  - left. apply classify_roles_grow. by eapply Hrs.
  - right. destruct (included _ _ _ _ _); [| by inversion Hd].
    apply list_elem_of_singleton in Hd. subst d. cbn in Hk.
    rewrite lookup_fmap. destruct Hk as [rd ->]. by eexists.
Qed.

Lemma build_roles_cover (period_days : Z) (start_date end_date : date)
    (users : list UserData) :
  forall rs, roles_cover rs ->
    roles_cover (fold_left (run period_days start_date end_date) users rs).
Proof.
  induction users as [|ud users IH]; intros rs H; [done |].
  simpl. by apply IH, run_step_roles_cover.
Qed.

(** X21. At the end of a run the dictionary of custom roles contains every
    role in which some record of the output has hours, so the spreadsheet
    has a pair of columns for each such role. *)
Theorem every_custom_role_has_columns (period_days : Z)
    (start_date end_date : date) (users : list UserData) (d : PayrollRecord)
    (k : Z) (rd : RoleHours) :
  let final := build period_days start_date end_date users in
  d ∈ payroll_data final ->
  custom_role_hours d !! k = Some rd ->
  exists name, (k, name) ∈ sorted_roles (rs_all_custom_roles final).
Proof.
  intros final Hd Hk.
  destruct (build_roles_cover period_days start_date end_date users
              (mkRunState [] ∅ ∅)) with (d := d) (k := k) as [name Hname];
    [by intros ? H; inversion H | exact Hd | eauto |].
  exists name. unfold sorted_roles.
  rewrite merge_sort_Permutation. by apply elem_of_map_to_list.
Qed.

(** X22. For every record of the payroll output, the values of the
    spreadsheet formulas agree with the preview: the Hours cell with the
    base hours, the Overtime cell with the overtime hours and the total-pay
    cell, computed over the role columns of the whole run, with the total
    pay. *)
Theorem spreadsheet_agrees_with_preview (period_days : Z)
    (start_date end_date : date) (users : list UserData) (overtime_rate : Q)
    (d : PayrollRecord) :
  let final := build period_days start_date end_date users in
  d ∈ payroll_data final ->
  (excel_hours d == hours_worked d)%Q
  /\ excel_overtime d = overtime_hrs d
  /\ (excel_total_pay overtime_rate (rs_all_custom_roles final) d
      == total_pay overtime_rate d)%Q.
Proof.
  intros final Hd.
  assert (record_ok d) as [Hok _].
  { pose proof (build_payroll_data_ok fetch_role_name timestamp_converts
                  period_days start_date end_date users
                  (mkRunState [] ∅ ∅) (Forall_nil_2 _)) as Hall.
    rewrite Forall_forall in Hall. by apply Hall. }
  assert (excel_hours d == hours_worked d)%Q as Hh.
  { unfold excel_hours, hours_worked. apply Q.min_compat; lra. }
  split; [exact Hh |]. split; [reflexivity |].
  unfold excel_total_pay, total_pay.
  destruct (is_str (pay_type d) "annual"); [reflexivity |].
  rewrite (fold_left_Qsum
             (fun r : Z * string =>
                ((role_cells d r.1).1 * (role_cells d r.1).2)%Q)).
  assert (Qsum ((fun r : Z * string =>
                   ((role_cells d r.1).1 * (role_cells d r.1).2)%Q)
                <$> sorted_roles (rs_all_custom_roles final))
          == custom_role_pay d)%Q as ->.
  { unfold sorted_roles.
    rewrite (Qsum_perm _ _ (fmap_Permutation _ _ _ (merge_sort_Permutation _ _))).
    rewrite (Qsum_ext _ (fun kv => cell_pay (custom_role_hours d) kv.1)).
    2:{ intros [j w] _. cbn. unfold role_cells, cell_pay.
        destruct (custom_role_hours d !! j); reflexivity. }
    rewrite cells_cover_roles.
    2:{ intros j Hj.
        by apply (build_roles_cover period_days start_date end_date users
                    (mkRunState [] ∅ ∅) ltac:(by intros ? H; inversion H) d). }
    unfold custom_role_pay.
    rewrite (fold_left_Qsum
               (fun rd : Z * RoleHours => (rh_hours rd.2 * rh_rate rd.2)%Q)).
    unfold role_pay. lra. }
  fold (overtime_hrs d). unfold excel_overtime. fold (overtime_hrs d).
  rewrite Hh. lra.
Qed.

End PayrollOutput.

Lemma failed_shift_fetch_degrades_witness :
  let ud :=
    mkUserData
      (mkUser 5 "Ed Example" (Some "hourly"%string) (Some 12%Q) (Some 20%Q) ∅)
      None None None in
  (process_user sample_role_name sample_converts 31 (mkDate 2025 1 11)
     (mkDate 2025 2 10) ∅ ∅ ud).1.1 = None.
Proof.
  intros ud.
  destruct (failed_shift_fetch_degrades sample_role_name sample_converts 31
              (mkDate 2025 1 11) (mkDate 2025 2 10) ∅ ∅ ud eq_refl)
    as (_ & _ & _ & Hnone).
  apply Hnone. reflexivity.
Defined.

(** An employee with a rate override for role 4, in which the sample
    shifts are. *)
Definition custom_role_user : UserData :=
  mkUserData
    (mkUser 6 "Flo Example" (Some "hourly"%string) (Some 12%Q) (Some 40%Q)
       {[4 := 20%Q]})
    (Some [sample_base_shift 1; sample_base_shift 2]) None None.

Lemma every_custom_role_has_columns_witness :
  exists name,
    (4, name)
    ∈ sorted_roles
        (rs_all_custom_roles
           (build_payroll_data sample_role_name sample_converts 31
              (mkDate 2025 1 11) (mkDate 2025 2 10)
              [worked_example_user; custom_role_user])).
Proof.
  eapply (every_custom_role_has_columns sample_role_name sample_converts 31
            (mkDate 2025 1 11) (mkDate 2025 2 10)
            [worked_example_user; custom_role_user]).
  - vm_compute. apply list_elem_of_further, list_elem_of_here.
  - vm_compute. reflexivity.
Defined.

Lemma spreadsheet_agrees_with_preview_witness :
  exists d,
    d ∈ payroll_data
          (build_payroll_data sample_role_name sample_converts 31
             (mkDate 2025 1 11) (mkDate 2025 2 10)
             [custom_role_user; worked_example_user])
    /\ (excel_total_pay UK_MINIMUM_WAGE
          (rs_all_custom_roles
             (build_payroll_data sample_role_name sample_converts 31
                (mkDate 2025 1 11) (mkDate 2025 2 10)
                [custom_role_user; worked_example_user])) d
        == total_pay UK_MINIMUM_WAGE d)%Q.
Proof.
  eexists. split; [vm_compute; apply list_elem_of_here |].
  match goal with
  | |- (excel_total_pay _ _ ?d == _)%Q =>
      destruct (spreadsheet_agrees_with_preview sample_role_name
                  sample_converts 31 (mkDate 2025 1 11) (mkDate 2025 2 10)
                  [custom_role_user; worked_example_user] UK_MINIMUM_WAGE d)
        as (_ & _ & Hpay)
  end.
  - vm_compute. apply list_elem_of_here.
  - exact Hpay.
Defined.

Example custom_role_user_pay :
  exists d,
    payroll_data
      (build_payroll_data sample_role_name sample_converts 31
         (mkDate 2025 1 11) (mkDate 2025 2 10) [custom_role_user]) = [d]
    /\ (total_hours d == 18)%Q /\ (base_rate_hours d == 0)%Q
    /\ (custom_role_pay d == 360)%Q
    /\ (total_pay UK_MINIMUM_WAGE d == 576)%Q.
Proof.
  eexists. split; [vm_compute; reflexivity |]. repeat split.
Qed.

Section PayWithoutOvertime.

Context (fetch_role_name : Z -> string) (timestamp_converts : Z -> bool).

(** X23. For a record of the payroll output that is not salaried, has no
    on-call hours or shifts and stays within its fixed hours, the total pay
    is all its shift hours at rate 1, plus the custom-role pay, plus the
    holiday hours at rate 1: hours worked in a custom role are in the shift
    hours too, so they are paid at rate 1 and again at the custom rate. *)
Theorem pay_within_fixed_hours (period_days : Z) (start_date end_date : date)
    (users : list UserData) (overtime_rate : Q) (d : PayrollRecord) :
  d ∈ payroll_data
        (build_payroll_data fetch_role_name timestamp_converts period_days
           start_date end_date users) ->
  is_str (pay_type d) "annual" = false ->
  (on_call_hours d == 0)%Q -> on_call_shift_count d = 0 ->
  (total_hours_display d <= fixed_hours d)%Q ->
  (total_pay overtime_rate d
   == total_hours d * rate_1 d + custom_role_pay d
      + holiday_hours d * rate_1 d)%Q.
Proof.
  intros Hin Hp Hoc Hcount Hle.
  assert (record_ok d) as [Hok _].
  { pose proof (build_payroll_data_ok fetch_role_name timestamp_converts
                  period_days start_date end_date users
                  (mkRunState [] ∅ ∅) (Forall_nil_2 _)) as Hall.
    rewrite Forall_forall in Hall. by apply Hall. }
  unfold total_pay. rewrite Hp, Hcount.
  assert (hours_worked d == total_hours d)%Q as ->
    by (unfold hours_worked; apply Q.min_l; lra).
  assert (overtime_hrs d == 0)%Q as ->
    by (unfold overtime_hrs; apply Q.max_l; lra).
  rewrite Hoc. unfold ON_CALL_FLAT_RATE. change (inject_Z 0) with 0%Q. ring.
Qed.

End PayWithoutOvertime.

Lemma pay_within_fixed_hours_witness :
  exists d,
    d ∈ payroll_data
          (build_payroll_data sample_role_name sample_converts 31
             (mkDate 2025 1 11) (mkDate 2025 2 10) [custom_role_user])
    /\ (total_pay UK_MINIMUM_WAGE d
        == total_hours d * rate_1 d + custom_role_pay d
           + holiday_hours d * rate_1 d)%Q.
Proof.
  eexists. split; [vm_compute; apply list_elem_of_here |].
  match goal with
  | |- (total_pay _ ?d == _)%Q =>
      apply (pay_within_fixed_hours sample_role_name sample_converts 31
               (mkDate 2025 1 11) (mkDate 2025 2 10) [custom_role_user]
               UK_MINIMUM_WAGE d)
  end.
  - vm_compute. apply list_elem_of_here.
  - reflexivity.
  - reflexivity.
  - reflexivity.
  - unfold Qle. simpl. lia.
Defined.

(** * Properties of the staff ordering *)

Section StaffOrderingProperties.

Context (lower : string -> string).

Local Abbreviation key := (sort_key lower).
Local Abbreviation insert_key := (insert_by_key lower).
Local Abbreviation sort := (sort_by_key lower).

(** Records in non-decreasing order of their lower-cased name. *)
Definition key_le (a b : PayrollRecord) : Prop :=
  String.leb (key a) (key b) = true.

Lemma insert_by_key_perm (x : PayrollRecord) (l : list PayrollRecord) :
  insert_key x l ≡ₚ x :: l.
Proof.
  induction l as [|y l IH]; simpl; [done |].
  destruct (String.leb _ _); [done |].
  rewrite IH. apply Permutation_swap.
Qed.

Lemma sort_by_key_perm (l : list PayrollRecord) : sort l ≡ₚ l.
Proof.
  induction l as [|x l IH]; simpl; [done |].
  by rewrite insert_by_key_perm, IH.
Qed.

Lemma insert_by_key_sorted (x : PayrollRecord) (l : list PayrollRecord) :
  Sorted key_le l -> Sorted key_le (insert_key x l).
Proof.
  induction l as [|y l IH]; intros Hs; simpl.
  - by repeat constructor.
  - destruct (String.leb (key x) (key y)) eqn:E.
    + constructor; [done |]. by constructor.
    + apply Sorted_inv in Hs as [Hs Hhd].
      constructor; [by apply IH |].
      assert (key_le y x) as Hyx.
      { destruct (String.leb_total (key x) (key y)) as [H | H];
          [congruence | exact H]. }
      destruct l as [|z l]; simpl; [by constructor |].
      destruct (String.leb (key x) (key z)); constructor; [done |].
      by apply HdRel_inv in Hhd.
Qed.

Lemma sort_by_key_sorted (l : list PayrollRecord) : Sorted key_le (sort l).
Proof.
  induction l as [|x l IH]; simpl; [constructor |].
  by apply insert_by_key_sorted.
Qed.

Lemma filter_partition_perm {A : Type} (p : A -> bool) (l : list A) :
  List.filter p l ++ List.filter (fun x => negb (p x)) l ≡ₚ l.
Proof.
  induction l as [|x l IH]; simpl; [done |].
  destruct (p x); simpl.
  - by rewrite IH.
  - rewrite <- Permutation_middle. by rewrite IH.
Qed.

(** X24. Ordering the staff keeps exactly the records it is given, puts
    every salaried record before every other record, and within each of the
    two groups orders the records by lower-cased name. *)
Theorem order_staff_sorted (payroll : list PayrollRecord) :
  order_staff lower payroll ≡ₚ payroll
  /\ exists salaried hourly,
       order_staff lower payroll = salaried ++ hourly
       /\ Forall (fun p => is_salaried p = true) salaried
       /\ Forall (fun p => is_salaried p = false) hourly
       /\ Sorted key_le salaried /\ Sorted key_le hourly.
Proof.
  unfold order_staff. split.
  - rewrite !sort_by_key_perm. apply filter_partition_perm.
  - eexists _, _. split; [reflexivity |].
    split; [| split; [| split; apply sort_by_key_sorted]].
    + rewrite sort_by_key_perm. apply Forall_forall. intros p Hp.
      apply list_elem_of_In, filter_In in Hp. tauto.
    + rewrite sort_by_key_perm. apply Forall_forall. intros p Hp.
      apply list_elem_of_In, filter_In in Hp. destruct Hp as [_ Hp].
      by apply negb_true_iff.
Qed.

End StaffOrderingProperties.

(** * Properties of the spreadsheet layout *)

Lemma custom_role_headers_fold (roles : list (Z * string)) :
  forall acc : list string,
    fold_left
      (fun acc r => acc ++ [(r.2 ++ " Hrs")%string;
                             (r.2 ++ " Rate (£)")%string])
      roles acc
    = acc ++ custom_role_headers roles.
Proof.
  unfold custom_role_headers.
  induction roles as [|r roles IH] using rev_ind; intros acc; simpl.
  - by rewrite app_nil_r.
  - rewrite !fold_left_app. simpl. rewrite IH, (IH []). simpl.
    by rewrite app_assoc.
Qed.

Lemma custom_role_headers_cons (r : Z * string) (roles : list (Z * string)) :
  custom_role_headers (r :: roles)
  = (r.2 ++ " Hrs")%string :: (r.2 ++ " Rate (£)")%string
    :: custom_role_headers roles.
Proof.
  unfold custom_role_headers at 1. simpl.
  by rewrite custom_role_headers_fold.
Qed.

Lemma custom_role_headers_length (roles : list (Z * string)) :
  length (custom_role_headers roles) = (2 * length roles)%nat.
Proof.
  induction roles as [|r roles IH]; [done |].
  rewrite custom_role_headers_cons. simpl. lia.
Qed.

Lemma custom_role_headers_lookup (roles : list (Z * string)) :
  forall (i : nat) (r : Z * string),
    roles !! i = Some r ->
    custom_role_headers roles !! (2 * i)%nat = Some (r.2 ++ " Hrs")%string
    /\ custom_role_headers roles !! (2 * i + 1)%nat
       = Some (r.2 ++ " Rate (£)")%string.
Proof.
  induction roles as [|r0 roles IH]; intros i r Hi; [done |].
  rewrite custom_role_headers_cons. destruct i as [|i].
  - injection Hi as <-. done.
  - replace (2 * S i)%nat with (S (S (2 * i))) by lia.
    replace (S (S (2 * i)) + 1)%nat with (S (S (2 * i + 1))) by lia.
    simpl in Hi. by apply IH.
Qed.

(** X25. The column numbers used for the formulas match the header row:
    with [n] custom-role header cells the header row has [total_pay_col n]
    cells, each named column number points at the header of that name, and
    the role at position [i] of the sorted roles has its hours header in
    column [8 + 2i] and its rate header in column [9 + 2i]. *)
Theorem columns_match_headers (roles : list (Z * string)) :
  let n := length (custom_role_headers roles) in
  let header_of (col : nat) := headers roles !! (col - 1)%nat in
  length (headers roles) = total_pay_col n
  /\ header_of weekly_hrs_col = Some "Weekly Hrs"%string
  /\ header_of total_hrs_col = Some "Total Hrs"%string
  /\ header_of fixed_hrs_col = Some "Fixed Hrs"%string
  /\ header_of hours_col = Some "Hours"%string
  /\ header_of rate1_col = Some "Rate 1 (£)"%string
  /\ header_of (on_call_hrs_col n) = Some "On-Call Hrs"%string
  /\ header_of (on_call_shifts_col n) = Some "On-Call Shifts"%string
  /\ header_of (on_call_flat_rate_col n) = Some "On-Call Flat Rate (£)"%string
  /\ header_of (overtime_hrs_col n) = Some "Overtime Hrs"%string
  /\ header_of (rate2_col n) = Some "Rate 2 (£)"%string
  /\ header_of (holiday_days_col n) = Some "Holiday (Days)"%string
  /\ header_of (holiday_hrs_col n) = Some "Holiday (Hrs)"%string
  /\ header_of (sickness_days_col n) = Some "Sickness (Days)"%string
  /\ header_of (total_pay_col n) = Some "TOTAL PAY (£)"%string
  /\ (forall i r, roles !! i = Some r ->
        header_of (custom_role_start_col + 2 * i)%nat
        = Some (r.2 ++ " Hrs")%string
        /\ header_of (custom_role_start_col + 2 * i + 1)%nat
           = Some (r.2 ++ " Rate (£)")%string).
Proof.
  intros n header_of. subst header_of. unfold headers.
  set (custom := custom_role_headers roles) in *.
  assert (forall k, (base_headers ++ custom ++ on_call_headers ++ end_headers)
                      !! (7 + n + k)%nat
                    = (on_call_headers ++ end_headers) !! k) as Htail.
  { intros k. rewrite lookup_app_r by (simpl; lia).
    rewrite lookup_app_r by (simpl; fold n; lia).
    f_equal. simpl. fold n. lia. }
  unfold total_pay_col, sickness_days_col, holiday_hrs_col, holiday_days_col,
    rate2_col, overtime_hrs_col, on_call_flat_rate_col, on_call_shifts_col,
    on_call_hrs_col, custom_role_start_col, weekly_hrs_col, total_hrs_col,
    fixed_hrs_col, hours_col, rate1_col.
  split; [rewrite !length_app; simpl; fold n; lia |].
  do 5 (split; [reflexivity |]).
  split; [replace (8 + n - 1)%nat with (7 + n + 0)%nat by lia; by rewrite Htail |].
  split; [replace (8 + n + 1 - 1)%nat with (7 + n + 1)%nat by lia;
          by rewrite Htail |].
  split; [replace (8 + n + 1 + 1 - 1)%nat with (7 + n + 2)%nat by lia;
          by rewrite Htail |].
  split; [replace (8 + n + 1 + 1 + 1 - 1)%nat with (7 + n + 3)%nat by lia;
          by rewrite Htail |].
  split; [replace (8 + n + 1 + 1 + 1 + 1 - 1)%nat with (7 + n + 4)%nat by lia;
          by rewrite Htail |].
  split; [replace (8 + n + 1 + 1 + 1 + 1 + 1 - 1)%nat
            with (7 + n + 5)%nat by lia; by rewrite Htail |].
  split; [replace (8 + n + 1 + 1 + 1 + 1 + 1 + 1 - 1)%nat
            with (7 + n + 6)%nat by lia; by rewrite Htail |].
  split; [replace (8 + n + 1 + 1 + 1 + 1 + 1 + 1 + 1 - 1)%nat
            with (7 + n + 7)%nat by lia; by rewrite Htail |].
  split; [replace (8 + n + 1 + 1 + 1 + 1 + 1 + 1 + 1 + 1 - 1)%nat
            with (7 + n + 8)%nat by lia; by rewrite Htail |].
  intros i r Hi.
  destruct (custom_role_headers_lookup roles i r Hi) as [Hh Hr].
  pose proof (lookup_lt_Some _ _ _ Hi) as Hlt.
  pose proof (custom_role_headers_length roles) as Hlen. fold custom in Hlen.
  split.
  - replace (8 + 2 * i - 1)%nat with (length base_headers + 2 * i)%nat
      by (simpl; lia).
    rewrite lookup_app_r by lia.
    replace (length base_headers + 2 * i - length base_headers)%nat
      with (2 * i)%nat by lia.
    rewrite lookup_app_l by lia. exact Hh.
  - replace (8 + 2 * i + 1 - 1)%nat with (length base_headers + (2 * i + 1))%nat
      by (simpl; lia).
    rewrite lookup_app_r by lia.
    replace (length base_headers + (2 * i + 1) - length base_headers)%nat
      with (2 * i + 1)%nat by lia.
    rewrite lookup_app_l by lia. exact Hr.
Qed.

Lemma odd_offset (m : nat) : ((2 * m + 1) mod 2 = 1)%nat.
Proof.
  replace (2 * m + 1)%nat with (1 + m * 2)%nat by lia.
  by rewrite Nat.Div0.mod_add.
Qed.

Lemma even_offset (m : nat) : ((2 * m) mod 2 = 0)%nat.
Proof.
  replace (2 * m)%nat with (0 + m * 2)%nat by lia.
  by rewrite Nat.Div0.mod_add.
Qed.

Lemma sum_columns_fold (roles : list (Z * string)) :
  forall (cols : list nat) (off : nat),
    fst (fold_left
           (fun '(cols, col_offset) (_ : Z * string) =>
              (cols ++ [custom_role_start_col + col_offset], col_offset + 2)%nat)
           roles (cols, off))
    = cols ++ ((fun i => custom_role_start_col + off + 2 * i)%nat
               <$> seq 0 (length roles)).
Proof.
  induction roles as [|r roles IH]; intros cols off; simpl.
  - by rewrite app_nil_r.
  - rewrite IH, <- app_assoc. f_equal. simpl. f_equal; [f_equal; lia |].
    rewrite <- (fmap_S_seq 0), <- list_fmap_compose.
    apply list_fmap_ext. intros _ i _. simpl. lia.
Qed.

Lemma sum_columns_eq (roles : list (Z * string)) :
  let n := length (custom_role_headers roles) in
  sum_columns roles
  = [weekly_hrs_col; total_hrs_col; fixed_hrs_col; hours_col]
    ++ ((fun i => custom_role_start_col + 2 * i)%nat <$> seq 0 (length roles))
    ++ [on_call_hrs_col n; on_call_shifts_col n; overtime_hrs_col n;
        holiday_days_col n; holiday_hrs_col n; sickness_days_col n;
        total_pay_col n].
Proof.
  intros n. unfold sum_columns. fold n. rewrite sum_columns_fold.
  rewrite <- app_assoc. by do 2 f_equal.
Qed.

(** X26. The totals row sums the hours columns and the total pay but no
    rate column: not Rate 1, Rate 2 or the on-call flat rate, and for each
    custom role the hours column but not the rate column. *)
Theorem totals_row_skips_rates (roles : list (Z * string)) :
  let n := length (custom_role_headers roles) in
  (rate1_col ∉ sum_columns roles)
  /\ (rate2_col n ∉ sum_columns roles)
  /\ (on_call_flat_rate_col n ∉ sum_columns roles)
  /\ (total_pay_col n ∈ sum_columns roles)
  /\ (forall i, (i < length roles)%nat ->
        ((custom_role_start_col + 2 * i)%nat ∈ sum_columns roles)
        /\ ((custom_role_start_col + 2 * i + 1)%nat ∉ sum_columns roles)).
Proof.
  intros n. rewrite sum_columns_eq. fold n.
  pose proof (custom_role_headers_length roles) as Hn. fold n in Hn.
  unfold total_pay_col, sickness_days_col, holiday_hrs_col, holiday_days_col,
    rate2_col, overtime_hrs_col, on_call_flat_rate_col, on_call_shifts_col,
    on_call_hrs_col, custom_role_start_col, weekly_hrs_col, total_hrs_col,
    fixed_hrs_col, hours_col, rate1_col.
  assert (forall c : nat,
            c ∈ [3; 4; 5; 6]%nat
                ++ ((fun i => 8 + 2 * i)%nat <$> seq 0 (length roles))
                ++ [8 + n; 8 + n + 1; 8 + n + 1 + 1 + 1; 8 + n + 1 + 1 + 1 + 1 + 1;
                    8 + n + 1 + 1 + 1 + 1 + 1 + 1;
                    8 + n + 1 + 1 + 1 + 1 + 1 + 1 + 1;
                    8 + n + 1 + 1 + 1 + 1 + 1 + 1 + 1 + 1]%nat
            <-> (3 <= c <= 6
                 \/ (exists i, i < length roles /\ c = 8 + 2 * i)
                 \/ c = 8 + n \/ c = 9 + n \/ c = 11 + n \/ c = 13 + n
                 \/ c = 14 + n \/ c = 15 + n \/ c = 16 + n)%nat) as Hmem.
  { intros c. rewrite !elem_of_app, list_elem_of_fmap.
    rewrite !elem_of_cons, !elem_of_nil.
    split.
    - intros [H | [(i & -> & Hi) | H]].
      + lia.
      + right. left. exists i. apply elem_of_seq in Hi. split; [lia | done].
      + lia.
    - intros [H | [(i & Hi & ->) | H]].
      + left. lia.
      + right. left. exists i. split; [done |]. apply elem_of_seq. lia.
      + right. right. lia. }
  rewrite !Hmem. repeat split.
  - intros [H | [(i & Hi & H) | H]]; lia.
  - intros [H | [(i & Hi & H) | H]]; lia.
  - intros [H | [(i & Hi & H) | H]]; lia.
  - lia.
  - apply Hmem. right. left. by exists i.
  - rewrite Hmem. intros [Hc | [(j & Hj & Hc) | Hc]]; lia.
Qed.

(** X27. In the totals row the sums of Weekly, Total and Fixed hours,
    Hours, every custom-role hours column, On-Call Hrs and Holiday (Hrs) get
    the plain number format and the total pay the currency format, but the
    sums of On-Call Shifts, Overtime Hrs, Holiday (Days) and Sickness (Days)
    get the currency format as well: their columns lie an odd number of
    columns after the first custom-role column. *)
Theorem totals_row_formats (roles : list (Z * string)) :
  let n := length (custom_role_headers roles) in
  total_cell_format n weekly_hrs_col = PlainNumberFormat
  /\ total_cell_format n total_hrs_col = PlainNumberFormat
  /\ total_cell_format n fixed_hrs_col = PlainNumberFormat
  /\ total_cell_format n hours_col = PlainNumberFormat
  /\ (forall i, (i < length roles)%nat ->
        total_cell_format n (custom_role_start_col + 2 * i)
        = PlainNumberFormat)
  /\ total_cell_format n (on_call_hrs_col n) = PlainNumberFormat
  /\ total_cell_format n (holiday_hrs_col n) = PlainNumberFormat
  /\ total_cell_format n (total_pay_col n) = CurrencyFormat
  /\ total_cell_format n (on_call_shifts_col n) = CurrencyFormat
  /\ total_cell_format n (overtime_hrs_col n) = CurrencyFormat
  /\ total_cell_format n (holiday_days_col n) = CurrencyFormat
  /\ total_cell_format n (sickness_days_col n) = CurrencyFormat.
Proof.
  intros n.
  pose proof (custom_role_headers_length roles) as Hn. fold n in Hn.
  unfold total_cell_format.
  unfold total_pay_col, sickness_days_col, holiday_hrs_col, holiday_days_col,
    rate2_col, overtime_hrs_col, on_call_flat_rate_col, on_call_shifts_col,
    on_call_hrs_col, custom_role_start_col, weekly_hrs_col, total_hrs_col,
    fixed_hrs_col, hours_col, rate1_col.
  set (m := length roles) in *.
  assert (forall c k : nat,
            (c <> 16 + n)%nat -> (c <> 7)%nat -> (c <> 12 + n)%nat ->
            (c <> 10 + n)%nat ->
            (c < 8 \/ c = 8 + 2 * k)%nat ->
            (if (c =? 8 + n + 1 + 1 + 1 + 1 + 1 + 1 + 1 + 1)%nat
             then CurrencyFormat
             else if bool_decide
                       (c ∈ [7; 8 + n + 1 + 1 + 1 + 1; 8 + n + 1 + 1]%nat)
                     || ((8 <=? c)%nat && ((c - 8) mod 2 =? 1)%nat)
             then CurrencyFormat else PlainNumberFormat)
            = PlainNumberFormat) as Hplain.
  { intros c k H1 H2 H3 H4 Hc.
    destruct (Nat.eqb_spec c (8 + n + 1 + 1 + 1 + 1 + 1 + 1 + 1 + 1)); [lia |].
    rewrite bool_decide_eq_false_2.
    2:{ rewrite !elem_of_cons, elem_of_nil. lia. }
    destruct Hc as [Hc | ->].
    - destruct (Nat.leb_spec 8 c); [lia | done].
    - replace (8 + 2 * k - 8)%nat with (2 * k)%nat by lia.
      by rewrite even_offset, andb_false_r. }
  assert (forall c k : nat,
            c = (8 + (2 * k + 1))%nat ->
            (if (c =? 8 + n + 1 + 1 + 1 + 1 + 1 + 1 + 1 + 1)%nat
             then CurrencyFormat
             else if bool_decide
                       (c ∈ [7; 8 + n + 1 + 1 + 1 + 1; 8 + n + 1 + 1]%nat)
                     || ((8 <=? c)%nat && ((c - 8) mod 2 =? 1)%nat)
             then CurrencyFormat else PlainNumberFormat)
            = CurrencyFormat) as Hcur.
  { intros c k ->. destruct (_ =? _)%nat; [done |].
    replace (8 + (2 * k + 1) - 8)%nat with (2 * k + 1)%nat by lia.
    rewrite odd_offset. destruct (Nat.leb_spec 8 (8 + (2 * k + 1))); [| lia].
    by rewrite orb_true_r. }
  split; [apply (Hplain 3%nat 0%nat); lia |].
  split; [apply (Hplain 4%nat 0%nat); lia |].
  split; [apply (Hplain 5%nat 0%nat); lia |].
  split; [apply (Hplain 6%nat 0%nat); lia |].
  split; [intros i Hi; apply (Hplain _ i); lia |].
  split; [apply (Hplain _ m); lia |].
  split; [apply (Hplain _ (m + 3)%nat); lia |].
  split; [by rewrite Nat.eqb_refl |].
  split; [apply (Hcur _ m); lia |].
  split; [apply (Hcur _ (m + 1)%nat); lia |].
  split; [apply (Hcur _ (m + 2)%nat); lia |].
  apply (Hcur _ (m + 3)%nat); lia.
Qed.

(** * Properties of the image type detection *)

(** X28. The signature checks look at the first twelve bytes only: the
    detected type of a header is the detected type of its first twelve
    bytes. *)
Theorem signature_uses_first_twelve_bytes (b : list Byte.byte) :
  signature_what (take 12 b) = signature_what b.
Proof.
  unfold signature_what, startswith.
  assert (drop 8 (take 12 b) = take 4 (drop 8 b)) as ->
    by (symmetry; apply (take_drop_commute b 4 8)).
  rewrite !take_take. cbn [length sig_jpeg sig_png sig_bmp sig_ico1 sig_ico2
                                  Nat.min].
  replace (12 <=? length (take 12 b))%nat with (12 <=? length b)%nat; [done |].
  rewrite length_take.
  destruct (Nat.leb_spec 12 (length b)), (Nat.leb_spec 12 (12 `min` length b));
    lia.
Qed.

Lemma take_first_byte (k : nat) (b p : list Byte.byte) (x : Byte.byte) :
  take (S k) b = x :: p -> head b = Some x.
Proof. destruct b as [|y b]; [done |]. simpl. by intros [= -> _]. Qed.

Lemma startswith_first_byte (b p : list Byte.byte) (x : Byte.byte) :
  startswith b (x :: p) = true -> head b = Some x.
Proof.
  unfold startswith. intros H%bool_decide_eq_true. simpl in H.
  by eapply take_first_byte.
Qed.

(** X29. No header matches two signatures, so each check decides alone and
    the order of the checks does not matter: the detected type is jpeg, png,
    gif, bmp, webp or ico exactly when the header carries that signature,
    and nothing is detected exactly when it carries none. *)
Theorem signatures_are_exclusive (b : list Byte.byte) :
  let jpeg := startswith b sig_jpeg in
  let png := startswith b sig_png in
  let gif := bool_decide (take 6 b = sig_gif87a)
             || bool_decide (take 6 b = sig_gif89a) in
  let bmp := startswith b sig_bmp in
  let webp := (12 <=? length b)%nat && bool_decide (take 4 b = sig_riff)
              && bool_decide (take 4 (drop 8 b) = sig_webp) in
  let ico := startswith b sig_ico1 || startswith b sig_ico2 in
  (signature_what b = Some "jpeg"%string <-> jpeg = true)
  /\ (signature_what b = Some "png"%string <-> png = true)
  /\ (signature_what b = Some "gif"%string <-> gif = true)
  /\ (signature_what b = Some "bmp"%string <-> bmp = true)
  /\ (signature_what b = Some "webp"%string <-> webp = true)
  /\ (signature_what b = Some "ico"%string <-> ico = true)
  /\ (signature_what b = None
      <-> jpeg || png || gif || bmp || webp || ico = false).
Proof.
  intros jpeg png gif bmp webp ico.
  assert (jpeg = true -> head b = Some Byte.xff) as Hjpeg
    by apply startswith_first_byte.
  assert (png = true -> head b = Some Byte.x89) as Hpng
    by apply startswith_first_byte.
  assert (gif = true -> head b = Some Byte.x47) as Hgif.
  { subst gif. intros [H | H]%orb_true_iff; apply bool_decide_eq_true in H;
      by eapply take_first_byte. }
  assert (bmp = true -> head b = Some Byte.x42) as Hbmp
    by apply startswith_first_byte.
  assert (webp = true -> head b = Some Byte.x52) as Hwebp.
  { subst webp. intros [[_ H]%andb_true_iff _]%andb_true_iff.
    apply bool_decide_eq_true in H. by eapply take_first_byte. }
  assert (ico = true -> head b = Some Byte.x00) as Hico.
  { subst ico. intros [H | H]%orb_true_iff;
      by eapply startswith_first_byte. }
  unfold signature_what. fold jpeg png gif bmp webp ico.
  destruct jpeg, png, gif, bmp, webp, ico; cbn [orb];
    repeat match goal with
           | H : true = true -> _ |- _ => specialize (H eq_refl)
           | H : false = true -> _ |- _ => clear H
           end;
    try (exfalso; congruence);
    repeat split; try done.
Qed.

(** * The further properties on sample inputs *)

Example png_header_detected :
  signature_what
    [Byte.x89; Byte.x50; Byte.x4e; Byte.x47; Byte.x0d; Byte.x0a; Byte.x1a;
     Byte.x0a; Byte.x00; Byte.x00] = Some "png"%string
  /\ signature_what [Byte.x89; Byte.x50] = None
  /\ what_header (fun _ => None) [] = None.
Proof. repeat split. Qed.

Example sample_headers :
  headers [(4, "Care"%string)]
  = ["Employee Name"; "Pay Type"; "Weekly Hrs"; "Total Hrs"; "Fixed Hrs";
     "Hours"; "Rate 1 (£)"; "Care Hrs"; "Care Rate (£)"; "On-Call Hrs";
     "On-Call Shifts"; "On-Call Flat Rate (£)"; "Overtime Hrs"; "Rate 2 (£)";
     "Holiday (Days)"; "Holiday (Hrs)"; "Sickness (Days)";
     "TOTAL PAY (£)"]%string
  /\ sum_columns [(4, "Care"%string)]
     = [3; 4; 5; 6; 8; 10; 11; 13; 15; 16; 17; 18]%nat.
Proof. repeat split. Qed.

Lemma on_call_hours_ignore_irrelevant_witness :
  let stubs := [mkOnCallShift (Some 101) 1736712000 1736740800 0] in
  let records :=
    [sample_attendance 1 8; sample_attendance 2 8;
     mkAttendance (Some 101) (Some 1736712000) (Some 1736719200) true] in
  ((calculate_on_call_hours sample_converts stubs
      (Some [sample_attendance 1 8])).1.1
   == (calculate_on_call_hours sample_converts stubs (Some records)).1.1)%Q.
Proof.
  intros stubs records.
  apply (on_call_hours_ignore_irrelevant sample_converts stubs records).
Defined.

Lemma on_call_hours_monotone_witness :
  let stubs := [mkOnCallShift (Some 101) 1736712000 1736740800 0] in
  ((calculate_on_call_hours sample_converts stubs (Some [])).1.1
   <= (calculate_on_call_hours sample_converts stubs
         (Some ([] ++ [sample_attendance 1 8]))).1.1)%Q.
Proof.
  intros stubs.
  apply (on_call_hours_monotone sample_converts stubs [] [sample_attendance 1 8]).
Defined.

Lemma leave_totals_are_period_sums_witness :
  let sick :=
    mkLeaveRecord (Some "approved"%string) (Some 3)
      [mkLeaveDate (Some (mkDate 2025 1 20)) (Some 1%Q) (Some 8%Q);
       mkLeaveDate (Some (mkDate 2025 2 11)) (Some 1%Q) (Some 8%Q)] in
  let r := calculate_leave_hours (Some [sick]) (mkDate 2025 1 11)
             (mkDate 2025 2 10) in
  (r.1.1 == 0)%Q /\ (r.1.2 == 0)%Q /\ (r.2 == 1)%Q.
Proof.
  intros sick r.
  destruct (leave_totals_are_period_sums (Some [sick]) (mkDate 2025 1 11)
              (mkDate 2025 2 10)) as (Hd & Hh & Hs).
  split; [| split].
  - eapply Qeq_trans; [exact Hd |]. reflexivity.
  - eapply Qeq_trans; [exact Hh |]. reflexivity.
  - eapply Qeq_trans; [exact Hs |]. reflexivity.
Defined.

Lemma classifier_seconds_conserved_witness :
  let st :=
    fold_left (classify_step sample_role_name {[4 := 20%Q]})
      [sample_base_shift 1; sample_on_call_shift 1;
       mkShift (Some 7) (Some 1736589600) (Some 1736596800) None (Some 5)]
      (mkClassifyState 0 0 ∅ [] ∅ ∅) in
  total_seconds st = base_rate_seconds st + custom_seconds (role_hours st).
Proof.
  apply (classifier_seconds_conserved sample_role_name {[4 := 20%Q]} ∅ ∅).
Defined.

Lemma payroll_names_follow_users_witness :
  let out :=
    payroll_data
      (build_payroll_data sample_role_name sample_converts 31
         (mkDate 2025 1 11) (mkDate 2025 2 10)
         (users_to_process {[1]}
            [worked_example_user; unattended_user; custom_role_user])) in
  (employee_name <$> out)
    `sublist_of` (user_name
                    <$> users_to_process {[1]}
                          [worked_example_user; unattended_user;
                           custom_role_user])
  /\ (length out <= 3)%nat.
Proof.
  intros out.
  destruct (payroll_names_follow_users sample_role_name sample_converts 31
              (mkDate 2025 1 11) (mkDate 2025 2 10) {[1]}
              [worked_example_user; unattended_user; custom_role_user])
    as (Hsub & _ & Hlen).
  split; [exact Hsub | exact Hlen].
Defined.

Lemma order_staff_sorted_witness :
  let hourly := mkPayrollRecord "bob" (Some "hourly"%string)
                  0 12 40 10 10 160 12 10 ∅ 0 0 0 0 0 in
  let salaried := mkPayrollRecord "zoe" (Some "annual"%string)
                    36000 0 40 0 0 160 17 0 ∅ 0 0 0 1 0 in
  order_staff (fun s => s) [hourly; salaried] ≡ₚ [hourly; salaried].
Proof.
  intros hourly salaried.
  apply (order_staff_sorted (fun s => s) [hourly; salaried]).
Defined.

Lemma columns_match_headers_witness :
  headers [(4, "Care"%string); (7, "Night"%string)] !! (10 - 1)%nat
  = Some "Night Hrs"%string.
Proof.
  destruct (columns_match_headers [(4, "Care"%string); (7, "Night"%string)])
    as (_ & _ & _ & _ & _ & _ & _ & _ & _ & _ & _ & _ & _ & _ & _ & Hroles).
  apply (Hroles 1%nat (7, "Night"%string)). reflexivity.
Defined.

Lemma totals_row_skips_rates_witness :
  (8 + 2 * 0)%nat ∈ sum_columns [(4, "Care"%string)]
  /\ ((8 + 2 * 0 + 1)%nat ∉ sum_columns [(4, "Care"%string)]).
Proof.
  destruct (totals_row_skips_rates [(4, "Care"%string)])
    as (_ & _ & _ & _ & Hroles).
  apply (Hroles 0%nat). simpl. lia.
Defined.

Lemma totals_row_formats_witness :
  total_cell_format 2 (on_call_shifts_col 2) = CurrencyFormat
  /\ total_cell_format 2 (custom_role_start_col + 2 * 0) = PlainNumberFormat.
Proof.
  destruct (totals_row_formats [(4, "Care"%string)])
    as (_ & _ & _ & _ & Hroles & _ & _ & _ & Hshifts & _).
  split; [exact Hshifts |]. apply (Hroles 0%nat). simpl. lia.
Defined.

Lemma signature_uses_first_twelve_bytes_witness :
  signature_what
    (take 12 [Byte.x52; Byte.x49; Byte.x46; Byte.x46; Byte.x10; Byte.x00;
              Byte.x00; Byte.x00; Byte.x57; Byte.x45; Byte.x42; Byte.x50;
              Byte.x56; Byte.x50])
  = signature_what
      [Byte.x52; Byte.x49; Byte.x46; Byte.x46; Byte.x10; Byte.x00;
       Byte.x00; Byte.x00; Byte.x57; Byte.x45; Byte.x42; Byte.x50;
       Byte.x56; Byte.x50].
Proof. apply signature_uses_first_twelve_bytes. Defined.

Lemma signatures_are_exclusive_witness :
  signature_what [Byte.x42; Byte.x4d; Byte.x00] = Some "bmp"%string.
Proof.
  destruct (signatures_are_exclusive [Byte.x42; Byte.x4d; Byte.x00])
    as (_ & _ & _ & Hbmp & _).
  apply Hbmp. reflexivity.
Defined.
